(** * Personal Finance Tracker: the ledger, its aggregates and the monthly report

    A shallow embedding of [Personal_Finance_Tracker.py].  The tracker keeps
    one pandas DataFrame ([self.df]) with the columns Date, Amount, Category
    and Description; the aggregators group and sum the Amount column, and
    two of them first write a derived Month column into the frame.

    The Amount column holds what [float(amount)] returns.  The development is
    stated over an interface [AmountArith] of the few operations the code applies
    to such values, and instantiated twice: at IEEE binary64 (the arithmetic
    the program runs on) and at exact integers (minor currency units). *)

From Stdlib Require Import List String Ascii Bool Arith ZArith Lia.
From Stdlib Require Import Sorted Permutation RelationClasses.
From Stdlib Require Import OrderedTypeEx.
From Stdlib Require Import QArith SpecFloat.
Import ListNotations.

Local Close Scope Q_scope.
Local Open Scope string_scope.
Local Open Scope list_scope.

(** ** Values of the Python runtime *)

(** [datetime] / [pd.Timestamp], to day granularity. *)
Record Timestamp := mkTimestamp { year : nat; month : nat; day : nat }.

Definition digit (n : nat) : ascii := ascii_of_nat (48 + n mod 10).

(** [n] in decimal, in [width] digits. *)
Fixpoint zfill (width n : nat) : string :=
  match width with
  | 0 => EmptyString
  | S w => zfill w (n / 10) ++ String (digit n) EmptyString
  end.

(** [ts.strftime('%Y-%m')] *)
Definition strftime_Ym (ts : Timestamp) : string :=
  zfill 4 (year ts) ++ "-" ++ zfill 2 (month ts).

Arguments digit : simpl never.
Arguments strftime_Ym : simpl never.

(** Exceptions that leave [add_expense]. *)
Inductive exn := ValueError | TypeError.

Inductive except (T : Type) :=
| Value (v : T)
| Raise (e : exn).
Arguments Value {T} v.
Arguments Raise {T} e.

(** ** The arithmetic of the Amount column *)

Class AmountArith (A : Type) := {
  amt_zero : A;                          (* 0, where every sum starts *)
  amt_add : A -> A -> A;                 (* the addition [.sum()] folds *)
  amt_isnan : A -> bool;                 (* NaN test, for fillna and sorting *)
  amt_geb : A -> A -> bool;              (* x >= y *)
  amt_of_str : string -> option A        (* float(text); None: ValueError *)
}.

(** What a caller may pass where a number is expected. *)
Inductive PyObject (A : Type) :=
| PyFloat (x : A)
| PyStr (s : string)
| PyNone.
Arguments PyFloat {A} x.
Arguments PyStr {A} s.
Arguments PyNone {A}.

(** The [date] argument of [add_expense], by what [pd.to_datetime] makes of it. *)
Inductive DateArg :=
| DateOmitted                     (* date=None *)
| DateParsed (ts : Timestamp)     (* pd.to_datetime(date) returns ts *)
| DateRejected.                   (* pd.to_datetime(date) raises *)

(** Column dtypes the Description column can have: [object] in a frame the
    tracker built itself, [float64] when [read_csv] found no text in it. *)
Inductive dtype := dt_object | dt_float64.

Section Tracker.

Context {A : Type} `{AmountArith A}.

(** [float(amount)] *)
Definition py_float (o : PyObject A) : except A :=
  match o with
  | PyFloat x => Value x
  | PyStr s => match amt_of_str s with Some x => Value x | None => Raise ValueError end
  | PyNone => Raise TypeError
  end.

(** [Series.sum()] and the sum of a group: NaN entries are skipped
    ([skipna=True]), the others accumulated from zero in row order.  On a
    float64 column pandas adds a group with a running compensation, and
    numpy adds a whole column of eight or more entries pairwise; both give
    the number defined here whenever the accumulation in row order never
    rounds (for a whole column: when it has fewer than eight entries).
    Statements about binary64 totals are made within that scope, or about
    an arithmetic that never rounds. *)
Definition Series_sum (l : list A) : A :=
  fold_left amt_add (filter (fun x => negb (amt_isnan x)) l) amt_zero.

(** Position order of [sort_values(ascending=False)]: larger first, NaN last. *)
Definition before (x y : A) : bool :=
  amt_isnan y || (negb (amt_isnan x) && amt_geb x y).

(** ** The DataFrame *)

(** A cell of the Description column. *)
Inductive cell :=
| Text (s : string)
| Number (x : A)
| Missing.

Record Row := mkRow {
  Date : Timestamp;
  Amount : A;
  Category : string;
  Description : cell;
  Month : option string      (* NaN where the column has no value *)
}.

Record DataFrame := mkDataFrame {
  columns : list string;
  Description_dtype : dtype;
  rows : list Row
}.

Definition base_columns : list string :=
  ["Date"; "Amount"; "Category"; "Description"].

(** [pd.DataFrame(columns=['Date', 'Amount', 'Category', 'Description'])] *)
Definition empty_frame : DataFrame :=
  {| columns := base_columns; Description_dtype := dt_object; rows := [] |}.

(** [self.categories] *)
Definition categories : list string :=
  ["Food"; "Transportation"; "Housing"; "Entertainment";
   "Utilities"; "Healthcare"; "Shopping"; "Education"; "Other"].

(** ** The tracker object and what it prints and writes *)

Record Tracker := mkTracker { df : DataFrame }.

Record Report := mkReport {
  total_spent : A;
  category_spending : list (string * A);
  top_expenses : list Row
}.

Inductive message :=
| InvalidDateMsg                       (* "Invalid date format. Using current date." *)
| InvalidCategoryMsg                   (* "Invalid category. Please choose from: ..." *)
| ExpenseAddedMsg                      (* "Expense added successfully!" *)
| NoExpensesMsg (m : string)           (* "No expenses found for <m>" *)
| ReportMsg (m : string) (r : Report)  (* the lines of the report *)
| ReportSavedMsg (m : string).         (* "Report saved to: ..." *)

Inductive effect :=
| Print (msg : message)
| ToCsv (frame : DataFrame)                 (* self.df.to_csv(self.data_file) *)
| WriteReport (m : string) (r : Report).    (* report_<m>.txt *)

(** ** Grouping *)

(** Group keys come out sorted and without repetition ([groupby(sort=True)]). *)
Fixpoint insert_key (k : string) (ks : list string) : list string :=
  match ks with
  | [] => [k]
  | k' :: ks' =>
      match String.compare k k' with
      | Lt => k :: ks
      | Eq => ks
      | Gt => k' :: insert_key k ks'
      end
  end.

Definition unique_sorted (ks : list string) : list string :=
  fold_right insert_key [] ks.

Definition has_key (key : Row -> option string) (k : string) (r : Row) : bool :=
  match key r with
  | Some k' => String.eqb k' k
  | None => false
  end.

(** Rows whose key is NaN belong to no group. *)
Definition group_keys (key : Row -> option string) (rs : list Row) : list string :=
  unique_sorted
    (flat_map (fun r => match key r with Some k => [k] | None => [] end) rs).

Definition group (key : Row -> option string) (rs : list Row) (k : string)
  : list Row :=
  filter (has_key key k) rs.

(** [frame.groupby(key)['Amount'].sum()] *)
Definition groupby_sum (key : Row -> option string) (rs : list Row)
  : list (string * A) :=
  map (fun k => (k, Series_sum (map Amount (group key rs k)))) (group_keys key rs).

Definition by_category (r : Row) : option string := Some (Category r).

(** ** Sorting

    [sort_values(ascending=False)] with pandas' default [kind='quicksort'].
    The source fixes neither the algorithm nor what it does with equal keys,
    so the sort is an operation of the environment. *)
Class SortValues := sort_values_desc : forall T : Type, (T -> A) -> list T -> list T.

(** Insertion that keeps an earlier row ahead of later rows of equal key. *)
Fixpoint insert_desc {T : Type} (key : T -> A) (x : T) (l : list T) : list T :=
  match l with
  | [] => [x]
  | y :: l' =>
      if before (key x) (key y) then x :: l else y :: insert_desc key x l'
  end.

Definition stable_sort : SortValues :=
  fun T key l => fold_right (insert_desc key) [] l.

(** ** [PersonalFinanceTracker] *)

(** [save_data]: the whole frame overwrites the data file. *)
Definition save_data (self : Tracker) : list effect := [ToCsv (df self)].

(** [__init__]: the frame [read_csv] yields when the data file exists,
    otherwise a new empty frame, saved at once. *)
Definition init (data_file : option DataFrame) : Tracker * list effect :=
  match data_file with
  | Some frame => ({| df := frame |}, [])
  | None =>
      let self := {| df := empty_frame |} in (self, save_data self)
  end.

Definition set_Description (r : Row) (c : cell) : Row :=
  {| Date := Date r; Amount := Amount r; Category := Category r;
     Description := c; Month := Month r |}.

Definition set_Month (r : Row) (m : option string) : Row :=
  {| Date := Date r; Amount := Amount r; Category := Category r;
     Description := Description r; Month := m |}.

(** [new_expense[col].astype(self.df[col].dtype)].  Date, Amount and Category
    already have the frame's dtypes; Description is converted when the frame
    holds it as float64. *)
Definition astype_col (frame : DataFrame) (col : string) (r : Row) : except Row :=
  if String.eqb col "Description" then
    match Description_dtype frame, Description r with
    | dt_float64, Text s =>
        match amt_of_str s with
        | Some x => Value (set_Description r (Number x))
        | None => Raise ValueError
        end
    | _, _ => Value r
    end
  else Value r.

(** The loop over [self.df.columns]. *)
Fixpoint align_dtypes (frame : DataFrame) (cols : list string) (r : Row)
  : except Row :=
  match cols with
  | [] => Value r
  | col :: cols' =>
      if in_dec string_dec col base_columns then
        match astype_col frame col r with
        | Value r' => align_dtypes frame cols' r'
        | Raise e => Raise e
        end
      else align_dtypes frame cols' r
  end.

(** [pd.concat([self.df, new_expense], ignore_index=True)] *)
Definition concat (frame : DataFrame) (r : Row) : DataFrame :=
  {| columns := columns frame;
     Description_dtype := Description_dtype frame;
     rows := rows frame ++ [r] |}.

Definition add_expense (self : Tracker) (amount : PyObject A)
    (category description : string) (date : DateArg) (now : Timestamp)
  : except bool * Tracker * list effect :=
  let '(date', out) :=
    match date with
    | DateOmitted => (now, [])
    | DateParsed ts => (ts, [])
    | DateRejected => (now, [Print InvalidDateMsg])
    end in
  if in_dec string_dec category categories then
    match py_float amount with
    | Raise e => (Raise e, self, out)
    | Value x =>
        let new_expense :=
          {| Date := date'; Amount := x; Category := category;
             Description := Text description; Month := None |} in
        match align_dtypes (df self) (columns (df self)) new_expense with
        | Raise e => (Raise e, self, out)
        | Value new_expense' =>
            let self' := {| df := concat (df self) new_expense' |} in
            (Value true, self',
             out ++ save_data self' ++ [Print ExpenseAddedMsg])
        end
    end
  else (Value false, self, out ++ [Print InvalidCategoryMsg]).

(** [self.df['Month'] = self.df['Date'].dt.strftime('%Y-%m')] *)
Definition assign_Month (frame : DataFrame) : DataFrame :=
  {| columns := if in_dec string_dec "Month" (columns frame)
                then columns frame else columns frame ++ ["Month"];
     Description_dtype := Description_dtype frame;
     rows := map (fun r => set_Month r (Some (strftime_Ym (Date r)))) (rows frame) |}.

Section Aggregates.

Context {sv : SortValues}.

Definition get_expenses_by_category (self : Tracker)
  : list (string * A) * Tracker :=
  (sort_values_desc _ snd (groupby_sum by_category (rows (df self))), self).

Definition get_expenses_by_month (self : Tracker)
  : list (string * A) * Tracker :=
  let frame := assign_Month (df self) in
  (groupby_sum Month (rows frame), {| df := frame |}).

(** [pivot_table(index='Month', columns='Category', values='Amount',
    aggfunc='sum')]: a cell is NaN where the month has no row of the category.
    pandas also leaves out a group whose sum is NaN ([dropna=True]), as the
    sum of infinite or overflowing amounts can be; the grid here is the one
    of ledgers whose sums are numbers. *)
Definition pivot_table (rs : list Row) : list (string * list (string * option A)) :=
  let indexed := filter (fun r => match Month r with Some _ => true | None => false end) rs in
  map (fun m =>
         (m, map (fun c =>
                    (c, match group by_category (group Month rs m) c with
                        | [] => None
                        | g => Some (Series_sum (map Amount g))
                        end))
                 (group_keys by_category indexed)))
      (group_keys Month rs).

(** [.fillna(0)] *)
Definition fillna0 (x : option A) : A :=
  match x with
  | Some v => if amt_isnan v then amt_zero else v
  | None => amt_zero
  end.

Definition get_category_expenses_by_month (self : Tracker)
  : list (string * list (string * A)) * Tracker :=
  let frame := assign_Month (df self) in
  (map (fun '(m, row) => (m, map (fun '(c, v) => (c, fillna0 v)) row))
       (pivot_table (rows frame)),
   {| df := frame |}).

(** [generate_monthly_report]; [now] is what [datetime.now()] returns.  The
    report is kept as data: the text rendering of its numbers is left out. *)
Definition generate_monthly_report (self : Tracker) (month_arg : option string)
    (now : Timestamp) : option Report * Tracker * list effect :=
  let m := match month_arg with Some m => m | None => strftime_Ym now end in
  let frame := assign_Month (df self) in
  let month_data := group Month (rows frame) m in
  match month_data with
  | [] => (None, {| df := frame |}, [Print (NoExpensesMsg m)])
  | _ =>
      let r :=
        {| total_spent := Series_sum (map Amount month_data);
           category_spending :=
             sort_values_desc _ snd (groupby_sum by_category month_data);
           top_expenses := firstn 5 (sort_values_desc _ Amount month_data) |} in
      (Some r, {| df := frame |},
       [Print (ReportMsg m r); WriteReport m r; Print (ReportSavedMsg m)])
  end.

End Aggregates.

End Tracker.

Arguments cell A : clear implicits.
Arguments Row A : clear implicits.
Arguments DataFrame A : clear implicits.
Arguments Tracker A : clear implicits.
Arguments Report A : clear implicits.
Arguments message A : clear implicits.
Arguments effect A : clear implicits.
Arguments SortValues A : clear implicits.

(** ** Reading a number from text: the grammar of Python's [float]
    on ASCII text

    Optional surrounding whitespace, an optional sign, then [inf],
    [infinity] or [nan] in any case, or a decimal literal: digits with an
    optional fraction and an optional exponent, single underscores allowed
    between digits. *)
Module Literal.

Definition is_space (c : ascii) : bool :=
  let n := nat_of_ascii c in
  ((n =? 32) || ((9 <=? n) && (n <=? 13)))%nat.

Definition lower (c : ascii) : ascii :=
  let n := nat_of_ascii c in
  if ((65 <=? n) && (n <=? 90))%nat then ascii_of_nat (n + 32) else c.

Fixpoint lstrip (l : list ascii) : list ascii :=
  match l with
  | c :: l' => if is_space c then lstrip l' else l
  | [] => []
  end.

Definition strip (l : list ascii) : list ascii :=
  rev (lstrip (rev (lstrip l))).

Definition digit_value (c : ascii) : option Z :=
  let n := nat_of_ascii c in
  if ((48 <=? n) && (n <=? 57))%nat then Some (Z.of_nat (n - 48)) else None.

(** Digits from the head of [l], and what follows them. *)
Fixpoint take_digits (after_digit : bool) (l : list ascii) : list Z * list ascii :=
  match l with
  | c :: l' =>
      match digit_value c with
      | Some d => let '(ds, rest) := take_digits true l' in (d :: ds, rest)
      | None =>
          if after_digit && Ascii.eqb c "_" then
            match take_digits false l' with
            | ([], _) => ([], l)
            | found => found
            end
          else ([], l)
      end
  | [] => ([], [])
  end.

Definition number (ds : list Z) : Z :=
  fold_left (fun acc d => 10 * acc + d)%Z ds 0%Z.

Inductive literal :=
| Infinity (negative : bool)
| NotANumber
| Decimal (negative : bool) (mantissa : Z) (exponent : Z).   (* mantissa * 10^exponent *)

Definition take_sign (l : list ascii) : bool * list ascii :=
  match l with
  | c :: l' =>
      if Ascii.eqb c "-" then (true, l')
      else if Ascii.eqb c "+" then (false, l')
      else (false, l)
  | [] => (false, [])
  end.

Definition parse_exponent (l : list ascii) : option Z :=
  match l with
  | [] => Some 0%Z
  | c :: l' =>
      if Ascii.eqb (lower c) "e" then
        let '(neg, l'') := take_sign l' in
        match take_digits false l'' with
        | (d :: ds, []) =>
            let e := number (d :: ds) in Some (if neg then (- e)%Z else e)
        | _ => None
        end
      else None
  end.

Definition parse_decimal (neg : bool) (l : list ascii) : option literal :=
  let '(ip, rest) := take_digits false l in
  let '(fp, rest') :=
    match rest with
    | c :: r => if Ascii.eqb c "." then take_digits false r else ([], rest)
    | [] => ([], [])
    end in
  match (ip ++ fp)%list with
  | [] => None
  | ds =>
      match parse_exponent rest' with
      | Some e => Some (Decimal neg (number ds) (e - Z.of_nat (List.length fp)))
      | None => None
      end
  end.

Definition parse (s : string) : option literal :=
  let '(neg, body) := take_sign (strip (list_ascii_of_string s)) in
  let word := string_of_list_ascii (map lower body) in
  if String.eqb word "inf" || String.eqb word "infinity" then Some (Infinity neg)
  else if String.eqb word "nan" then Some NotANumber
  else parse_decimal neg body.

End Literal.

(** ** The arithmetic the program runs on: IEEE binary64 *)
Module Binary64.

Definition prec : Z := 53.
Definition emax : Z := 1024.

Definition float64 : Type := spec_float.

Definition isnan (x : float64) : bool :=
  match x with S754_nan => true | _ => false end.

(** The float nearest to [m * 10^e]. *)
Definition of_decimal (neg : bool) (m e : Z) : float64 :=
  match m with
  | Zpos p =>
      if (0 <=? e)%Z
      then binary_round prec emax neg (p * Z.to_pos (10 ^ e)) 0
      else SFdiv prec emax (S754_finite neg p 0)
                           (S754_finite false (Z.to_pos (10 ^ (- e))) 0)
  | _ => S754_zero neg
  end.

Definition of_str (s : string) : option float64 :=
  match Literal.parse s with
  | Some (Literal.Infinity neg) => Some (S754_infinity neg)
  | Some Literal.NotANumber => Some S754_nan
  | Some (Literal.Decimal neg m e) => Some (of_decimal neg m e)
  | None => None
  end.

#[global] Instance arith : AmountArith float64 := {
  amt_zero := S754_zero false;
  amt_add := SFadd prec emax;
  amt_isnan := isnan;
  amt_geb := fun x y => SFleb y x;
  amt_of_str := of_str
}.

(** The rational a finite float stands for. *)
Definition to_Q (x : float64) : Q :=
  match x with
  | S754_finite s m e =>
      let v := if (0 <=? e)%Z then inject_Z (Zpos m * 2 ^ e)
               else Qmake (Zpos m) (Z.to_pos (2 ^ (- e))) in
      if s then Qopp v else v
  | _ => 0%Q
  end.

Definition is_finite (x : float64) : bool :=
  match x with
  | S754_finite _ _ _ | S754_zero _ => true
  | _ => false
  end.

(** "A finite non-negative number". *)
Definition finite_nonneg (x : float64) : bool :=
  match x with
  | S754_finite false _ _ | S754_zero _ => true
  | _ => false
  end.

(** Where a float that is not NaN stands on the line. *)
Definition rank (x : float64) : Z * Z * Z :=
  match x with
  | S754_infinity true => (-2, 0, 0)
  | S754_finite true m e => (-1, - e, - Zpos m)
  | S754_zero _ => (0, 0, 0)
  | S754_finite false m e => (1, e, Zpos m)
  | S754_infinity false => (2, 0, 0)
  | S754_nan => (0, 0, 0)
  end%Z.

Definition le3 (a b : Z * Z * Z) : Prop :=
  let '(a1, a2, a3) := a in
  let '(b1, b2, b3) := b in
  (a1 < b1 \/ (a1 = b1 /\ (a2 < b2 \/ (a2 = b2 /\ a3 <= b3))))%Z.

(** The sum of the amounts as rationals. *)
Definition exact_total (l : list float64) : Q :=
  fold_right Qplus 0%Q (map to_Q l).

(** Accumulating [l] onto [acc] never rounds: every partial sum is finite
    and is the exact sum of its two operands. *)
Fixpoint no_rounding (acc : float64) (l : list float64) : Prop :=
  match l with
  | [] => True
  | x :: l' =>
      is_finite (SFadd prec emax acc x) = true /\
      (to_Q (SFadd prec emax acc x) == to_Q acc + to_Q x)%Q /\
      no_rounding (SFadd prec emax acc x) l'
  end.

End Binary64.

(** ** Exact arithmetic: amounts counted in minor currency units *)
Module Exact.

Definition of_str (s : string) : option Z :=
  match Literal.parse s with
  | Some (Literal.Decimal neg m e) =>
      if (0 <=? e)%Z
      then Some (if neg then - (m * 10 ^ e) else m * 10 ^ e)%Z
      else None
  | _ => None
  end.

#[global] Instance arith : AmountArith Z := {
  amt_zero := 0%Z;
  amt_add := Z.add;
  amt_isnan := fun _ => false;
  amt_geb := fun x y => (y <=? x)%Z;
  amt_of_str := of_str
}.

End Exact.

(** ** The sort pandas runs by default

    [sort_values(ascending=False)] goes through pandas' [nargsort]: the keys
    that are NaN are set aside, the others are reversed, sorted ascending by
    numpy's [argsort(kind='quicksort')] and reversed again, and the NaN keys
    come last.  The argsort is rendered here as numpy's scalar routine runs
    it: an introsort over the index array, with median-of-three partitions,
    insertion sort for stretches of at most 17 entries and heapsort once the
    partitions nest deeper than twice the bit length of the column.  (Builds
    of numpy that sort doubles with SIMD networks order equal keys in their
    own way.) *)
Module Numpy.
Import Binary64.

Definition small_quicksort : nat := 16.

(** [a < b] as numpy's sorts compare doubles: NaN after everything. *)
Definition less (a b : float64) : bool :=
  SFltb a b || (isnan b && negb (isnan a)).

Definition get (a : list nat) (p : nat) : nat := nth p a 0.

Fixpoint put (a : list nat) (p x : nat) : list nat :=
  match a, p with
  | [], _ => []
  | _ :: a', 0 => x :: a'
  | y :: a', S p' => y :: put a' p' x
  end.

Definition swap (a : list nat) (p q : nat) : list nat :=
  put (put a p (get a q)) q (get a p).

Section Argsort.

Variable v : list float64.

Definition value_at (i : nat) : float64 := nth i v S754_nan.

Definition less_at (a : list nat) (p q : nat) : bool :=
  less (value_at (get a p)) (value_at (get a q)).

(** [do { ++pi; } while (less(v[*pi], vp))], entered after the increment. *)
Fixpoint scan_up (fuel : nat) (a : list nat) (vp : float64) (pi : nat) : nat :=
  match fuel with
  | 0 => pi
  | S fuel' =>
      if less (value_at (get a pi)) vp then scan_up fuel' a vp (S pi) else pi
  end.

(** [do { --pj; } while (less(vp, v[*pj]))], entered after the decrement. *)
Fixpoint scan_down (fuel : nat) (a : list nat) (vp : float64) (pj : nat) : nat :=
  match fuel with
  | 0 => pj
  | S fuel' =>
      if less vp (value_at (get a pj)) then scan_down fuel' a vp (pj - 1) else pj
  end.

Fixpoint partition_loop (fuel : nat) (a : list nat) (vp : float64) (pi pj : nat)
  : list nat * nat :=
  match fuel with
  | 0 => (a, pi)
  | S fuel' =>
      let pi' := scan_up (List.length a) a vp (S pi) in
      let pj' := scan_down (List.length a) a vp (pj - 1) in
      if (pj' <=? pi')%nat then (a, pi')
      else partition_loop fuel' (swap a pi' pj') vp pi' pj'
  end.

(** One partition of the stretch from [pl] to [pr]: the array and where the
    pivot came to stand. *)
Definition partition (a : list nat) (pl pr : nat) : list nat * nat :=
  let pm := pl + (pr - pl) / 2 in
  let a1 := if less_at a pm pl then swap a pm pl else a in
  let a2 := if less_at a1 pr pm then swap a1 pr pm else a1 in
  let a3 := if less_at a2 pm pl then swap a2 pm pl else a2 in
  let vp := value_at (get a3 pm) in
  let a4 := swap a3 pm (pr - 1) in
  let '(a5, pi) := partition_loop (List.length a) a4 vp pl (pr - 1) in
  (swap a5 pi (pr - 1), pi).

(** The inner loop of insertion sort: [vi] moves down from [pj]. *)
Fixpoint shift_down (fuel : nat) (a : list nat) (vi : nat) (pl pj : nat)
  : list nat :=
  match fuel with
  | 0 => put a pj vi
  | S fuel' =>
      if (pl <? pj)%nat && less (value_at vi) (value_at (get a (pj - 1)))
      then shift_down fuel' (put a pj (get a (pj - 1))) vi pl (pj - 1)
      else put a pj vi
  end.

Fixpoint insertion_loop (count : nat) (a : list nat) (pl pi : nat) : list nat :=
  match count with
  | 0 => a
  | S count' =>
      insertion_loop count' (shift_down (List.length a) a (get a pi) pl pi) pl (S pi)
  end.

Definition insertion_sort (a : list nat) (pl pr : nat) : list nat :=
  insertion_loop (pr - pl) a pl (S pl).

(** Heapsort of the [n] entries from [pl]; entry [k] of the heap, counted
    from 1, stands at [pl + k - 1]. *)
Fixpoint sift (fuel : nat) (a : list nat) (pl n tmp i j : nat) : list nat :=
  match fuel with
  | 0 => put a (pl + i - 1) tmp
  | S fuel' =>
      if (j <=? n)%nat then
        let j' := if (j <? n)%nat &&
                     less (value_at (get a (pl + j - 1))) (value_at (get a (pl + j)))
                  then S j else j in
        if less (value_at tmp) (value_at (get a (pl + j' - 1)))
        then sift fuel' (put a (pl + i - 1) (get a (pl + j' - 1))) pl n tmp j' (j' + j')
        else put a (pl + i - 1) tmp
      else put a (pl + i - 1) tmp
  end.

Fixpoint heapify (l : nat) (a : list nat) (pl n : nat) : list nat :=
  match l with
  | 0 => a
  | S l' =>
      heapify l' (sift (List.length a) a pl n (get a (pl + l - 1)) l (l + l)) pl n
  end.

Fixpoint heap_drain (n : nat) (a : list nat) (pl : nat) : list nat :=
  match n with
  | 0 | 1 => a
  | S n' =>
      let tmp := get a (pl + n - 1) in
      let a1 := put a (pl + n - 1) (get a pl) in
      heap_drain n' (sift (List.length a) a1 pl n' tmp 1 2) pl
  end.

Definition heapsort (a : list nat) (pl n : nat) : list nat :=
  heap_drain n (heapify (n / 2) a pl n) pl.

(** The loop of the introsort.  [top] tells that a stretch has just been
    taken up, which is when the depth is tested. *)
Fixpoint sort_loop (fuel : nat) (a : list nat) (pl pr : nat) (cdepth : Z)
    (top : bool) (stack : list (nat * nat * Z)) : list nat :=
  match fuel with
  | 0 => a
  | S fuel' =>
      let pop (a' : list nat) :=
        match stack with
        | [] => a'
        | (pl', pr', depth') :: stack' =>
            sort_loop fuel' a' pl' pr' depth' true stack'
        end in
      if top && (cdepth <? 0)%Z then pop (heapsort a pl (S pr - pl))
      else if (small_quicksort <? pr - pl)%nat then
        let '(a', pi) := partition a pl pr in
        if (pi - pl <? pr - pi)%nat
        then sort_loop fuel' a' pl (pi - 1) (cdepth - 1)%Z false
                       ((S pi, pr, (cdepth - 1)%Z) :: stack)
        else sort_loop fuel' a' (S pi) pr (cdepth - 1)%Z false
                       ((pl, pi - 1, (cdepth - 1)%Z) :: stack)
      else pop (insertion_sort a pl pr)
  end.

End Argsort.

(** [v.argsort(kind='quicksort')] *)
Definition argsort (v : list float64) : list nat :=
  let num := List.length v in
  sort_loop v (4 * num + 4) (seq 0 num) 0 (num - 1)
            (2 * Z.log2 (Z.of_nat num)) true [].

(** pandas' [nargsort(items, kind='quicksort', ascending=False,
    na_position='last')] *)
Definition nargsort (items : list float64) : list nat :=
  let idx := seq 0 (List.length items) in
  let item := fun i => nth i items S754_nan in
  let non_nan_idx := rev (filter (fun i => negb (isnan (item i))) idx) in
  let nan_idx := filter (fun i => isnan (item i)) idx in
  rev (map (fun k => nth k non_nan_idx 0) (argsort (map item non_nan_idx)))
  ++ nan_idx.

(** [sort_values(ascending=False)] with [kind='quicksort']. *)
Definition quicksort : SortValues float64 :=
  fun T key l =>
    flat_map (fun i => match nth_error l i with Some x => [x] | None => [] end)
             (nargsort (map key l)).

End Numpy.

(** ** Vocabulary of the statements *)

(** Order of group keys: code-point order of the text. *)
Definition key_lt (a b : string) : Prop := String.compare a b = Lt.

(** Calendar order of months. *)
Definition month_before (a b : Timestamp) : Prop :=
  year a < year b \/ (year a = year b /\ month a < month b).

(** Dates pandas can hold lie in the years 1677 to 2262. *)
Definition calendar_date (ts : Timestamp) : Prop :=
  1677 <= year ts <= 2262 /\ 1 <= month ts <= 12.

(** The transactions a total is taken over. *)
Definition in_category {A : Type} (c : string) (r : Row A) : bool :=
  String.eqb (Category r) c.

Definition in_month {A : Type} (m : string) (r : Row A) : bool :=
  String.eqb (strftime_Ym (Date r)) m.

(** Entries whose key may stand before the other's in descending order. *)
Definition descending {A : Type} `{AmountArith A} {T : Type} (key : T -> A)
  : T -> T -> Prop :=
  fun x y => before (key x) (key y) = true.

(** The ledger of the specification's example. *)
Module Example.
Import Binary64.

Definition amount (s : string) : float64 :=
  match of_str s with Some x => x | None => S754_nan end.

Definition a50 : float64 := Eval vm_compute in amount "50".
Definition a100 : float64 := Eval vm_compute in amount "100".
Definition a200 : float64 := Eval vm_compute in amount "200".

Definition lunch : Row float64 :=
  {| Date := mkTimestamp 2024 1 5; Amount := a100;
     Category := "Food"; Description := Text "lunch"; Month := None |}.

Definition snacks : Row float64 :=
  {| Date := mkTimestamp 2024 1 10; Amount := a50;
     Category := "Food"; Description := Text "snacks"; Month := None |}.

Definition rent : Row float64 :=
  {| Date := mkTimestamp 2024 2 1; Amount := a200;
     Category := "Housing"; Description := Text "rent"; Month := None |}.

Definition ledger : Tracker float64 :=
  {| df := {| columns := base_columns; Description_dtype := dt_object;
              rows := [lunch; snacks; rent] |} |}.

(** One month in which three amounts do not add up the same both ways. *)
Definition a0_1 : float64 := Eval vm_compute in amount "0.1".
Definition a0_2 : float64 := Eval vm_compute in amount "0.2".
Definition a0_6 : float64 := Eval vm_compute in amount "0.6".

Definition expense (d : nat) (x : float64) (c : string) : Row float64 :=
  {| Date := mkTimestamp 2024 1 d; Amount := x; Category := c;
     Description := Text "item"; Month := None |}.

Definition rounding_ledger : Tracker float64 :=
  {| df := {| columns := base_columns; Description_dtype := dt_object;
              rows := [expense 5 a0_1 "Food"; expense 6 a0_2 "Housing";
                       expense 7 a0_6 "Food"] |} |}.

(** Two expenses whose sum no float holds. *)
Definition tenths_ledger : Tracker float64 :=
  {| df := {| columns := base_columns; Description_dtype := dt_object;
              rows := [expense 5 a0_1 "Food"; expense 6 a0_2 "Food"] |} |}.

(** Two expenses of one month with the same amount. *)
Definition tie_ledger : Tracker float64 :=
  {| df := {| columns := base_columns; Description_dtype := dt_object;
              rows := [expense 5 a50 "Food"; expense 6 a50 "Shopping"] |} |}.

(** A ledger as [read_csv] yields it from a file in which no description is
    text: the one expense on record was entered with an empty description. *)
Definition reloaded_ledger : Tracker float64 :=
  fst (init (Some {| columns := base_columns; Description_dtype := dt_float64;
                     rows := [ {| Date := mkTimestamp 2024 1 5; Amount := a100;
                                  Category := "Food"; Description := Missing;
                                  Month := None |} ] |})).

(** 0.1 and 0.7 under Food, beside 200 under Housing. *)
Definition a0_7 : float64 := Eval vm_compute in amount "0.7".

Definition eighths_ledger : Tracker float64 :=
  {| df := {| columns := base_columns; Description_dtype := dt_object;
              rows := [expense 5 a0_1 "Food"; expense 6 a200 "Housing";
                       expense 7 a0_7 "Food"] |} |}.

(** 0.3 and 0.6 in January, 200 in February. *)
Definition a0_3 : float64 := Eval vm_compute in amount "0.3".

Definition ninths_ledger : Tracker float64 :=
  {| df := {| columns := base_columns; Description_dtype := dt_object;
              rows := [expense 5 a0_3 "Food"; expense 6 a0_6 "Shopping"; rent] |} |}.

(** Twenty expenses of 50, one on each of the first twenty days of January. *)
Definition twenty_ties : Tracker float64 :=
  {| df := {| columns := base_columns; Description_dtype := dt_object;
              rows := map (fun d => expense d a50 "Food") (seq 1 20) |} |}.

End Example.

(** What a transaction consists of: the four columns of the ledger. *)
Definition base_fields {A : Type} (r : Row A)
  : Timestamp * A * string * cell A :=
  (Date r, Amount r, Category r, Description r).

(** One call of a public method, and the trackers a session can reach from
    the data file it found at start-up. *)
Inductive step {A : Type} `{AmountArith A} {sv : SortValues A}
  : Tracker A -> Tracker A -> Prop :=
| step_add_expense self amount category description date now :
    step self (snd (fst (add_expense self amount category description date now)))
| step_by_category self :
    step self (snd (get_expenses_by_category self))
| step_by_month self :
    step self (snd (get_expenses_by_month self))
| step_category_by_month self :
    step self (snd (get_category_expenses_by_month self))
| step_report self month_arg now :
    step self (snd (fst (generate_monthly_report self month_arg now))).

Inductive reachable {A : Type} `{AmountArith A} {sv : SortValues A}
    (data_file : option (DataFrame A)) : Tracker A -> Prop :=
| reach_init : reachable data_file (fst (init data_file))
| reach_step self self' :
    reachable data_file self -> step self self' -> reachable data_file self'.

(** Amounts that descending order does not tell apart from [k]. *)
Definition tied {A : Type} `{AmountArith A} {T : Type} (key : T -> A) (k : A)
    (x : T) : bool :=
  before (key x) k && before k (key x).

(** The invariant on categories. *)
Definition category_ok {A : Type} (r : Row A) : Prop :=
  In (Category r) categories.

(** The descending order is usable for sorting. *)
Class AmountOrder (A : Type) `{AmountArith A} : Prop := {
  before_total : forall x y : A, before x y = true \/ before y x = true;
  before_trans : forall x y z : A,
      before x y = true -> before y z = true -> before x z = true
}.

(** What every sorting algorithm guarantees of [sort_values(ascending=False)]:
    the same entries, rearranged so that keys descend (NaN at the end). *)
Class SortSpec {A : Type} `{AmountArith A} (sv : SortValues A) : Prop := {
  sort_Permutation : forall (T : Type) (key : T -> A) (l : list T),
      Permutation (sort_values_desc T key l) l;
  sort_Sorted : forall (T : Type) (key : T -> A) (l : list T),
      Sorted (descending key) (sort_values_desc T key l)
}.

(** Addition without rounding. *)
Class ExactArith (A : Type) `{AmountArith A} : Prop := {
  add_assoc : forall x y z : A, amt_add x (amt_add y z) = amt_add (amt_add x y) z;
  add_comm : forall x y : A, amt_add x y = amt_add y x;
  add_zero_l : forall x : A, amt_add amt_zero x = x;
  no_nan : forall x : A, amt_isnan x = false
}.

(** ** Charts, library calls and the interactive menu *)

(** What the three [visualize_*] methods hand to matplotlib. *)
Inductive chart (A : Type) :=
| PieChart (data : list (string * A))                     (* plt.pie *)
| LineChart (data : list (string * A))                    (* Series.plot(kind='line') *)
| StackedBars (data : list (string * list (string * A))). (* plot(kind='bar', stacked=True) *)
Arguments PieChart {A} data.
Arguments LineChart {A} data.
Arguments StackedBars {A} data.

(** The libraries the program calls into, as far as their answers decide
    what the program does next. *)
Class Libraries (A : Type) := {
  to_datetime : string -> option Timestamp;  (* pd.to_datetime(text), a date without
                                                time zone; None: it raises ValueError *)
  draws : chart A -> bool;      (* matplotlib draws, saves and shows the chart without raising *)
  renders : Report A -> bool    (* the lines of the report format without raising *)
}.

(** Python's [int] on ASCII text: optional whitespace around an optional sign
    and decimal digits, single underscores allowed between digits. *)
Definition py_int (s : string) : option Z :=
  let '(neg, body) := Literal.take_sign (Literal.strip (list_ascii_of_string s)) in
  match Literal.take_digits false body with
  | (d :: ds, []) =>
      let n := Literal.number (d :: ds) in Some (if neg then (- n)%Z else n)
  | _ => None
  end.

Inductive menu_message (A : Type) :=
| MenuText                                   (* the title and the six choices *)
| InvalidAmountText                          (* "Invalid amount. Please enter a number." *)
| CategoriesText                             (* the numbered list of categories *)
| InvalidCategoryChoiceText                  (* "Invalid category choice" *)
| ValidNumberText                            (* "Please enter a valid number" *)
| NoExpensesRecordedText                     (* "No expenses recorded yet." *)
| CategoryTotalsText (data : list (string * A))   (* "===== Expenses by Category =====" and its lines *)
| MonthlyTotalsText (data : list (string * A))    (* "===== Monthly Expenses =====" and its lines *)
| InvalidMonthFormatText                     (* "Invalid month format. Please use YYYY-MM format." *)
| GoodbyeText                                (* "Thank you for using the Personal Finance Tracker!" *)
| InvalidChoiceText.                         (* "Invalid choice. Please try again." *)
Arguments MenuText {A}.
Arguments InvalidAmountText {A}.
Arguments CategoriesText {A}.
Arguments InvalidCategoryChoiceText {A}.
Arguments ValidNumberText {A}.
Arguments NoExpensesRecordedText {A}.
Arguments CategoryTotalsText {A} data.
Arguments MonthlyTotalsText {A} data.
Arguments InvalidMonthFormatText {A}.
Arguments GoodbyeText {A}.
Arguments InvalidChoiceText {A}.

Inductive prompt :=
| ChoicePrompt | AmountPrompt | CategoryPrompt
| DescriptionPrompt | DatePrompt | MonthPrompt.

(** Everything the program shows, asks, draws or writes. *)
Inductive event (A : Type) :=
| Effect (e : effect A)
| Draw (c : chart A) (file : string)   (* the figure, saved under the images directory *)
| ChartSaved (file : string)           (* "Chart saved to: ..." *)
| Show (m : menu_message A)
| Ask (p : prompt).
Arguments Effect {A} e.
Arguments Draw {A} c file.
Arguments ChartSaved {A} file.
Arguments Show {A} m.
Arguments Ask {A} p.

Inductive crash := AddExpenseRaised (e : exn) | DrawingRaised | ReportRaised.

(** How a run of the menu ends: choice 6, no more input ([input] raises
    EOFError), or an exception nothing catches.  [OutOfFuel] is the loop
    bound of the embedding. *)
Inductive ending := Exited | EndOfInput | Crashed (c : crash) | OutOfFuel.

Inductive flow (A : Type) :=
| Next (tracker : Tracker A) (inputs : list string)
| Done (e : ending) (tracker : Tracker A).
Arguments Next {A} tracker inputs.
Arguments Done {A} e tracker.

(** A call of a public method. *)
Inductive call (A : Type) :=
| AddExpense (amount : PyObject A) (category description : string)
             (date : DateArg) (now : Timestamp)
| ByCategory
| ByMonth
| CategoryByMonth
| VisualizeByCategory
| VisualizeMonthlyTrend
| VisualizeCategoryTrends
| MonthlyReport (month_arg : option string) (now : Timestamp).
Arguments AddExpense {A} amount category description date now.
Arguments ByCategory {A}.
Arguments ByMonth {A}.
Arguments CategoryByMonth {A}.
Arguments VisualizeByCategory {A}.
Arguments VisualizeMonthlyTrend {A}.
Arguments VisualizeCategoryTrends {A}.
Arguments MonthlyReport {A} month_arg now.

Section Program.

Context {A : Type} `{AmountArith A} {sv : SortValues A} {lib : Libraries A}.

(** The body shared by the three [visualize_*] methods once the data is
    computed: draw, save, show, and report where the chart went. *)
Definition plot (c : chart A) (file : string) : bool * list (event A) :=
  if draws c then (true, [Draw c file; ChartSaved file]) else (false, []).

Definition visualize_expenses_by_category (self : Tracker A)
  : bool * Tracker A * list (event A) :=
  let '(data, self') := get_expenses_by_category self in
  let '(ok, out) := plot (PieChart data) "expenses_by_category.png" in
  (ok, self', out).

Definition visualize_monthly_trend (self : Tracker A)
  : bool * Tracker A * list (event A) :=
  let '(data, self') := get_expenses_by_month self in
  let '(ok, out) := plot (LineChart data) "monthly_expenses.png" in
  (ok, self', out).

Definition visualize_category_trends (self : Tracker A)
  : bool * Tracker A * list (event A) :=
  let '(data, self') := get_category_expenses_by_month self in
  let '(ok, out) := plot (StackedBars data) "category_expenses_by_month.png" in
  (ok, self', out).

(** One call, with the tracker it leaves and what it showed and wrote. *)
Definition perform (self : Tracker A) (c : call A) : Tracker A * list (event A) :=
  match c with
  | AddExpense amount category description date now =>
      let '(_, self', out) := add_expense self amount category description date now in
      (self', map Effect out)
  | ByCategory => (snd (get_expenses_by_category self), [])
  | ByMonth => (snd (get_expenses_by_month self), [])
  | CategoryByMonth => (snd (get_category_expenses_by_month self), [])
  | VisualizeByCategory =>
      let '(_, self', out) := visualize_expenses_by_category self in (self', out)
  | VisualizeMonthlyTrend =>
      let '(_, self', out) := visualize_monthly_trend self in (self', out)
  | VisualizeCategoryTrends =>
      let '(_, self', out) := visualize_category_trends self in (self', out)
  | MonthlyReport month_arg now =>
      let '(r, self', out) := generate_monthly_report self month_arg now in
      (self',
       match r with
       | Some r' => if renders r' then map Effect out else []
       | None => map Effect out
       end)
  end.

(** The frame the data file was last written from. *)
Definition last_saved (file : DataFrame A) (events : list (event A)) : DataFrame A :=
  fold_left (fun f e => match e with Effect (ToCsv g) => g | _ => f end) events file.

(** A sequence of calls: the tracker and the data file it leaves. *)
Fixpoint session (self : Tracker A) (file : DataFrame A) (calls : list (call A))
  : Tracker A * DataFrame A :=
  match calls with
  | [] => (self, file)
  | c :: calls' =>
      let '(self', out) := perform self c in
      session self' (last_saved file out) calls'
  end.

(** The tracker and the data file when [__init__] returns. *)
Definition start (data_file : option (DataFrame A)) : Tracker A * DataFrame A :=
  let '(self, out) := init data_file in
  (self, last_saved (match data_file with Some frame => frame | None => empty_frame end)
                    (map Effect out)).

(** Calls one after the other: the tracker they leave and all they showed
    and wrote. *)
Fixpoint run (self : Tracker A) (calls : list (call A))
  : Tracker A * list (event A) :=
  match calls with
  | [] => (self, [])
  | c :: calls' =>
      let '(self1, out1) := perform self c in
      let '(self2, out2) := run self1 calls' in
      (self2, out1 ++ out2)
  end.

(** *** [interactive_menu] *)

(** Choice 1: ask for amount, category number, description and date, and
    add the expense. *)
Definition menu_add_expense (tracker : Tracker A) (inputs : list string)
    (now : Timestamp) : flow A * list (event A) :=
  match inputs with
  | [] => (Done EndOfInput tracker, [Ask AmountPrompt])
  | amount_text :: inputs1 =>
      match py_float (PyStr amount_text) with
      | Raise _ => (Next tracker inputs1, [Ask AmountPrompt; Show InvalidAmountText])
      | Value amount =>
          let asked := [Ask AmountPrompt; Show CategoriesText; Ask CategoryPrompt] in
          match inputs1 with
          | [] => (Done EndOfInput tracker, asked)
          | choice_text :: inputs2 =>
              match py_int choice_text with
              | None => (Next tracker inputs2, asked ++ [Show ValidNumberText])
              | Some cat_choice =>
                  if ((1 <=? cat_choice) && (cat_choice <=? Z.of_nat (List.length categories)))%Z
                  then
                    let category := nth (Z.to_nat (cat_choice - 1)) categories "" in
                    match inputs2 with
                    | [] => (Done EndOfInput tracker, asked ++ [Ask DescriptionPrompt])
                    | description :: inputs3 =>
                        let asked' := asked ++ [Ask DescriptionPrompt; Ask DatePrompt] in
                        match inputs3 with
                        | [] => (Done EndOfInput tracker, asked')
                        | date_str :: inputs4 =>
                            let date :=
                              if String.eqb date_str "" then DateOmitted
                              else match to_datetime date_str with
                                   | Some ts => DateParsed ts
                                   | None => DateRejected
                                   end in
                            match add_expense tracker (PyFloat amount) category
                                              description date now with
                            | (Value _, tracker', out) =>
                                (Next tracker' inputs4, asked' ++ map Effect out)
                            | (Raise e, tracker', out) =>
                                (Done (Crashed (AddExpenseRaised e)) tracker',
                                 asked' ++ map Effect out)
                            end
                        end
                    end
                  else (Next tracker inputs2, asked ++ [Show InvalidCategoryChoiceText])
              end
          end
      end
  end.

(** Choice 2. *)
Definition menu_by_category (tracker : Tracker A) (inputs : list string)
  : flow A * list (event A) :=
  let '(data, tracker1) := get_expenses_by_category tracker in
  match data with
  | [] => (Next tracker1 inputs, [Show NoExpensesRecordedText])
  | _ =>
      let '(ok, tracker2, out) := visualize_expenses_by_category tracker1 in
      (if ok then Next tracker2 inputs else Done (Crashed DrawingRaised) tracker2,
       Show (CategoryTotalsText data) :: out)
  end.

(** Choice 3. *)
Definition menu_by_month (tracker : Tracker A) (inputs : list string)
  : flow A * list (event A) :=
  let '(data, tracker1) := get_expenses_by_month tracker in
  match data with
  | [] => (Next tracker1 inputs, [Show NoExpensesRecordedText])
  | _ =>
      let '(ok, tracker2, out) := visualize_monthly_trend tracker1 in
      (if ok then Next tracker2 inputs else Done (Crashed DrawingRaised) tracker2,
       Show (MonthlyTotalsText data) :: out)
  end.

(** Choice 4. *)
Definition menu_category_trends (tracker : Tracker A) (inputs : list string)
  : flow A * list (event A) :=
  match rows (df tracker) with
  | [] => (Next tracker inputs, [Show NoExpensesRecordedText])
  | _ =>
      let '(ok, tracker1, out) := visualize_category_trends tracker in
      (if ok then Next tracker1 inputs else Done (Crashed DrawingRaised) tracker1, out)
  end.

(** Choice 5. *)
Definition menu_report (tracker : Tracker A) (inputs : list string)
    (now : Timestamp) : flow A * list (event A) :=
  match rows (df tracker) with
  | [] => (Next tracker inputs, [Show NoExpensesRecordedText])
  | _ =>
      match inputs with
      | [] => (Done EndOfInput tracker, [Ask MonthPrompt])
      | month_text :: inputs1 =>
          let valid :=
            if String.eqb month_text "" then true
            else match to_datetime (month_text ++ "-01") with
                 | Some _ => true
                 | None => false
                 end in
          if valid then
            let '(r, tracker1, out) :=
              generate_monthly_report tracker
                (if String.eqb month_text "" then None else Some month_text) now in
            match r with
            | Some r' =>
                if renders r'
                then (Next tracker1 inputs1, Ask MonthPrompt :: map Effect out)
                else (Done (Crashed ReportRaised) tracker1, [Ask MonthPrompt])
            | None => (Next tracker1 inputs1, Ask MonthPrompt :: map Effect out)
            end
          else (Next tracker inputs1, [Ask MonthPrompt; Show InvalidMonthFormatText])
      end
  end.

(** One pass of the [while True] loop. *)
Definition menu_pass (tracker : Tracker A) (inputs : list string)
    (now : Timestamp) : flow A * list (event A) :=
  let shown := [Show MenuText; Ask ChoicePrompt] in
  match inputs with
  | [] => (Done EndOfInput tracker, shown)
  | choice :: rest =>
      let '(next, out) :=
        if String.eqb choice "1" then menu_add_expense tracker rest now
        else if String.eqb choice "2" then menu_by_category tracker rest
        else if String.eqb choice "3" then menu_by_month tracker rest
        else if String.eqb choice "4" then menu_category_trends tracker rest
        else if String.eqb choice "5" then menu_report tracker rest now
        else if String.eqb choice "6" then (Done Exited tracker, [Show GoodbyeText])
        else (Next tracker rest, [Show InvalidChoiceText]) in
      (next, shown ++ out)
  end.

(** The loop; [clock n] is the time during pass [n]. *)
Fixpoint menu_loop (fuel n : nat) (clock : nat -> Timestamp)
    (tracker : Tracker A) (inputs : list string)
  : ending * Tracker A * list (event A) :=
  match fuel with
  | 0 => (OutOfFuel, tracker, [])
  | S fuel' =>
      match menu_pass tracker inputs (clock n) with
      | (Done e tracker', out) => (e, tracker', out)
      | (Next tracker' inputs', out) =>
          let '(e, tracker'', out') := menu_loop fuel' (S n) clock tracker' inputs' in
          (e, tracker'', out ++ out')
      end
  end.

(** [interactive_menu()], fed the lines typed at its prompts. *)
Definition interactive_menu (data_file : option (DataFrame A))
    (clock : nat -> Timestamp) (inputs : list string)
  : ending * Tracker A * list (event A) :=
  let '(tracker, out) := init data_file in
  let '(e, tracker', out') :=
    menu_loop (S (List.length inputs)) 0 clock tracker inputs in
  (e, tracker', map Effect out ++ out').

End Program.

(** The frames a list of effects writes to the data file, in order. *)
Definition writes {A : Type} (out : list (effect A)) : list (DataFrame A) :=
  flat_map (fun e => match e with ToCsv frame => [frame] | _ => [] end) out.


(** Two frames hold the same transactions. *)
Definition same_transactions {A : Type} (f g : DataFrame A) : Prop :=
  map base_fields (rows f) = map base_fields (rows g) /\
  Description_dtype f = Description_dtype g.


(** What was printed and written among the events of a run. *)
Definition effects_in {A : Type} (events : list (event A)) : list (effect A) :=
  flat_map (fun e => match e with Effect x => [x] | _ => [] end) events.

(** The figures drawn among the events of a run. *)
Definition charts_in {A : Type} (events : list (event A)) : list (chart A) :=
  flat_map (fun e => match e with Draw c _ => [c] | _ => [] end) events.

(** The tracker a pass of the menu leaves. *)
Definition tracker_after {A : Type} (f : flow A) : Tracker A :=
  match f with
  | Next tracker _ => tracker
  | Done _ tracker => tracker
  end.

(** A call as the menu makes it: [add_expense] only with a float for the
    amount and a category picked from [self.categories]. *)
Definition validated {A : Type} (c : call A) : Prop :=
  match c with
  | AddExpense amount category _ _ _ =>
      In category categories /\ exists x, amount = PyFloat x
  | _ => True
  end.

(** A part of the menu acts on the tracker and the files as a sequence of
    validated calls does, hands on no more input than it was given, and
    ends for a reason of the program's. *)
Definition acts_by_calls {A : Type} `{AmountArith A} {sv : SortValues A}
    {lib : Libraries A} (tracker : Tracker A) (inputs : list string)
    (result : flow A * list (event A)) : Prop :=
  (exists calls,
      Forall validated calls /\
      tracker_after (fst result) = fst (run tracker calls) /\
      effects_in (snd result) = effects_in (snd (run tracker calls))) /\
  (forall tracker' inputs',
      fst result = Next tracker' inputs' ->
      List.length inputs' <= List.length inputs) /\
  (forall tracker', fst result <> Done OutOfFuel tracker').

(** * Properties *)

(** ** Sorted, repetition-free keys *)

Lemma key_lt_trans a b c : key_lt a b -> key_lt b c -> key_lt a c.
Proof.
  unfold key_lt. intros Hab Hbc.
  apply String_as_OT.cmp_lt. apply String_as_OT.cmp_lt in Hab, Hbc.
  eapply String_as_OT.lt_trans; eassumption.
Qed.

Lemma key_lt_irrefl a : ~ key_lt a a.
Proof.
  unfold key_lt. intro H.
  assert (E : String_as_OT.cmp a a = Eq) by (apply String_as_OT.cmp_eq; reflexivity).
  unfold String_as_OT.cmp in E. congruence.
Qed.

Lemma key_gt_lt a b : String.compare a b = Gt -> key_lt b a.
Proof.
  unfold key_lt. intro H. rewrite String.compare_antisym, H. reflexivity.
Qed.

Lemma insert_key_In k ks x : In x (insert_key k ks) <-> x = k \/ In x ks.
Proof.
  induction ks as [|k' ks IH]; simpl.
  - intuition.
  - destruct (String.compare k k') eqn:E; simpl.
    + apply String.compare_eq_iff in E. subst. intuition.
    + intuition.
    + rewrite IH. intuition.
Qed.

Lemma unique_sorted_In ks x : In x (unique_sorted ks) <-> In x ks.
Proof.
  induction ks as [|k ks IH]; simpl.
  - reflexivity.
  - rewrite insert_key_In, IH. intuition.
Qed.

Lemma insert_key_HdRel a k ks :
  key_lt a k -> HdRel key_lt a ks -> HdRel key_lt a (insert_key k ks).
Proof.
  intros Hak Hd. destruct ks as [|k' ks]; simpl.
  - constructor. exact Hak.
  - destruct (String.compare k k'); try assumption.
    + constructor. exact Hak.
    + constructor. inversion Hd. assumption.
Qed.

Lemma insert_key_Sorted k ks :
  Sorted key_lt ks -> Sorted key_lt (insert_key k ks).
Proof.
  induction ks as [|k' ks IH]; simpl; intro Hs.
  - repeat constructor.
  - destruct (String.compare k k') eqn:E.
    + exact Hs.
    + constructor; [exact Hs | constructor; exact E].
    + inversion Hs; subst. constructor.
      * apply IH. assumption.
      * apply insert_key_HdRel; [apply key_gt_lt; exact E | assumption].
Qed.

Lemma unique_sorted_Sorted ks : Sorted key_lt (unique_sorted ks).
Proof.
  induction ks as [|k ks IH]; simpl.
  - constructor.
  - apply insert_key_Sorted. exact IH.
Qed.

Lemma Sorted_key_lt_NoDup ks : Sorted key_lt ks -> NoDup ks.
Proof.
  intro Hs. apply Sorted_StronglySorted in Hs.
  2: { intros a b c. apply key_lt_trans. }
  induction Hs as [|a l _ IH Hall]; constructor; try assumption.
  intro Hin. rewrite Forall_forall in Hall.
  apply (key_lt_irrefl a). apply Hall. exact Hin.
Qed.

Section GroupFacts.

Context {A : Type} `{AmountArith A}.

Lemma group_keys_In (key : Row A -> option string) rs k :
  In k (group_keys key rs) <-> exists r, In r rs /\ key r = Some k.
Proof.
  unfold group_keys. rewrite unique_sorted_In, in_flat_map. split.
  - intros (r & Hr & Hk). exists r. split; [assumption|].
    destruct (key r); simpl in Hk; [|contradiction].
    destruct Hk as [->|[]]. reflexivity.
  - intros (r & Hr & Hk). exists r. split; [assumption|].
    rewrite Hk. simpl. auto.
Qed.

Lemma group_In (key : Row A -> option string) rs k r :
  In r (group key rs k) <-> In r rs /\ key r = Some k.
Proof.
  unfold group, has_key. rewrite filter_In.
  destruct (key r) as [k'|].
  - rewrite String.eqb_eq. split; intros [? ?]; split; congruence.
  - split; intros [? ?]; discriminate.
Qed.

Lemma groupby_sum_keys (key : Row A -> option string) rs :
  map fst (groupby_sum key rs) = group_keys key rs.
Proof.
  unfold groupby_sum. rewrite map_map. simpl. apply map_id.
Qed.

Lemma groupby_sum_In (key : Row A -> option string) rs k v :
  In (k, v) (groupby_sum key rs) <->
  In k (group_keys key rs) /\ v = Series_sum (map Amount (group key rs k)).
Proof.
  unfold groupby_sum. rewrite in_map_iff. split.
  - intros (k' & E & Hin). inversion E; subst. auto.
  - intros [Hin ->]. exists k. auto.
Qed.

End GroupFacts.

(** ** Sorting algorithms that meet the contract *)

Section SortFacts.

Context {A : Type} `{AmountOrder A}.

Lemma before_false_flip (x y : A) : before x y = false -> before y x = true.
Proof.
  intro E. destruct (before_total x y) as [E'|E']; congruence.
Qed.

Lemma insert_desc_Permutation {T} (key : T -> A) x l :
  Permutation (insert_desc key x l) (x :: l).
Proof.
  induction l as [|y l IH]; simpl.
  - reflexivity.
  - destruct (before (key x) (key y)).
    + reflexivity.
    + rewrite IH. apply perm_swap.
Qed.

Lemma insert_desc_Sorted {T} (key : T -> A) x l :
  Sorted (descending key) l ->
  Sorted (descending key) (insert_desc key x l).
Proof.
  induction l as [|y l IH]; simpl; intro Hs.
  - repeat constructor.
  - destruct (before (key x) (key y)) eqn:E.
    + constructor; [exact Hs | constructor; exact E].
    + inversion Hs as [|? ? Hs' Hd]; subst. constructor.
      * apply IH. exact Hs'.
      * destruct l as [|z l]; simpl.
        -- constructor. apply before_false_flip. exact E.
        -- destruct (before (key x) (key z)).
           ++ constructor. apply before_false_flip. exact E.
           ++ constructor. inversion Hd. assumption.
Qed.

Lemma stable_sort_spec : SortSpec stable_sort.
Proof.
  split; intros T key l; unfold sort_values_desc, stable_sort.
  - induction l as [|x l IH]; simpl.
    + reflexivity.
    + rewrite insert_desc_Permutation. constructor. exact IH.
  - induction l as [|x l IH]; simpl.
    + constructor.
    + apply insert_desc_Sorted. exact IH.
Qed.

(** Descending order between neighbours is descending order throughout. *)
Lemma Sorted_before_Strongly {T} (key : T -> A) l :
  Sorted (descending key) l ->
  StronglySorted (descending key) l.
Proof.
  apply Sorted_StronglySorted.
  intros a b c. unfold descending. apply before_trans.
Qed.

End SortFacts.

(** ** The two arithmetics are ordered; the exact one adds without rounding *)

Module Binary64Facts.
Import Binary64.

Lemma SFleb_rank (x y : float64) :
  isnan x = false -> isnan y = false ->
  (SFleb x y = true <-> le3 (rank x) (rank y)).
Proof.
  intros Hx Hy. unfold SFleb.
  destruct x as [sx|sx| |sx mx ex], y as [sy|sy| |sy my ey];
    try discriminate; simpl;
    try (destruct sx); try (destruct sy); simpl;
    try (split; [intros _; lia | reflexivity]);
    try (split; [discriminate | lia]).
  - destruct (Z.compare_spec ex ey); simpl.
    + rewrite Pos.compare_cont_spec. simpl.
      destruct (Pos.compare_spec mx my); simpl;
        (split; [intros; lia | first [reflexivity | intros; lia]]).
    + split; [discriminate | lia].
    + split; [intros _; lia | reflexivity].
  - destruct (Z.compare_spec ex ey); simpl.
    + rewrite Pos.compare_cont_spec. simpl.
      destruct (Pos.compare_spec mx my); simpl;
        (split; [intros; lia | first [reflexivity | intros; lia]]).
    + split; [intros _; lia | reflexivity].
    + split; [discriminate | lia].
Qed.

Lemma before_rank (x y : float64) :
  before x y = true <->
  isnan y = true \/ (isnan x = false /\ isnan y = false /\ le3 (rank y) (rank x)).
Proof.
  unfold before. simpl.
  destruct (isnan y) eqn:Hy; simpl.
  - intuition.
  - destruct (isnan x) eqn:Hx; simpl.
    + split; [discriminate | intros [?|(? & _)]; discriminate].
    + rewrite SFleb_rank by assumption. intuition discriminate.
Qed.

#[global] Instance order : AmountOrder float64.
Proof.
  split.
  - intros x y. rewrite !before_rank.
    destruct (isnan x) eqn:Hx; [auto|].
    destruct (isnan y) eqn:Hy; [auto|].
    destruct (rank x) as [[a1 a2] a3], (rank y) as [[b1 b2] b3].
    unfold le3.
    assert (D : (b1 < a1 \/ (b1 = a1 /\ (b2 < a2 \/ (b2 = a2 /\ b3 <= a3))))%Z \/
                (a1 < b1 \/ (a1 = b1 /\ (a2 < b2 \/ (a2 = b2 /\ a3 <= b3))))%Z) by lia.
    destruct D; [left | right]; right; auto.
  - intros x y z. rewrite !before_rank.
    intros [Hy|(Hx & Hy & Hxy)] [Hz|(Hy' & Hz & Hyz)]; auto; try congruence.
    right. repeat split; try assumption.
    destruct (rank x) as [[a1 a2] a3], (rank y) as [[b1 b2] b3],
             (rank z) as [[c1 c2] c3].
    unfold le3 in *. lia.
Qed.

End Binary64Facts.

Module ExactFacts.
Import Exact.

#[global] Instance order : AmountOrder Z.
Proof.
  split; unfold before; simpl; intros.
  - rewrite !Z.leb_le. lia.
  - rewrite Z.leb_le in *. lia.
Qed.

#[global] Instance exact : ExactArith Z.
Proof.
  split; simpl; intros; try reflexivity; lia.
Qed.

End ExactFacts.

(** ** Month keys: text order is calendar order *)

Lemma compare_app (s1 s2 t1 t2 : string) :
  String.length s1 = String.length s2 ->
  String.compare (s1 ++ t1) (s2 ++ t2) =
  match String.compare s1 s2 with
  | Eq => String.compare t1 t2
  | c => c
  end.
Proof.
  revert s2. induction s1 as [|a s1 IH]; intros [|b s2] Hlen;
    try discriminate; simpl.
  - reflexivity.
  - destruct (Ascii.compare a b); try reflexivity.
    apply IH. simpl in Hlen. congruence.
Qed.

Lemma length_append (s t : string) :
  String.length (s ++ t) = String.length s + String.length t.
Proof.
  induction s as [|a s IH]; simpl; [reflexivity | rewrite IH; reflexivity].
Qed.

Lemma zfill_length w n : String.length (zfill w n) = w.
Proof.
  revert n. induction w as [|w IH]; intro n; simpl.
  - reflexivity.
  - rewrite length_append, IH. simpl. lia.
Qed.

Lemma digit_compare (a b : nat) :
  Ascii.compare (digit a) (digit b) = Nat.compare (a mod 10) (b mod 10).
Proof.
  unfold digit.
  assert (Ha : a mod 10 < 10) by (apply Nat.mod_upper_bound; discriminate).
  assert (Hb : b mod 10 < 10) by (apply Nat.mod_upper_bound; discriminate).
  revert Ha Hb. generalize (a mod 10) as i, (b mod 10) as j. intros i j Hi Hj.
  do 10 (destruct i as [|i];
         [do 10 (destruct j as [|j]; [reflexivity|]); lia|]).
  lia.
Qed.

Lemma zfill_compare w n1 n2 :
  n1 < 10 ^ w -> n2 < 10 ^ w ->
  String.compare (zfill w n1) (zfill w n2) = Nat.compare n1 n2.
Proof.
  revert n1 n2. induction w as [|w IH]; intros n1 n2 H1 H2.
  - simpl in *. replace n1 with 0 by lia. replace n2 with 0 by lia. reflexivity.
  - cbn [zfill]. rewrite compare_app by (rewrite !zfill_length; reflexivity).
    rewrite Nat.pow_succ_r' in H1, H2.
    pose proof (Nat.div_mod_eq n1 10) as E1.
    pose proof (Nat.div_mod_eq n2 10) as E2.
    assert (B1 : n1 mod 10 < 10) by (apply Nat.mod_upper_bound; discriminate).
    assert (B2 : n2 mod 10 < 10) by (apply Nat.mod_upper_bound; discriminate).
    rewrite IH by lia.
    cbn [String.compare]. rewrite digit_compare.
    destruct (Nat.compare_spec (n1 / 10) (n2 / 10)) as [Hq|Hq|Hq].
    + destruct (Nat.compare_spec (n1 mod 10) (n2 mod 10)) as [Hr|Hr|Hr];
        symmetry.
      * apply Nat.compare_eq_iff. lia.
      * apply Nat.compare_lt_iff. lia.
      * apply Nat.compare_gt_iff. lia.
    + symmetry. apply Nat.compare_lt_iff. lia.
    + symmetry. apply Nat.compare_gt_iff. lia.
Qed.

Lemma strftime_Ym_compare (a b : Timestamp) :
  year a < 10 ^ 4 -> month a < 10 ^ 2 ->
  year b < 10 ^ 4 -> month b < 10 ^ 2 ->
  String.compare (strftime_Ym a) (strftime_Ym b) =
  match Nat.compare (year a) (year b) with
  | Eq => Nat.compare (month a) (month b)
  | c => c
  end.
Proof.
  intros Hya Hma Hyb Hmb. unfold strftime_Ym.
  rewrite compare_app by (rewrite !zfill_length; reflexivity).
  rewrite zfill_compare by assumption.
  destruct (Nat.compare (year a) (year b)); try reflexivity.
  rewrite (compare_app "-" "-") by reflexivity.
  change (String.compare "-" "-") with Eq. cbv iota.
  apply zfill_compare; assumption.
Qed.

Lemma calendar_date_bounds (ts : Timestamp) :
  calendar_date ts -> year ts < 10 ^ 4 /\ month ts < 10 ^ 2.
Proof.
  unfold calendar_date. intros [[_ Hy] [_ Hm]]. split.
  - apply Nat.le_lt_trans with (1 := Hy). apply Nat.ltb_lt. vm_compute. reflexivity.
  - apply Nat.le_lt_trans with (1 := Hm). apply Nat.ltb_lt. vm_compute. reflexivity.
Qed.

Lemma strftime_Ym_chronological (a b : Timestamp) :
  calendar_date a -> calendar_date b ->
  (key_lt (strftime_Ym a) (strftime_Ym b) <-> month_before a b).
Proof.
  intros Ha Hb.
  destruct (calendar_date_bounds a Ha), (calendar_date_bounds b Hb).
  unfold key_lt, month_before. rewrite strftime_Ym_compare by assumption.
  destruct (Nat.compare_spec (year a) (year b)) as [Hy|Hy|Hy].
  - rewrite Nat.compare_lt_iff. lia.
  - split; [intros _; lia | reflexivity].
  - split; [discriminate | lia].
Qed.

(** ** Totals by category *)

Section CategoryTotals.

Context {A : Type} `{AmountOrder A}.

Lemma group_by_category (rs : list (Row A)) c :
  group by_category rs c = filter (in_category c) rs.
Proof. reflexivity. Qed.

Lemma category_total_value (sv : SortValues A) (self : Tracker A) c s :
  SortSpec sv ->
  In (c, s) (fst (get_expenses_by_category (sv := sv) self)) ->
  s = Series_sum (map Amount (filter (in_category c) (rows (df self)))).
Proof.
  intros Hsv Hin. unfold get_expenses_by_category in Hin. cbn [fst] in Hin.
  apply (Permutation_in _ (sort_Permutation _ _ _)) in Hin.
  apply groupby_sum_In in Hin. destruct Hin as [_ ->]. reflexivity.
Qed.

End CategoryTotals.

(** The example of the specification: Housing 200 before Food 150. *)
Example example_totals_by_category :
  fst (get_expenses_by_category (sv := stable_sort) Example.ledger) =
  [("Housing", Example.amount "200"); ("Food", Example.amount "150")].
Proof. vm_compute. reflexivity. Qed.

(** ** Totals by month *)

Lemma StronglySorted_key_lt_unique (l1 l2 : list string) :
  StronglySorted key_lt l1 -> StronglySorted key_lt l2 ->
  (forall k, In k l1 <-> In k l2) -> l1 = l2.
Proof.
  intros H1. revert l2.
  induction H1 as [|a l1 H1 IH Ha]; intros l2 H2 Hmem.
  - destruct l2 as [|b l2]; [reflexivity|].
    exfalso. apply (Hmem b). left. reflexivity.
  - destruct H2 as [|b l2 H2 Hb].
    + exfalso. apply (Hmem a). left. reflexivity.
    + rewrite Forall_forall in Ha, Hb.
      assert (E : a = b).
      { assert (Ia : In a (b :: l2)) by (apply Hmem; left; reflexivity).
        assert (Ib : In b (a :: l1)) by (apply Hmem; left; reflexivity).
        destruct Ia as [Ia|Ia]; [congruence|].
        destruct Ib as [Ib|Ib]; [congruence|].
        exfalso. apply (key_lt_irrefl a).
        apply key_lt_trans with b; auto. }
      subst b. f_equal. apply IH; [exact H2|].
      intro k. split; intro Hk.
      * assert (I : In k (a :: l2)) by (apply Hmem; right; exact Hk).
        destruct I as [<-|I]; [|exact I].
        exfalso. apply (key_lt_irrefl a). auto.
      * assert (I : In k (a :: l1)) by (apply Hmem; right; exact Hk).
        destruct I as [<-|I]; [|exact I].
        exfalso. apply (key_lt_irrefl a). auto.
Qed.

Lemma group_keys_StronglySorted {A : Type} (key : Row A -> option string) rs :
  StronglySorted key_lt (group_keys key rs).
Proof.
  apply Sorted_StronglySorted.
  - intros a b c. apply key_lt_trans.
  - apply unique_sorted_Sorted.
Qed.

Section MonthTotals.

Context {A : Type} `{AmountArith A}.

Lemma assign_Month_In (frame : DataFrame A) r' :
  In r' (rows (assign_Month frame)) <->
  exists r, In r (rows frame) /\ r' = set_Month r (Some (strftime_Ym (Date r))).
Proof.
  unfold assign_Month. cbn [rows]. rewrite in_map_iff.
  split; intros (r & H1 & H2); exists r; split; auto.
Qed.

Lemma month_keys_In (frame : DataFrame A) m :
  In m (group_keys Month (rows (assign_Month frame))) <->
  exists r, In r (rows frame) /\ strftime_Ym (Date r) = m.
Proof.
  rewrite group_keys_In. split.
  - intros (r' & Hr' & E). apply assign_Month_In in Hr'.
    destruct Hr' as (r & Hr & ->). cbn [Month set_Month] in E.
    exists r. split; congruence.
  - intros (r & Hr & E). exists (set_Month r (Some (strftime_Ym (Date r)))).
    split; [|cbn [Month set_Month]; congruence].
    apply assign_Month_In. exists r. auto.
Qed.

Lemma month_group_amounts (frame : DataFrame A) m :
  map Amount (group Month (rows (assign_Month frame)) m) =
  map Amount (filter (in_month m) (rows frame)).
Proof.
  unfold assign_Month, group. cbn [rows].
  induction (rows frame) as [|r rs IH].
  - reflexivity.
  - cbn [map filter]. unfold has_key at 1, in_month at 1.
    cbn [Month set_Month Date].
    destruct (String.eqb (strftime_Ym (Date r)) m);
      cbn [map Amount set_Month]; rewrite IH; reflexivity.
Qed.

Lemma month_total_value (self : Tracker A) m s :
  In (m, s) (fst (get_expenses_by_month self)) ->
  s = Series_sum (map Amount (filter (in_month m) (rows (df self)))).
Proof.
  unfold get_expenses_by_month. cbv zeta. cbn [fst df]. intro Hin.
  apply groupby_sum_In in Hin. destruct Hin as [_ ->].
  rewrite month_group_amounts. reflexivity.
Qed.

Lemma assigned_category_keys (frame : DataFrame A) c :
  In c (group_keys by_category
          (filter (fun r => match Month r with Some _ => true | None => false end)
                  (rows (assign_Month frame)))) <->
  exists r, In r (rows frame) /\ Category r = c.
Proof.
  rewrite group_keys_In. split.
  - intros (r' & Hr' & E). apply filter_In in Hr'. destruct Hr' as [Hr' _].
    apply assign_Month_In in Hr'. destruct Hr' as (r & Hr & ->).
    exists r. split; [exact Hr | injection E; auto].
  - intros (r & Hr & E). exists (set_Month r (Some (strftime_Ym (Date r)))).
    split; [|unfold by_category; cbn [Category set_Month]; congruence].
    apply filter_In. split; [|reflexivity].
    apply assign_Month_In. exists r. auto.
Qed.

Lemma pivot_cell_In (self : Tracker A) m row c s :
  In (m, row) (fst (get_category_expenses_by_month self)) -> In (c, s) row ->
  s = fillna0
        match group by_category (group Month (rows (assign_Month (df self))) m) c with
        | [] => None
        | r :: g => Some (Series_sum (map Amount (r :: g)))
        end.
Proof.
  intros Hrow Hcell.
  unfold get_category_expenses_by_month, pivot_table in Hrow.
  cbv zeta in Hrow. cbn [fst] in Hrow. rewrite map_map in Hrow.
  apply in_map_iff in Hrow. destruct Hrow as (m' & E & _).
  injection E as -> <-. rewrite map_map in Hcell.
  apply in_map_iff in Hcell. destruct Hcell as (c' & E & _).
  injection E as -> <-. reflexivity.
Qed.

Lemma pivot_row_shape (self : Tracker A) m row :
  In (m, row) (fst (get_category_expenses_by_month self)) ->
  In m (group_keys Month (rows (assign_Month (df self)))) /\
  row =
  map (fun c =>
         (c, fillna0
               match group by_category
                       (group Month (rows (assign_Month (df self))) m) c with
               | [] => None
               | r :: g => Some (Series_sum (map Amount (r :: g)))
               end))
      (group_keys by_category
         (filter (fun r => match Month r with Some _ => true | None => false end)
                 (rows (assign_Month (df self))))).
Proof.
  intro Hrow.
  unfold get_category_expenses_by_month, pivot_table in Hrow.
  cbv zeta in Hrow. cbn [fst] in Hrow. rewrite map_map in Hrow.
  apply in_map_iff in Hrow. destruct Hrow as (m' & E & Hm).
  injection E as -> <-. split; [exact Hm|].
  rewrite map_map. reflexivity.
Qed.

End MonthTotals.

(** The example of the specification: 2024-01 holds 150, 2024-02 holds 200. *)
Example example_totals_by_month :
  fst (get_expenses_by_month Example.ledger) =
  [("2024-01", Example.amount "150"); ("2024-02", Example.amount "200")].
Proof. vm_compute. reflexivity. Qed.

(** ** The pivot against the monthly totals *)

Section Pivot.

Context {A : Type} `{ExactArith A}.

Lemma fold_add_from (l : list A) (a : A) :
  fold_left amt_add l a = amt_add a (fold_left amt_add l amt_zero).
Proof.
  revert a. induction l as [|y l IH]; intro a; cbn [fold_left].
  - rewrite add_comm. symmetry. apply add_zero_l.
  - rewrite (IH (amt_add a y)), (IH (amt_add amt_zero y)), add_zero_l.
    symmetry. apply add_assoc.
Qed.

Lemma skipna_exact (l : list A) : filter (fun x => negb (amt_isnan x)) l = l.
Proof.
  induction l as [|x l IH]; cbn [filter]; [reflexivity|].
  rewrite no_nan, IH. reflexivity.
Qed.

Lemma Series_sum_cons (x : A) (l : list A) :
  Series_sum (x :: l) = amt_add x (Series_sum l).
Proof.
  unfold Series_sum. rewrite !skipna_exact.
  cbn [fold_left]. rewrite add_zero_l. apply fold_add_from.
Qed.

Lemma Series_sum_nil : Series_sum (A := A) [] = amt_zero.
Proof. reflexivity. Qed.

Lemma fillna0_cell (g : list (Row A)) :
  fillna0 match g with
          | [] => None
          | r :: g' => Some (Series_sum (map Amount (r :: g')))
          end =
  Series_sum (map Amount g).
Proof.
  destruct g as [|r g]; [reflexivity|].
  unfold fillna0. rewrite no_nan. reflexivity.
Qed.

Lemma category_sum_cons (r : Row A) (g : list (Row A)) (c : string) :
  Series_sum (map Amount (filter (in_category c) (r :: g))) =
  if String.eqb (Category r) c
  then amt_add (Amount r) (Series_sum (map Amount (filter (in_category c) g)))
  else Series_sum (map Amount (filter (in_category c) g)).
Proof.
  cbn [filter]. unfold in_category at 1.
  destruct (String.eqb (Category r) c); [|reflexivity].
  cbn [map]. apply Series_sum_cons.
Qed.

(** Adding [x] to the one column [c0] adds [x] to the sum over the columns. *)
Lemma sum_bump_one (f : string -> A) (x : A) (c0 : string) (cols : list string) :
  NoDup cols -> In c0 cols ->
  Series_sum (map (fun c => if String.eqb c0 c then amt_add x (f c) else f c) cols) =
  amt_add x (Series_sum (map f cols)).
Proof.
  induction 1 as [|c cols Hc Hnd IH]; intro Hin; [contradiction|].
  cbn [map]. rewrite !Series_sum_cons.
  destruct (String.eqb_spec c0 c) as [E|E].
  - subst c. rewrite <- add_assoc. f_equal. f_equal. f_equal.
    apply map_ext_in. intros c' Hc'.
    destruct (String.eqb_spec c0 c'); [congruence | reflexivity].
  - destruct Hin as [Hin|Hin]; [congruence|].
    rewrite (IH Hin), !add_assoc. f_equal. apply add_comm.
Qed.

(** Summing the per-category sums of a list of rows gives the sum of the
    list, provided every category of the list is among the columns. *)
Lemma sum_over_categories (cols : list string) (g : list (Row A)) :
  NoDup cols ->
  (forall r, In r g -> In (Category r) cols) ->
  Series_sum (map (fun c => Series_sum (map Amount (filter (in_category c) g))) cols) =
  Series_sum (map Amount g).
Proof.
  intros Hnd. induction g as [|r g IH]; intro Hcov.
  - clear Hcov Hnd. induction cols as [|c cols IHc]; [reflexivity|].
    cbn [map filter] in *. rewrite Series_sum_cons, IHc. apply add_zero_l.
  - change (map Amount (r :: g)) with (Amount r :: map Amount g).
    rewrite Series_sum_cons, <- IH
      by (intros r' Hr'; apply Hcov; right; exact Hr').
    erewrite map_ext by (intro c; apply category_sum_cons).
    apply (sum_bump_one
             (fun c => Series_sum (map Amount (filter (in_category c) g))));
      [exact Hnd | apply Hcov; left; reflexivity].
Qed.

(** In an arithmetic that adds without rounding, the rows of
    [get_category_expenses_by_month] are the months of
    [get_expenses_by_month], and the values of each row sum to that month's
    total. *)
Theorem pivot_rows_sum_to_month_totals (self : Tracker A) :
  let pivot := fst (get_category_expenses_by_month self) in
  let totals := fst (get_expenses_by_month self) in
  map fst pivot = map fst totals /\
  (forall m row, In (m, row) pivot -> In (m, Series_sum (map snd row)) totals).
Proof.
  intros pivot totals. subst pivot totals.
  unfold get_category_expenses_by_month, get_expenses_by_month, pivot_table.
  cbv zeta. cbn [fst df].
  set (rs := rows (assign_Month (df self))).
  split.
  - rewrite groupby_sum_keys, !map_map. apply map_id.
  - intros m row Hin. rewrite map_map in Hin. apply in_map_iff in Hin.
    destruct Hin as (m' & E & Hm). injection E as -> <-.
    apply groupby_sum_In. split; [exact Hm|].
    rewrite !map_map. cbn [snd].
    erewrite map_ext
      by (intro c; exact (fillna0_cell (group by_category (group Month rs m) c))).
    apply sum_over_categories.
    + apply Sorted_key_lt_NoDup. apply unique_sorted_Sorted.
    + intros r Hr. apply group_keys_In. exists r. split; [|reflexivity].
      apply group_In in Hr. destruct Hr as [Hr Hk].
      apply filter_In. split; [exact Hr | rewrite Hk; reflexivity].
Qed.

End Pivot.

Lemma pivot_rows_sum_to_month_totals_witness :
  let ledger : Tracker Z :=
    {| df := {| columns := base_columns; Description_dtype := dt_object;
                rows := [ {| Date := mkTimestamp 2024 1 5; Amount := 10000%Z;
                             Category := "Food"; Description := Text "lunch";
                             Month := None |};
                          {| Date := mkTimestamp 2024 1 9; Amount := 20000%Z;
                             Category := "Housing"; Description := Text "rent";
                             Month := None |};
                          {| Date := mkTimestamp 2024 1 10; Amount := 5000%Z;
                             Category := "Food"; Description := Text "snacks";
                             Month := None |} ] |} |} in
  let pivot := fst (get_category_expenses_by_month ledger) in
  let totals := fst (get_expenses_by_month ledger) in
  map fst pivot = map fst totals /\
  (forall m row, In (m, row) pivot -> In (m, Series_sum (map snd row)) totals).
Proof.
  intro ledger.
  exact (pivot_rows_sum_to_month_totals (H0 := ExactFacts.exact) ledger).
Defined.


(** ** What the aggregators do to the ledger *)

Section Frame.

Context {A : Type} `{AmountArith A} {sv : SortValues A}.

Lemma assign_Month_base_fields (frame : DataFrame A) :
  map base_fields (rows (assign_Month frame)) = map base_fields (rows frame).
Proof.
  unfold assign_Month. cbn [rows]. rewrite map_map. reflexivity.
Qed.

Lemma assign_Month_Month (frame : DataFrame A) :
  map Month (rows (assign_Month frame)) =
  map (fun r => Some (strftime_Ym (Date r))) (rows frame).
Proof.
  unfold assign_Month. cbn [rows]. rewrite map_map. reflexivity.
Qed.

(** C2, as the code has it.  [get_expenses_by_category] leaves the tracker as
    it is.  [get_expenses_by_month] and [get_category_expenses_by_month]
    leave every transaction, field by field and in order, and the
    Description dtype, but store each row's month in a Month column, which
    they add to the frame's columns when it is not there. *)
Theorem aggregators_effect_on_ledger (self : Tracker A) :
  snd (get_expenses_by_category self) = self /\
  (forall self',
     self' = snd (get_expenses_by_month self) \/
     self' = snd (get_category_expenses_by_month self) ->
     map base_fields (rows (df self')) = map base_fields (rows (df self)) /\
     Description_dtype (df self') = Description_dtype (df self) /\
     map Month (rows (df self')) =
       map (fun r => Some (strftime_Ym (Date r))) (rows (df self)) /\
     In "Month" (columns (df self')) /\
     (forall col, In col (columns (df self')) <->
                  In col (columns (df self)) \/ col = "Month")).
Proof.
  split; [reflexivity|].
  intros self' Hs.
  assert (E : df self' = assign_Month (df self))
    by (destruct Hs as [-> | ->]; reflexivity).
  rewrite E. split; [apply assign_Month_base_fields|].
  split; [reflexivity|]. split; [apply assign_Month_Month|].
  unfold assign_Month. cbn [columns].
  destruct (in_dec string_dec "Month" (columns (df self))) as [Hin|Hnot].
  - split; [exact Hin|]. intro col. split; [auto|].
    intros [Hc | ->]; assumption.
  - split; [apply in_or_app; right; left; reflexivity|].
    intro col. rewrite in_app_iff. simpl. intuition.
Qed.

End Frame.

(** C2 as stated fails: on the example ledger [get_expenses_by_month] turns
    the four columns into five and fills the Month of every row, so the
    tracker is not what it was. *)
Lemma get_expenses_by_month_mutates :
  columns (df Example.ledger) = ["Date"; "Amount"; "Category"; "Description"] /\
  columns (df (snd (get_expenses_by_month Example.ledger))) =
    ["Date"; "Amount"; "Category"; "Description"; "Month"] /\
  map Month (rows (df Example.ledger)) = [None; None; None] /\
  map Month (rows (df (snd (get_expenses_by_month Example.ledger)))) =
    [Some "2024-01"; Some "2024-01"; Some "2024-02"] /\
  snd (get_expenses_by_month Example.ledger) <> Example.ledger.
Proof.
  repeat split; try (vm_compute; reflexivity).
  intro E. apply (f_equal (fun t => List.length (columns (df t)))) in E.
  vm_compute in E. discriminate.
Qed.

(** ** [add_expense] *)

Section AddExpense.

Context {A : Type} `{AmountArith A}.

(** C3. A category outside [self.categories] makes [add_expense] print the
    invalid-category message and return False; the tracker is the same
    afterwards and nothing is written. *)
Theorem add_expense_invalid_category (self : Tracker A) (amount : PyObject A)
    (category description : string) (date : DateArg) (now : Timestamp) :
  ~ In category categories ->
  add_expense self amount category description date now =
  (Value false, self,
   match date with
   | DateRejected => [Print InvalidDateMsg; Print InvalidCategoryMsg]
   | _ => [Print InvalidCategoryMsg]
   end).
Proof.
  intro Hnot. unfold add_expense.
  destruct (in_dec string_dec category categories) as [Hin|_];
    [contradiction|].
  destruct date; reflexivity.
Qed.

(** C6, as the code has it.  With a valid category, an amount that [float]
    cannot convert makes [add_expense] raise [float]'s exception to its
    caller; the tracker is the same afterwards and nothing is written. *)
Theorem add_expense_unconvertible_amount (self : Tracker A) (amount : PyObject A)
    (category description : string) (date : DateArg) (now : Timestamp) (e : exn) :
  In category categories ->
  py_float amount = Raise e ->
  add_expense self amount category description date now =
  (Raise e, self,
   match date with DateRejected => [Print InvalidDateMsg] | _ => [] end).
Proof.
  intros Hin Hamt. unfold add_expense.
  destruct (in_dec string_dec category categories) as [_|Hnot];
    [|contradiction].
  rewrite Hamt. destruct date; reflexivity.
Qed.

End AddExpense.

Lemma add_expense_invalid_category_witness :
  add_expense Example.ledger (PyFloat Example.a50) "Vacation" "trip"
              DateOmitted (mkTimestamp 2024 3 1) =
  (Value false, Example.ledger, [Print InvalidCategoryMsg]).
Proof.
  apply (add_expense_invalid_category Example.ledger (PyFloat Example.a50)
           "Vacation" "trip" DateOmitted (mkTimestamp 2024 3 1)).
  vm_compute. intuition discriminate.
Defined.

Lemma add_expense_unconvertible_amount_witness :
  add_expense Example.ledger (PyStr "twelve") "Food" "lunch"
              DateOmitted (mkTimestamp 2024 3 1) =
  (Raise ValueError, Example.ledger, []).
Proof.
  apply (add_expense_unconvertible_amount Example.ledger (PyStr "twelve")
           "Food" "lunch" DateOmitted (mkTimestamp 2024 3 1) ValueError).
  - vm_compute. auto.
  - vm_compute. reflexivity.
Defined.

(** C6 as stated fails: an amount that is not finite is accepted (the text
    "inf" converts to infinity, which is appended and saved), and an amount
    that cannot be converted goes unnoticed when the category is wrong, the
    answer being the invalid-category one. *)
Lemma add_expense_accepts_infinity :
  let start : Tracker Binary64.float64 := fst (init None) in
  let now := mkTimestamp 2024 3 1 in
  let row := {| Date := now; Amount := S754_infinity false; Category := "Food";
                Description := Text "lunch"; Month := None |} in
  let frame := {| columns := base_columns; Description_dtype := dt_object;
                  rows := [row] |} in
  Binary64.is_finite (S754_infinity false) = false /\
  add_expense start (PyStr "inf") "Food" "lunch" DateOmitted now =
    (Value true, {| df := frame |}, [ToCsv frame; Print ExpenseAddedMsg]) /\
  add_expense start (PyStr "twelve") "Vacation" "lunch" DateOmitted now =
    (Value false, start, [Print InvalidCategoryMsg]).
Proof. vm_compute. repeat split. Qed.

(** ** The ledger invariant *)

Section Invariant.

Context {A : Type} `{AmountArith A} {sv : SortValues A}.

Lemma align_dtypes_Category (frame : DataFrame A) cols (r r' : Row A) :
  align_dtypes frame cols r = Value r' -> Category r' = Category r.
Proof.
  revert r. induction cols as [|col cols IH]; intros r E; cbn [align_dtypes] in E.
  - congruence.
  - destruct (in_dec string_dec col base_columns); [|exact (IH _ E)].
    destruct (astype_col frame col r) as [r1|e] eqn:E1; [|discriminate].
    rewrite (IH _ E). unfold astype_col in E1.
    destruct (String.eqb col "Description"); [|congruence].
    destruct (Description_dtype frame), (Description r); try congruence.
    destruct (amt_of_str s); [|discriminate].
    injection E1 as <-. reflexivity.
Qed.

Lemma add_expense_rows (self : Tracker A) amount category description date now :
  let self' := snd (fst (add_expense self amount category description date now)) in
  self' = self \/
  exists r, rows (df self') = rows (df self) ++ [r] /\ category_ok r.
Proof.
  unfold add_expense.
  destruct (match date with
            | DateOmitted => (now, [])
            | DateParsed ts => (ts, [])
            | DateRejected => (now, [Print InvalidDateMsg])
            end) as [date' out].
  destruct (in_dec string_dec category categories) as [Hin|_]; [|left; reflexivity].
  destruct (py_float amount) as [x|e]; [|left; reflexivity].
  destruct (align_dtypes _ _ _) as [r|e] eqn:E; [|left; reflexivity].
  right. exists r. split; [reflexivity|].
  unfold category_ok. rewrite (align_dtypes_Category _ _ _ _ E). exact Hin.
Qed.

Lemma assign_Month_category_ok (frame : DataFrame A) :
  Forall category_ok (rows frame) -> Forall category_ok (rows (assign_Month frame)).
Proof.
  unfold assign_Month. cbn [rows]. rewrite Forall_map. intro Hall.
  eapply Forall_impl; [|exact Hall]. intros r Hr. exact Hr.
Qed.

Lemma step_category_ok (self self' : Tracker A) :
  step self self' ->
  Forall category_ok (rows (df self)) -> Forall category_ok (rows (df self')).
Proof.
  intros Hstep Hall. destruct Hstep.
  - destruct (add_expense_rows self amount category description date now)
      as [-> | (r & -> & Hr)]; [exact Hall|].
    apply Forall_app. split; [exact Hall | constructor; [exact Hr | constructor]].
  - exact Hall.
  - apply assign_Month_category_ok. exact Hall.
  - apply assign_Month_category_ok. exact Hall.
  - unfold generate_monthly_report.
    destruct (group Month _ _); apply assign_Month_category_ok; exact Hall.
Qed.

(** C5, as the code has it.  When the transactions read at start-up, if any,
    have their categories in [self.categories], so has every transaction of
    every ledger the session reaches.  Nothing is promised of the amounts. *)
Theorem category_invariant (data_file : option (DataFrame A)) (self : Tracker A) :
  (forall frame, data_file = Some frame -> Forall category_ok (rows frame)) ->
  reachable data_file self ->
  Forall category_ok (rows (df self)).
Proof.
  intros Hfile Hreach. induction Hreach as [|self self' _ IH Hstep].
  - destruct data_file as [frame|]; simpl.
    + apply Hfile. reflexivity.
    + constructor.
  - exact (step_category_ok _ _ Hstep IH).
Qed.

End Invariant.

Lemma category_invariant_witness :
  Forall category_ok
    (rows (df (snd (fst (add_expense (fst (init (A := Binary64.float64) None))
                           (PyStr "12.50") "Food" "lunch" DateOmitted
                           (mkTimestamp 2024 3 1)))))).
Proof.
  apply (category_invariant (sv := stable_sort) None).
  - intros frame E. discriminate E.
  - eapply reach_step; [apply reach_init | apply step_add_expense].
Defined.

(** C5 as stated fails: a session that starts without a data file and
    records -5 under Food reaches a ledger holding a negative amount. *)
Lemma negative_amount_reachable :
  let self : Tracker Binary64.float64 :=
    snd (fst (add_expense (fst (init None)) (PyStr "-5") "Food" "refund"
                          DateOmitted (mkTimestamp 2024 3 1))) in
  reachable (sv := stable_sort) None self /\
  map Amount (rows (df self)) = [Example.amount "-5"] /\
  Binary64.finite_nonneg (Example.amount "-5") = false.
Proof.
  split; [|vm_compute; split; reflexivity].
  eapply reach_step; [apply reach_init | apply step_add_expense].
Qed.

(** ** The five largest expenses of the report *)

Section TopExpenses.

Context {A : Type} `{AmountOrder A}.

Lemma month_group_rows (frame : DataFrame A) m :
  group Month (rows (assign_Month frame)) m =
  map (fun r => set_Month r (Some m)) (filter (in_month m) (rows frame)).
Proof.
  unfold assign_Month, group. cbn [rows].
  induction (rows frame) as [|r rs IH].
  - reflexivity.
  - cbn [map filter]. unfold has_key at 1, in_month at 1.
    cbn [Month set_Month Date].
    destruct (String.eqb_spec (strftime_Ym (Date r)) m) as [E|E].
    + cbn [map]. rewrite IH, E. reflexivity.
    + exact IH.
Qed.

Lemma report_top_expenses (sv : SortValues A) (self : Tracker A)
    (month_arg : option string) (now : Timestamp) (r : Report A) :
  fst (fst (generate_monthly_report (sv := sv) self month_arg now)) = Some r ->
  let m := match month_arg with Some m => m | None => strftime_Ym now end in
  let month_data := group Month (rows (assign_Month (df self))) m in
  month_data <> [] /\
  top_expenses r = firstn 5 (sort_values_desc (Row A) Amount month_data).
Proof.
  unfold generate_monthly_report.
  destruct (group Month _ _) as [|x xs]; [discriminate|].
  intro E. injection E as <-. split; [discriminate | reflexivity].
Qed.

Lemma report_total_spent (sv : SortValues A) (self : Tracker A)
    (month_arg : option string) (now : Timestamp) (r : Report A) :
  fst (fst (generate_monthly_report (sv := sv) self month_arg now)) = Some r ->
  let m := match month_arg with Some m => m | None => strftime_Ym now end in
  total_spent r =
  Series_sum (map Amount (group Month (rows (assign_Month (df self))) m)).
Proof.
  unfold generate_monthly_report.
  destruct (group Month _ _) as [|x xs]; [discriminate|].
  intro E. injection E as <-. reflexivity.
Qed.

(** C7, as the code has it.  When the month has expenses, the report lists
    [min 5 n] of its [n] transactions, each with its month filled in; listed
    and unlisted transactions together are the month's transactions, and in
    the order "listed, then unlisted" amounts descend, so the listed ones
    are in descending order and none of the unlisted exceeds any of them.
    The order among equal amounts is the sorting algorithm's. *)
Theorem top_expenses_largest_descending (sv : SortValues A) (self : Tracker A)
    (month_arg : option string) (now : Timestamp) (r : Report A) :
  SortSpec sv ->
  fst (fst (generate_monthly_report (sv := sv) self month_arg now)) = Some r ->
  let m := match month_arg with Some m => m | None => strftime_Ym now end in
  let month_data :=
    map (fun x => set_Month x (Some m)) (filter (in_month m) (rows (df self))) in
  exists unlisted,
    Permutation (top_expenses r ++ unlisted) month_data /\
    List.length (top_expenses r) = Nat.min 5 (List.length month_data) /\
    StronglySorted (descending Amount) (top_expenses r ++ unlisted).
Proof.
  intros Hsv Hr m month_data.
  destruct (report_top_expenses sv self month_arg now r Hr) as [_ ->].
  fold m. rewrite month_group_rows. fold month_data.
  set (sorted := sort_values_desc (Row A) Amount month_data).
  exists (skipn 5 sorted). rewrite firstn_skipn.
  split; [apply sort_Permutation|]. split.
  - rewrite length_firstn. f_equal.
    apply Permutation_length. apply sort_Permutation.
  - apply Sorted_before_Strongly. apply sort_Sorted.
Qed.

End TopExpenses.

Lemma top_expenses_largest_descending_witness :
  exists unlisted,
    Permutation
      ([set_Month Example.lunch (Some "2024-01");
        set_Month Example.snacks (Some "2024-01")] ++ unlisted)
      (map (fun x => set_Month x (Some "2024-01"))
           (filter (in_month "2024-01") (rows (df Example.ledger)))) /\
    List.length [set_Month Example.lunch (Some "2024-01");
                 set_Month Example.snacks (Some "2024-01")] =
      Nat.min 5 (List.length
                   (map (fun x => set_Month x (Some "2024-01"))
                        (filter (in_month "2024-01") (rows (df Example.ledger))))) /\
    StronglySorted (descending Amount)
      ([set_Month Example.lunch (Some "2024-01");
        set_Month Example.snacks (Some "2024-01")] ++ unlisted).
Proof.
  exact (top_expenses_largest_descending stable_sort Example.ledger
           (Some "2024-01") (mkTimestamp 2024 3 1)
           {| total_spent := Example.amount "150";
              category_spending := [("Food", Example.amount "150")];
              top_expenses := [set_Month Example.lunch (Some "2024-01");
                               set_Month Example.snacks (Some "2024-01")] |}
           stable_sort_spec eq_refl).
Defined.

(** C7 as stated fails.  Under numpy's quicksort two expenses of one amount
    are still listed in ledger order, but with twenty expenses of 50 in one
    month the five that are listed are not the first five of the ledger. *)
Lemma top_expenses_of_twenty_ties :
  let listed (self : Tracker Binary64.float64) :=
    match fst (fst (generate_monthly_report (sv := Numpy.quicksort) self
                      (Some "2024-01") (mkTimestamp 2024 3 1))) with
    | Some r => map (fun x => day (Date x)) (top_expenses r)
    | None => []
    end in
  listed Example.tie_ledger = [5; 6] /\
  map Amount (rows (df Example.twenty_ties)) = repeat Example.a50 20 /\
  map (fun x => day (Date x)) (rows (df Example.twenty_ties)) = seq 1 20 /\
  List.length (listed Example.twenty_ties) = 5 /\
  listed Example.twenty_ties <> [1; 2; 3; 4; 5].
Proof. vm_compute. repeat split. discriminate. Qed.

(** ** Sums in binary64 *)

Module Binary64Sums.
Import Binary64.

Lemma fold_no_rounding (l : list float64) (acc : float64) :
  no_rounding acc l ->
  (to_Q (fold_left (SFadd prec emax) l acc) == to_Q acc + exact_total l)%Q.
Proof.
  revert acc. induction l as [|x l IH]; intros acc Hl.
  - unfold exact_total. simpl. ring.
  - destruct Hl as (_ & Hx & Hl). cbn [fold_left].
    rewrite (IH _ Hl), Hx. unfold exact_total. simpl. ring.
Qed.

Lemma fold_no_rounding_finite (l : list float64) (acc : float64) :
  is_finite acc = true -> no_rounding acc l ->
  is_finite (fold_left (SFadd prec emax) l acc) = true.
Proof.
  revert acc. induction l as [|x l IH]; intros acc Hacc Hl.
  - exact Hacc.
  - destruct Hl as (Hf & _ & Hl). cbn [fold_left]. apply IH; assumption.
Qed.

Lemma SFadd_nan (acc x : float64) :
  isnan x = true -> SFadd prec emax acc x = S754_nan.
Proof.
  destruct x; try discriminate. intros _. destruct acc; reflexivity.
Qed.

Lemma no_rounding_skipna (l : list float64) (acc : float64) :
  no_rounding acc l -> filter (fun x => negb (isnan x)) l = l.
Proof.
  revert acc. induction l as [|x l IH]; intros acc Hl; cbn [filter].
  - reflexivity.
  - destruct Hl as (Hf & _ & Hl). rewrite (IH _ Hl).
    destruct (isnan x) eqn:E; [|reflexivity].
    rewrite (SFadd_nan acc x E) in Hf. discriminate.
Qed.

Lemma Series_sum_no_rounding (l : list float64) :
  no_rounding amt_zero l ->
  (to_Q (Series_sum l) == exact_total l)%Q /\ isnan (Series_sum l) = false.
Proof.
  intro Hl.
  assert (E : Series_sum l = fold_left (SFadd prec emax) l amt_zero).
  { unfold Series_sum. change amt_isnan with isnan.
    rewrite (no_rounding_skipna l amt_zero Hl). reflexivity. }
  rewrite E. split.
  - rewrite (fold_no_rounding l amt_zero Hl). simpl. ring.
  - assert (F : is_finite (fold_left (SFadd prec emax) l amt_zero) = true)
      by (apply (fold_no_rounding_finite l amt_zero); [reflexivity | exact Hl]).
    destruct (fold_left (SFadd prec emax) l amt_zero); try discriminate; reflexivity.
Qed.

Lemma month_category_amounts (frame : DataFrame float64) m c :
  map Amount (group by_category (group Month (rows (assign_Month frame)) m) c) =
  map Amount (filter (in_category c) (filter (in_month m) (rows frame))).
Proof.
  rewrite month_group_rows, group_by_category.
  induction (filter (in_month m) (rows frame)) as [|r rs IH].
  - reflexivity.
  - cbn [map filter].
    change (in_category c (set_Month r (Some m))) with (in_category c r).
    destruct (in_category c r); cbn [map]; rewrite IH; reflexivity.
Qed.

Lemma pivot_cell_no_rounding (frame : DataFrame float64) m c :
  let amounts :=
    map Amount (filter (in_category c) (filter (in_month m) (rows frame))) in
  no_rounding amt_zero amounts ->
  (to_Q (fillna0
           match group by_category (group Month (rows (assign_Month frame)) m) c with
           | [] => None
           | r :: g => Some (Series_sum (map Amount (r :: g)))
           end) == exact_total amounts)%Q.
Proof.
  intros amounts Hl.
  pose proof (month_category_amounts frame m c) as Ea. fold amounts in Ea.
  destruct (Series_sum_no_rounding amounts Hl) as [Hq Hn].
  destruct (group by_category (group Month (rows (assign_Month frame)) m) c)
    as [|x g].
  - rewrite <- Ea. reflexivity.
  - unfold fillna0. rewrite Ea. change amt_isnan with isnan.
    rewrite Hn. exact Hq.
Qed.

(** C1, as the code has it.  [get_expenses_by_category] has one entry for
    each category that occurs in the ledger and none for any other, in
    descending order of the totals.  A total is a binary64 number: it is the
    exact sum of the amounts of its category whenever adding them in ledger
    order never rounds.  This holds whichever sorting algorithm
    [sort_values] runs. *)
Theorem get_expenses_by_category_totals (sv : SortValues float64)
    (self : Tracker float64) :
  SortSpec sv ->
  let totals := fst (get_expenses_by_category (sv := sv) self) in
  (forall c, In c (map fst totals) <->
             exists r, In r (rows (df self)) /\ Category r = c) /\
  NoDup (map fst totals) /\
  StronglySorted (descending snd) totals /\
  (forall c s, In (c, s) totals ->
     let amounts := map Amount (filter (in_category c) (rows (df self))) in
     no_rounding amt_zero amounts -> (to_Q s == exact_total amounts)%Q).
Proof.
  intros Hsv totals.
  assert (P : Permutation totals (groupby_sum by_category (rows (df self))))
    by apply sort_Permutation.
  assert (K : Permutation (map fst totals) (group_keys by_category (rows (df self)))).
  { rewrite <- groupby_sum_keys. apply Permutation_map. exact P. }
  split; [|split; [|split]].
  - intro c. split.
    + intro Hin. apply (Permutation_in _ K) in Hin.
      apply group_keys_In in Hin. destruct Hin as (r & Hr & E).
      exists r. split; [exact Hr | injection E; auto].
    + intros (r & Hr & E). apply (Permutation_in _ (Permutation_sym K)).
      apply group_keys_In. exists r.
      split; [exact Hr | unfold by_category; congruence].
  - apply (Permutation_NoDup (Permutation_sym K)).
    apply Sorted_key_lt_NoDup. apply unique_sorted_Sorted.
  - apply Sorted_before_Strongly. apply sort_Sorted.
  - intros c s Hin amounts Hl.
    rewrite (category_total_value sv self c s Hsv Hin).
    apply Series_sum_no_rounding. exact Hl.
Qed.

(** C8, as the code has it.  [get_expenses_by_month] has one entry per
    "YYYY-MM" month in which some transaction is dated; the months come in
    ascending order of their keys, the same sequence for every arrangement
    of the ledger's rows, and between calendar dates ascending keys are
    chronological order.  A total is a binary64 number: it is the exact sum
    of the amounts of its month whenever adding them in ledger order never
    rounds. *)
Theorem get_expenses_by_month_totals (self : Tracker float64) :
  let totals := fst (get_expenses_by_month self) in
  (forall m, In m (map fst totals) <->
             exists r, In r (rows (df self)) /\ strftime_Ym (Date r) = m) /\
  StronglySorted key_lt (map fst totals) /\
  (forall other : Tracker float64,
     Permutation (rows (df other)) (rows (df self)) ->
     map fst (fst (get_expenses_by_month other)) = map fst totals) /\
  (forall r1 r2, In r1 (rows (df self)) -> In r2 (rows (df self)) ->
     calendar_date (Date r1) -> calendar_date (Date r2) ->
     (key_lt (strftime_Ym (Date r1)) (strftime_Ym (Date r2)) <->
      month_before (Date r1) (Date r2))) /\
  (forall m s, In (m, s) totals ->
     let amounts := map Amount (filter (in_month m) (rows (df self))) in
     no_rounding amt_zero amounts -> (to_Q s == exact_total amounts)%Q).
Proof.
  intro totals.
  assert (K : forall t : Tracker float64,
             map fst (fst (get_expenses_by_month t)) =
             group_keys Month (rows (assign_Month (df t)))).
  { intro t. unfold get_expenses_by_month. cbv zeta. cbn [fst].
    apply groupby_sum_keys. }
  unfold totals. rewrite K.
  split; [|split; [|split; [|split]]].
  - intro m. apply month_keys_In.
  - apply group_keys_StronglySorted.
  - intros other Hperm. rewrite K.
    apply StronglySorted_key_lt_unique; try apply group_keys_StronglySorted.
    intro k. rewrite !month_keys_In.
    split; intros (r & Hr & E); exists r; split; try exact E.
    + apply (Permutation_in _ Hperm). exact Hr.
    + apply (Permutation_in _ (Permutation_sym Hperm)). exact Hr.
  - intros r1 r2 _ _. apply strftime_Ym_chronological.
  - intros m s Hin Hl.
    rewrite (month_total_value self m s Hin).
    apply Series_sum_no_rounding. exact Hl.
Qed.

(** C9, as the code has it.  The program adds in binary64.  A total by
    category, a total by month and a cell of the pivot each equal the exact
    sum of the amounts they cover whenever adding those amounts in ledger
    order never rounds; so does the total of a report for a month of fewer
    than eight transactions, the columns numpy adds in ledger order. *)
Theorem sums_exact_when_no_addition_rounds (sv : SortValues float64)
    (self : Tracker float64) :
  SortSpec sv ->
  (forall c s, In (c, s) (fst (get_expenses_by_category (sv := sv) self)) ->
     let amounts := map Amount (filter (in_category c) (rows (df self))) in
     no_rounding amt_zero amounts -> (to_Q s == exact_total amounts)%Q) /\
  (forall m s, In (m, s) (fst (get_expenses_by_month self)) ->
     let amounts := map Amount (filter (in_month m) (rows (df self))) in
     no_rounding amt_zero amounts -> (to_Q s == exact_total amounts)%Q) /\
  (forall m row c s,
     In (m, row) (fst (get_category_expenses_by_month self)) -> In (c, s) row ->
     let amounts :=
       map Amount (filter (in_category c) (filter (in_month m) (rows (df self)))) in
     no_rounding amt_zero amounts -> (to_Q s == exact_total amounts)%Q) /\
  (forall m now r,
     fst (fst (generate_monthly_report (sv := sv) self (Some m) now)) = Some r ->
     let amounts := map Amount (filter (in_month m) (rows (df self))) in
     (List.length amounts < 8)%nat ->
     no_rounding amt_zero amounts ->
     (to_Q (total_spent r) == exact_total amounts)%Q).
Proof.
  intro Hsv. split; [|split; [|split]].
  - intros c s Hin amounts Hl.
    rewrite (category_total_value sv self c s Hsv Hin).
    apply Series_sum_no_rounding. exact Hl.
  - intros m s Hin amounts Hl.
    rewrite (month_total_value self m s Hin).
    apply Series_sum_no_rounding. exact Hl.
  - intros m row c s Hrow Hcell amounts Hl.
    rewrite (pivot_cell_In self m row c s Hrow Hcell).
    apply pivot_cell_no_rounding. exact Hl.
  - intros m now r Hr amounts _ Hl.
    rewrite (report_total_spent sv self (Some m) now r Hr).
    rewrite month_group_amounts.
    apply Series_sum_no_rounding. exact Hl.
Qed.

Lemma Qsum_ext (f g : string -> Q) (cols : list string) :
  (forall c, In c cols -> (f c == g c)%Q) ->
  (fold_right Qplus 0 (map f cols) == fold_right Qplus 0 (map g cols))%Q.
Proof.
  induction cols as [|c cols IH]; intro Hfg; cbn [map fold_right].
  - reflexivity.
  - rewrite (Hfg c) by (left; reflexivity).
    rewrite IH by (intros c' Hc'; apply Hfg; right; exact Hc').
    reflexivity.
Qed.

Lemma Qsum_bump_one (f : string -> Q) (x : Q) (c0 : string) (cols : list string) :
  NoDup cols -> In c0 cols ->
  (fold_right Qplus 0
     (map (fun c => if String.eqb c0 c then x + f c else f c) cols) ==
   x + fold_right Qplus 0 (map f cols))%Q.
Proof.
  induction 1 as [|c cols Hc Hnd IH]; intro Hin; [contradiction|].
  cbn [map fold_right].
  destruct (String.eqb_spec c0 c) as [E|E].
  - subst c.
    rewrite (Qsum_ext (fun c => if String.eqb c0 c then (x + f c)%Q else f c) f).
    + ring.
    + intros c' Hc'. destruct (String.eqb_spec c0 c'); [congruence | reflexivity].
  - destruct Hin as [Hin|Hin]; [congruence|].
    rewrite (IH Hin). ring.
Qed.

Lemma Qsum_over_categories (cols : list string) (g : list (Row float64)) :
  NoDup cols ->
  (forall r, In r g -> In (Category r) cols) ->
  (fold_right Qplus 0
     (map (fun c => exact_total (map Amount (filter (in_category c) g))) cols) ==
   exact_total (map Amount g))%Q.
Proof.
  intro Hnd. induction g as [|r g IH]; intro Hcov.
  - cbn [filter map]. clear. induction cols as [|c cols IHc]; cbn [map fold_right].
    + reflexivity.
    + rewrite IHc. unfold exact_total. simpl. ring.
  - change (exact_total (map Amount (r :: g)))
      with (to_Q (Amount r) + exact_total (map Amount g))%Q.
    rewrite <- IH by (intros r' Hr'; apply Hcov; right; exact Hr').
    rewrite <- (Qsum_bump_one
                  (fun c => exact_total (map Amount (filter (in_category c) g)))
                  (to_Q (Amount r)) (Category r) cols Hnd)
      by (apply Hcov; left; reflexivity).
    apply Qsum_ext. intros c _. cbn [filter]. unfold in_category at 1.
    destruct (String.eqb (Category r) c); reflexivity.
Qed.

(** C4, as the code has it.  For a month of the pivot, when none of the
    additions involved rounds (adding the row's values, adding the month's
    amounts, adding the month's amounts of any one category), the values of
    the row sum to the number the monthly totals hold for that month. *)
Theorem pivot_row_sums_to_month_total (self : Tracker float64) (m : string)
    (row : list (string * float64)) :
  In (m, row) (fst (get_category_expenses_by_month self)) ->
  no_rounding amt_zero (map snd row) ->
  no_rounding amt_zero (map Amount (filter (in_month m) (rows (df self)))) ->
  (forall c,
     no_rounding amt_zero
       (map Amount (filter (in_category c) (filter (in_month m) (rows (df self)))))) ->
  exists total,
    In (m, total) (fst (get_expenses_by_month self)) /\
    (to_Q (Series_sum (map snd row)) == to_Q total)%Q.
Proof.
  intros Hrow Hvalues Hmonth Hcells.
  destruct (pivot_row_shape self m row Hrow) as [Hm Erow].
  exists (Series_sum (map Amount (group Month (rows (assign_Month (df self))) m))).
  split.
  - unfold get_expenses_by_month. cbv zeta. cbn [fst df].
    apply groupby_sum_In. split; [exact Hm | reflexivity].
  - rewrite month_group_amounts.
    rewrite (proj1 (Series_sum_no_rounding _ Hvalues)).
    rewrite (proj1 (Series_sum_no_rounding _ Hmonth)).
    rewrite Erow. unfold exact_total at 1. rewrite !map_map. cbn [snd].
    rewrite (Qsum_ext _ (fun c => exact_total
                           (map Amount (filter (in_category c)
                              (filter (in_month m) (rows (df self)))))))
      by (intros c _; apply pivot_cell_no_rounding; apply Hcells).
    apply Qsum_over_categories.
    + apply Sorted_key_lt_NoDup. apply unique_sorted_Sorted.
    + intros r Hr. apply filter_In in Hr. destruct Hr as [Hr _].
      apply assigned_category_keys. exists r. split; [exact Hr | reflexivity].
Qed.

End Binary64Sums.

Lemma pivot_row_sums_to_month_total_witness :
  exists total,
    In ("2024-01", total) (fst (get_expenses_by_month Example.ledger)) /\
    (Binary64.to_Q (Series_sum (map snd [("Food", Example.amount "150");
                                         ("Housing", Example.amount "0")])) ==
     Binary64.to_Q total)%Q.
Proof.
  apply (Binary64Sums.pivot_row_sums_to_month_total Example.ledger "2024-01"
           [("Food", Example.amount "150"); ("Housing", Example.amount "0")]).
  - vm_compute. left. reflexivity.
  - vm_compute. repeat split.
  - vm_compute. repeat split.
  - intro c.
    change (filter (in_month "2024-01") (rows (df Example.ledger)))
      with [Example.lunch; Example.snacks].
    cbn [filter]. unfold in_category.
    change (Category Example.lunch) with "Food".
    change (Category Example.snacks) with "Food".
    destruct (String.eqb "Food" c); vm_compute; repeat split.
Defined.

(** C4 as stated fails in binary64: 0.1 and 0.6 of
    Food and 0.2 of Housing in one month give the row (0.7, 0.2), which sums
    to 0.8999999999999999, beside a monthly total of 0.9. *)
Lemma pivot_row_sum_rounding :
  fst (get_category_expenses_by_month Example.rounding_ledger) =
    [("2024-01", [("Food", Example.amount "0.7");
                  ("Housing", Example.amount "0.2")])] /\
  fst (get_expenses_by_month Example.rounding_ledger) =
    [("2024-01", Example.amount "0.9")] /\
  Series_sum [Example.amount "0.7"; Example.amount "0.2"] =
    Example.amount "0.8999999999999999" /\
  SFeqb (Example.amount "0.8999999999999999") (Example.amount "0.9") = false.
Proof. vm_compute. repeat split. Qed.

Lemma sums_exact_when_no_addition_rounds_witness :
  (Binary64.to_Q (Example.amount "150") ==
   Binary64.exact_total [Example.a100; Example.a50])%Q.
Proof.
  apply (proj1 (Binary64Sums.sums_exact_when_no_addition_rounds
                  stable_sort Example.ledger stable_sort_spec)
               "Food" (Example.amount "150")).
  - vm_compute. auto.
  - vm_compute. repeat split.
Defined.

(** C9 as stated fails: with 0.1 and 0.2 under Food the total by category
    is the float 0.30000000000000004, which lies above the exact sum of the
    two amounts. *)
Lemma category_total_rounds :
  fst (get_expenses_by_category (sv := stable_sort) Example.tenths_ledger) =
    [("Food", Example.amount "0.30000000000000004")] /\
  Qcompare (Binary64.to_Q (Example.amount "0.30000000000000004"))
           (Binary64.exact_total [Example.a0_1; Example.a0_2]) = Gt.
Proof. vm_compute. split; reflexivity. Qed.

Lemma get_expenses_by_category_totals_witness :
  let totals := fst (get_expenses_by_category (sv := stable_sort) Example.ledger) in
  totals = [("Housing", Example.a200); ("Food", Example.amount "150")] /\
  NoDup (map fst totals) /\
  StronglySorted (descending snd) totals /\
  Binary64.no_rounding amt_zero [Example.a100; Example.a50] /\
  (Binary64.to_Q (Example.amount "150") ==
   Binary64.exact_total [Example.a100; Example.a50])%Q.
Proof.
  intro totals.
  destruct (Binary64Sums.get_expenses_by_category_totals stable_sort Example.ledger
              stable_sort_spec) as (_ & Hnd & Hsorted & Hexact).
  assert (Hl : Binary64.no_rounding amt_zero [Example.a100; Example.a50])
    by (vm_compute; repeat split).
  split; [vm_compute; reflexivity|].
  split; [exact Hnd|]. split; [exact Hsorted|]. split; [exact Hl|].
  apply (Hexact "Food" (Example.amount "150")); [|exact Hl].
  vm_compute. auto.
Defined.

(** C1 as stated fails: with 0.1 and 0.7 under Food the entry for Food is
    the float 0.7999999999999999, which lies below the sum of the two
    amounts. *)
Lemma category_total_below_the_sum :
  fst (get_expenses_by_category (sv := stable_sort) Example.eighths_ledger) =
    [("Housing", Example.a200); ("Food", Example.amount "0.7999999999999999")] /\
  Qcompare (Binary64.to_Q (Example.amount "0.7999999999999999"))
           (Binary64.exact_total [Example.a0_1; Example.a0_7]) = Lt.
Proof. vm_compute. split; reflexivity. Qed.

Lemma get_expenses_by_month_totals_witness :
  let totals := fst (get_expenses_by_month Example.ledger) in
  totals = [("2024-01", Example.amount "150"); ("2024-02", Example.a200)] /\
  StronglySorted key_lt (map fst totals) /\
  Binary64.no_rounding amt_zero [Example.a100; Example.a50] /\
  (Binary64.to_Q (Example.amount "150") ==
   Binary64.exact_total [Example.a100; Example.a50])%Q.
Proof.
  intro totals.
  destruct (Binary64Sums.get_expenses_by_month_totals Example.ledger)
    as (_ & Hsorted & _ & _ & Hexact).
  assert (Hl : Binary64.no_rounding amt_zero [Example.a100; Example.a50])
    by (vm_compute; repeat split).
  split; [vm_compute; reflexivity|].
  split; [exact Hsorted|]. split; [exact Hl|].
  apply (Hexact "2024-01" (Example.amount "150")); [|exact Hl].
  vm_compute. auto.
Defined.

(** C8 as stated fails: with 0.3 and 0.6 spent in January the entry for
    2024-01 is the float 0.8999999999999999, which lies below the sum of the
    two amounts. *)
Lemma month_total_below_the_sum :
  fst (get_expenses_by_month Example.ninths_ledger) =
    [("2024-01", Example.amount "0.8999999999999999"); ("2024-02", Example.a200)] /\
  Qcompare (Binary64.to_Q (Example.amount "0.8999999999999999"))
           (Binary64.exact_total [Example.a0_3; Example.a0_6]) = Lt.
Proof. vm_compute. split; reflexivity. Qed.

(** ** Appending a valid expense *)

Section Append.

Context {A : Type} `{AmountArith A}.

Lemma align_dtypes_object (frame : DataFrame A) cols (r : Row A) :
  Description_dtype frame = dt_object -> align_dtypes frame cols r = Value r.
Proof.
  intro Hd. induction cols as [|col cols IH]; cbn [align_dtypes].
  - reflexivity.
  - destruct (in_dec string_dec col base_columns); [|exact IH].
    unfold astype_col. rewrite Hd.
    destruct (String.eqb col "Description"); exact IH.
Qed.

(** When the Description column is of dtype object, a candidate with a
    category of [self.categories] and an amount [float] converts is appended
    after the transactions already there, which stay as they were; the new
    frame is saved and True returned. *)
Theorem add_expense_appends (self : Tracker A) (amount : PyObject A)
    (category description : string) (date : DateArg) (now : Timestamp) (x : A) :
  Description_dtype (df self) = dt_object ->
  In category categories ->
  py_float amount = Value x ->
  let row := {| Date := match date with DateParsed ts => ts | _ => now end;
                Amount := x; Category := category;
                Description := Text description; Month := None |} in
  let frame := {| columns := columns (df self);
                  Description_dtype := Description_dtype (df self);
                  rows := rows (df self) ++ [row] |} in
  add_expense self amount category description date now =
  (Value true, {| df := frame |},
   match date with DateRejected => [Print InvalidDateMsg] | _ => [] end
   ++ [ToCsv frame; Print ExpenseAddedMsg]).
Proof.
  intros Hd Hin Hamt row frame. unfold add_expense.
  destruct (in_dec string_dec category categories) as [_|Hnot];
    [|contradiction].
  rewrite Hamt.
  destruct date; cbv zeta; rewrite align_dtypes_object by exact Hd; reflexivity.
Qed.

End Append.

Lemma add_expense_appends_witness :
  let now := mkTimestamp 2024 3 1 in
  let row := {| Date := now; Amount := Example.amount "12.5"; Category := "Food";
                Description := Text "dinner"; Month := None |} in
  let frame := {| columns := base_columns; Description_dtype := dt_object;
                  rows := [Example.lunch; Example.snacks; Example.rent; row] |} in
  add_expense Example.ledger (PyStr "12.5") "Food" "dinner" DateOmitted now =
  (Value true, {| df := frame |}, [ToCsv frame; Print ExpenseAddedMsg]).
Proof.
  intros now row frame.
  apply (add_expense_appends Example.ledger (PyStr "12.5") "Food" "dinner"
           DateOmitted now (Example.amount "12.5")).
  - reflexivity.
  - vm_compute. auto.
  - vm_compute. reflexivity.
Defined.

(** C10 at its failing input: after a restart that read a ledger whose
    descriptions hold no text, a valid expense with a description in words
    is not appended, for [astype(float64)] raises ValueError on the
    description. *)
Lemma add_expense_raises_after_reload :
  add_expense Example.reloaded_ledger (PyFloat Example.a50) "Food" "snacks"
              DateOmitted (mkTimestamp 2024 3 1) =
  (Raise ValueError, Example.reloaded_ledger, []).
Proof. vm_compute. reflexivity. Qed.

(** ** Further properties of the aggregates and the report *)

Section GrandTotal.

Context {A : Type} `{ExactArith A}.

Lemma Series_sum_Permutation (l1 l2 : list A) :
  Permutation l1 l2 -> Series_sum l1 = Series_sum l2.
Proof.
  induction 1 as [|x l1 l2 _ IH|x y l|l1 l2 l3 _ IH1 _ IH2].
  - reflexivity.
  - rewrite !Series_sum_cons, IH. reflexivity.
  - rewrite !Series_sum_cons, !add_assoc. f_equal. apply add_comm.
  - congruence.
Qed.

(** With amounts that add without rounding, the totals by category add up
    to the sum of all the amounts of the ledger. *)
Theorem category_totals_grand_total (sv : SortValues A) (self : Tracker A) :
  SortSpec sv ->
  Series_sum (map snd (fst (get_expenses_by_category (sv := sv) self))) =
  Series_sum (map Amount (rows (df self))).
Proof.
  intro Hsv. unfold get_expenses_by_category. cbn [fst].
  rewrite (Series_sum_Permutation _ (map snd (groupby_sum by_category (rows (df self)))))
    by (apply Permutation_map; apply sort_Permutation).
  unfold groupby_sum. rewrite map_map. cbn [snd].
  apply sum_over_categories.
  - apply Sorted_key_lt_NoDup. apply unique_sorted_Sorted.
  - intros r Hr. apply group_keys_In. exists r. split; [exact Hr | reflexivity].
Qed.

End GrandTotal.

Lemma category_totals_grand_total_witness :
  let ledger : Tracker Z :=
    {| df := {| columns := base_columns; Description_dtype := dt_object;
                rows := [ {| Date := mkTimestamp 2024 1 5; Amount := 10000%Z;
                             Category := "Food"; Description := Text "lunch";
                             Month := None |};
                          {| Date := mkTimestamp 2024 2 1; Amount := 20000%Z;
                             Category := "Housing"; Description := Text "rent";
                             Month := None |} ] |} |} in
  Series_sum (map snd (fst (get_expenses_by_category (sv := stable_sort) ledger))) =
  Series_sum (map Amount (rows (df ledger))).
Proof.
  intro ledger.
  exact (category_totals_grand_total stable_sort ledger stable_sort_spec).
Defined.

Section ReportAndGrid.

Context {A : Type} `{AmountArith A}.

(** A month without transactions gives no report: the call prints the
    no-expenses message and writes no report file.  The Month column has
    been filled in all the same. *)
Theorem generate_monthly_report_empty_month (sv : SortValues A)
    (self : Tracker A) (month_arg : option string) (now : Timestamp) :
  let m := match month_arg with Some m => m | None => strftime_Ym now end in
  filter (in_month m) (rows (df self)) = [] ->
  generate_monthly_report (sv := sv) self month_arg now =
  (None, {| df := assign_Month (df self) |}, [Print (NoExpensesMsg m)]).
Proof.
  intros m Hempty. unfold generate_monthly_report. fold m.
  replace (group Month (rows (assign_Month (df self))) m) with (@nil (Row A)).
  - reflexivity.
  - unfold assign_Month, group. cbn [rows]. revert Hempty.
    induction (rows (df self)) as [|r rs IH]; [reflexivity|].
    cbn [map filter]. unfold has_key at 1, in_month at 1.
    cbn [Month set_Month Date].
    destruct (String.eqb (strftime_Ym (Date r)) m); [discriminate | exact IH].
Qed.



End ReportAndGrid.

Lemma generate_monthly_report_empty_month_witness :
  generate_monthly_report (sv := stable_sort) Example.ledger (Some "2024-03")
                          (mkTimestamp 2024 3 1) =
  (None, {| df := assign_Month (df Example.ledger) |},
   [Print (NoExpensesMsg "2024-03")]).
Proof.
  apply (generate_monthly_report_empty_month stable_sort Example.ledger
           (Some "2024-03") (mkTimestamp 2024 3 1)).
  vm_compute. reflexivity.
Defined.



(** The report of the specification's example for 2024-01: 150 spent, all of
    it on Food, and the two expenses listed with lunch (100) before snacks
    (50). *)
Example example_monthly_report :
  fst (fst (generate_monthly_report (sv := stable_sort) Example.ledger
              (Some "2024-01") (mkTimestamp 2024 3 1))) =
  Some {| total_spent := Example.amount "150";
          category_spending := [("Food", Example.amount "150")];
          top_expenses := [set_Month Example.lunch (Some "2024-01");
                           set_Month Example.snacks (Some "2024-01")] |}.
Proof. vm_compute. reflexivity. Qed.

(** ** The report under an order-keeping sort *)

Section StableTop.

Context {A : Type} `{AmountOrder A}.

Lemma insert_desc_tied {T} (key : T -> A) (k : A) (x : T) (l : list T) :
  filter (tied key k) (insert_desc key x l) =
  if tied key k x then x :: filter (tied key k) l else filter (tied key k) l.
Proof.
  induction l as [|y l IH]; cbn [insert_desc filter].
  - reflexivity.
  - destruct (before (key x) (key y)) eqn:Exy; cbn [filter].
    + reflexivity.
    + rewrite IH.
      destruct (tied key k x) eqn:Px, (tied key k y) eqn:Py; try reflexivity.
      exfalso. unfold tied in Px, Py.
      apply andb_true_iff in Px, Py. destruct Px as [Px _], Py as [_ Py].
      rewrite (before_trans _ _ _ Px Py) in Exy. discriminate.
Qed.

Lemma stable_sort_tied {T} (key : T -> A) (k : A) (l : list T) :
  filter (tied key k) (sort_values_desc (SortValues := stable_sort) T key l) =
  filter (tied key k) l.
Proof.
  unfold sort_values_desc, stable_sort.
  induction l as [|x l IH]; cbn [fold_right filter].
  - reflexivity.
  - rewrite insert_desc_tied, IH. reflexivity.
Qed.

Lemma before_refl (x : A) : before x x = true.
Proof. destruct (before_total x x); assumption. Qed.

(** Descending order that keeps tied entries in their former order is one
    order only. *)
Lemma stable_order_unique {T} (key : T -> A) (l1 : list T) :
  forall l2 : list T,
    StronglySorted (descending key) l1 ->
    StronglySorted (descending key) l2 ->
    Permutation l1 l2 ->
    (forall k, filter (tied key k) l1 = filter (tied key k) l2) ->
    l1 = l2.
Proof.
  induction l1 as [|a l1 IH]; intros l2 S1 S2 P F.
  - apply Permutation_nil in P. congruence.
  - destruct l2 as [|b l2].
    { apply Permutation_sym, Permutation_nil in P. discriminate. }
    apply StronglySorted_inv in S1. destruct S1 as [S1 Fa].
    apply StronglySorted_inv in S2. destruct S2 as [S2 Fb].
    rewrite Forall_forall in Fa, Fb.
    assert (Hab : before (key a) (key b) = true).
    { assert (I : In b (a :: l1))
        by (apply (Permutation_in _ (Permutation_sym P)); left; reflexivity).
      destruct I as [<-|I]; [apply before_refl | exact (Fa b I)]. }
    assert (Hba : before (key b) (key a) = true).
    { assert (I : In a (b :: l2)) by (apply (Permutation_in _ P); left; reflexivity).
      destruct I as [<-|I]; [apply before_refl | exact (Fb a I)]. }
    assert (E : a = b).
    { pose proof (F (key a)) as Fk. cbn [filter] in Fk.
      assert (Ta : tied key (key a) a = true)
        by (unfold tied; rewrite before_refl; reflexivity).
      assert (Tb : tied key (key a) b = true)
        by (unfold tied; rewrite Hba, Hab; reflexivity).
      rewrite Ta, Tb in Fk. congruence. }
    subst b. f_equal. apply IH; try assumption.
    + exact (Permutation_cons_inv P).
    + intro k. pose proof (F k) as Fk. cbn [filter] in Fk.
      destruct (tied key k a); congruence.
Qed.

(** Whenever the sort of the report returns the month's transactions in
    descending order of amount with those of equal amount in the order they
    had (as every sort does when the amounts all differ), the list of the
    report is the first five of the one such arrangement: each transaction, from the last to the first, is put before
    the first one of a smaller amount. *)
Theorem top_expenses_when_ties_keep_their_order (sv : SortValues A)
    (self : Tracker A) (month_arg : option string) (now : Timestamp)
    (r : Report A) :
  fst (fst (generate_monthly_report (sv := sv) self month_arg now)) = Some r ->
  let m := match month_arg with Some m => m | None => strftime_Ym now end in
  let month_data :=
    map (fun x => set_Month x (Some m)) (filter (in_month m) (rows (df self))) in
  let sorted_by_pandas := sort_values_desc (Row A) Amount month_data in
  Permutation sorted_by_pandas month_data ->
  StronglySorted (descending Amount) sorted_by_pandas ->
  (forall k, filter (tied Amount k) sorted_by_pandas =
             filter (tied Amount k) month_data) ->
  let sorted := fold_right (insert_desc Amount) [] month_data in
  top_expenses r = firstn 5 sorted /\
  Permutation sorted month_data /\
  StronglySorted (descending Amount) sorted /\
  (forall k, filter (tied Amount k) sorted = filter (tied Amount k) month_data).
Proof.
  intros Hr m month_data sorted_by_pandas Hperm Hsorted Hties sorted.
  destruct (report_top_expenses sv self month_arg now r Hr) as [_ ->].
  fold m. rewrite month_group_rows. fold month_data. fold sorted_by_pandas.
  assert (Ps : Permutation sorted month_data)
    by apply (sort_Permutation (SortSpec := stable_sort_spec)).
  assert (Ss : StronglySorted (descending Amount) sorted).
  { apply Sorted_before_Strongly.
    apply (sort_Sorted (SortSpec := stable_sort_spec)). }
  assert (Ts : forall k, filter (tied Amount k) sorted =
                         filter (tied Amount k) month_data)
    by (intro k; apply stable_sort_tied).
  split; [|split; [exact Ps | split; [exact Ss | exact Ts]]].
  f_equal. apply (stable_order_unique Amount).
  - exact Hsorted.
  - exact Ss.
  - rewrite Ps. exact Hperm.
  - intro k. rewrite Hties, Ts. reflexivity.
Qed.

End StableTop.

Lemma top_expenses_when_ties_keep_their_order_witness :
  let month_data :=
    map (fun x => set_Month x (Some "2024-01"))
        (filter (in_month "2024-01") (rows (df Example.tie_ledger))) in
  exists r,
    fst (fst (generate_monthly_report (sv := Numpy.quicksort) Example.tie_ledger
                (Some "2024-01") (mkTimestamp 2024 3 1))) = Some r /\
    map (fun x => day (Date x)) (top_expenses r) = [5; 6] /\
    top_expenses r = firstn 5 (fold_right (insert_desc Amount) [] month_data).
Proof.
  intro month_data.
  assert (Hout : sort_values_desc (SortValues := Numpy.quicksort)
                   (Row Binary64.float64) Amount month_data =
                 sort_values_desc (SortValues := stable_sort)
                   (Row Binary64.float64) Amount month_data)
    by (vm_compute; reflexivity).
  destruct (fst (fst (generate_monthly_report (sv := Numpy.quicksort)
                        Example.tie_ledger (Some "2024-01")
                        (mkTimestamp 2024 3 1)))) as [r|] eqn:Hr;
    [|vm_compute in Hr; discriminate Hr].
  exists r. split; [reflexivity|].
  assert (Htop : top_expenses r =
                 firstn 5 (fold_right (insert_desc Amount) [] month_data)).
  { apply (top_expenses_when_ties_keep_their_order Numpy.quicksort
             Example.tie_ledger (Some "2024-01") (mkTimestamp 2024 3 1) r Hr).
    - fold month_data. rewrite Hout.
      apply (sort_Permutation (SortSpec := stable_sort_spec)).
    - fold month_data. rewrite Hout. apply Sorted_before_Strongly.
      apply (sort_Sorted (SortSpec := stable_sort_spec)).
    - intro k. fold month_data. rewrite Hout. apply stable_sort_tied. }
  split; [|exact Htop].
  rewrite Htop. vm_compute. reflexivity.
Defined.

(** ** Every outcome of [add_expense] *)

Section AddExpenseOutcomes.

Context {A : Type} `{AmountArith A}.

Lemma astype_col_fields (frame : DataFrame A) col (r r' : Row A) :
  astype_col frame col r = Value r' ->
  Date r' = Date r /\ Amount r' = Amount r /\
  Category r' = Category r /\ Month r' = Month r.
Proof.
  unfold astype_col. intro E.
  destruct (String.eqb col "Description").
  - destruct (Description_dtype frame), (Description r);
      try (injection E as <-; auto).
    destruct (amt_of_str s); [|discriminate].
    injection E as <-. auto.
  - injection E as <-. auto.
Qed.

Lemma align_dtypes_fields (frame : DataFrame A) cols (r r' : Row A) :
  align_dtypes frame cols r = Value r' ->
  Date r' = Date r /\ Amount r' = Amount r /\
  Category r' = Category r /\ Month r' = Month r.
Proof.
  revert r. induction cols as [|col cols IH]; intros r E; cbn [align_dtypes] in E.
  - injection E as <-. auto.
  - destruct (in_dec string_dec col base_columns); [|exact (IH _ E)].
    destruct (astype_col frame col r) as [r1|e] eqn:E1; [|discriminate].
    destruct (astype_col_fields _ _ _ _ E1) as (D & Am & C & M).
    destruct (IH _ E) as (D' & Am' & C' & M').
    repeat split; congruence.
Qed.

Lemma writes_app (out1 out2 : list (effect A)) :
  writes (out1 ++ out2) = writes out1 ++ writes out2.
Proof. unfold writes. apply flat_map_app. Qed.

Lemma date_warning_writes (date : DateArg) (now : Timestamp) :
  writes (snd (match date with
               | DateOmitted => (now, @nil (effect A))
               | DateParsed ts => (ts, [])
               | DateRejected => (now, [Print InvalidDateMsg])
               end)) = [].
Proof. destruct date; reflexivity. Qed.

Lemma add_expense_true (self self' : Tracker A) (amount : PyObject A)
    (category description : string) (date : DateArg) (now : Timestamp)
    (out : list (effect A)) :
  add_expense self amount category description date now = (Value true, self', out) ->
  exists r,
    df self' = concat (df self) r /\
    Category r = category /\
    py_float amount = Value (Amount r) /\
    Date r = match date with DateParsed ts => ts | _ => now end /\
    Month r = None /\
    writes out = [df self'].
Proof.
  unfold add_expense.
  pose proof (date_warning_writes date now) as W.
  assert (D : fst (match date with
                   | DateOmitted => (now, @nil (effect A))
                   | DateParsed ts => (ts, [])
                   | DateRejected => (now, [Print InvalidDateMsg])
                   end) = match date with DateParsed ts => ts | _ => now end)
    by (destruct date; reflexivity).
  destruct (match date with
            | DateOmitted => (now, [])
            | DateParsed ts => (ts, [])
            | DateRejected => (now, [Print InvalidDateMsg])
            end) as [date' out0]. cbn [fst snd] in W, D.
  destruct (in_dec string_dec category categories); [|discriminate].
  destruct (py_float amount) as [x|]; [|discriminate].
  destruct (align_dtypes _ _ _) as [r|] eqn:Er; [|discriminate].
  intro E. injection E as <- <-.
  destruct (align_dtypes_fields _ _ _ _ Er) as (Dr & Ar & Cr & Mr).
  cbn [Date Amount Category Month] in Dr, Ar, Cr, Mr.
  exists r. cbn [df]. repeat split; try congruence.
  rewrite writes_app, W. reflexivity.
Qed.

Lemma add_expense_saves_or_leaves (self : Tracker A) (amount : PyObject A)
    (category description : string) (date : DateArg) (now : Timestamp) :
  let result := add_expense self amount category description date now in
  writes (snd result) = [df (snd (fst result))] \/
  (snd (fst result) = self /\ writes (snd result) = []).
Proof.
  cbv zeta.
  destruct (add_expense self amount category description date now)
    as [[[[|]|e] self'] out] eqn:E; cbn [fst snd].
  - left. destruct (add_expense_true _ _ _ _ _ _ _ _ E) as (r & _ & _ & _ & _ & _ & W).
    exact W.
  - right. revert E. unfold add_expense.
    pose proof (date_warning_writes date now) as W.
    destruct (match date with
              | DateOmitted => (now, [])
              | DateParsed ts => (ts, [])
              | DateRejected => (now, [Print InvalidDateMsg])
              end) as [date' out0]. cbn [snd] in W.
    destruct (in_dec string_dec category categories).
    + destruct (py_float amount); [|discriminate].
      destruct (align_dtypes _ _ _); discriminate.
    + intro E. injection E as <- <-. rewrite writes_app, W. auto.
  - right. revert E. unfold add_expense.
    pose proof (date_warning_writes date now) as W.
    destruct (match date with
              | DateOmitted => (now, [])
              | DateParsed ts => (ts, [])
              | DateRejected => (now, [Print InvalidDateMsg])
              end) as [date' out0]. cbn [snd] in W.
    destruct (in_dec string_dec category categories); [|discriminate].
    destruct (py_float amount).
    + destruct (align_dtypes _ _ _); [discriminate|].
      intro E. injection E as _ <- <-. auto.
    + intro E. injection E as _ <- <-. auto.
Qed.

(** Whatever it is given, [add_expense] does one of two things.  Either it
    returns True, the ledger has gained exactly one row at its end (with the
    category given, the amount [float] made of the argument, the date given
    or else the current one, and no Month), the dtype of the Description
    column is as before, and the data file has been written once, from the
    new ledger.  Or it
    does not return True, the tracker is untouched and the data file is not
    written. *)
Theorem add_expense_appends_and_saves_or_neither (self : Tracker A)
    (amount : PyObject A) (category description : string) (date : DateArg)
    (now : Timestamp) :
  let result := add_expense self amount category description date now in
  let self' := snd (fst result) in
  (fst (fst result) = Value true /\
   writes (snd result) = [df self'] /\
   Description_dtype (df self') = Description_dtype (df self) /\
   exists r, rows (df self') = rows (df self) ++ [r] /\
             Category r = category /\
             py_float amount = Value (Amount r) /\
             Date r = match date with DateParsed ts => ts | _ => now end /\
             Month r = None)
  \/
  (fst (fst result) <> Value true /\ self' = self /\ writes (snd result) = []).
Proof.
  unfold add_expense.
  pose proof (date_warning_writes date now) as W.
  assert (D : fst (match date with
                   | DateOmitted => (now, @nil (effect A))
                   | DateParsed ts => (ts, [])
                   | DateRejected => (now, [Print InvalidDateMsg])
                   end) = match date with DateParsed ts => ts | _ => now end)
    by (destruct date; reflexivity).
  destruct (match date with
            | DateOmitted => (now, [])
            | DateParsed ts => (ts, [])
            | DateRejected => (now, [Print InvalidDateMsg])
            end) as [date' out]. cbn [fst snd] in W, D.
  destruct (in_dec string_dec category categories) as [Hin|Hnot].
  - destruct (py_float amount) as [x|e] eqn:Ex.
    + destruct (align_dtypes _ _ _) as [r|e] eqn:Er.
      * left. cbv zeta. cbn [fst snd df concat columns Description_dtype rows].
        destruct (align_dtypes_fields _ _ _ _ Er) as (Dr & Ar & Cr & Mr).
        cbn [Date Amount Category Month] in Dr, Ar, Cr, Mr.
        split; [reflexivity|]. split.
        { rewrite writes_app, W. reflexivity. }
        split; [reflexivity|].
        exists r. repeat split; congruence.
      * right. cbn [fst snd]. repeat split; [discriminate | exact W].
    + right. cbn [fst snd]. repeat split; [discriminate | exact W].
  - right. cbn [fst snd]. repeat split; [discriminate|].
    rewrite writes_app, W. reflexivity.
Qed.

Lemma align_dtypes_converted (frame : DataFrame A) cols (r : Row A) :
  (forall s, Description r <> Text s) -> align_dtypes frame cols r = Value r.
Proof.
  intro Hr. induction cols as [|col cols IH]; cbn [align_dtypes].
  - reflexivity.
  - destruct (in_dec string_dec col base_columns); [|exact IH].
    unfold astype_col. destruct (String.eqb col "Description"); [|exact IH].
    destruct (Description_dtype frame); [exact IH|].
    destruct (Description r) as [s| |] eqn:E; [|exact IH|exact IH].
    exfalso. exact (Hr s eq_refl).
Qed.

Lemma align_dtypes_succeeds (frame : DataFrame A) cols (r : Row A) d :
  Description r = Text d ->
  ((exists r', align_dtypes frame cols r = Value r') <->
   Description_dtype frame = dt_object \/ ~ In "Description" cols \/
   exists x, amt_of_str d = Some x).
Proof.
  intro Hd. induction cols as [|col cols IH]; cbn [align_dtypes].
  - split; [intros _; right; left; intros [] | intros _; eauto].
  - destruct (in_dec string_dec col base_columns) as [Hb|Hb].
    + unfold astype_col at 1.
      destruct (String.eqb_spec col "Description") as [E|E].
      * subst col. rewrite Hd.
        destruct (Description_dtype frame) eqn:Ed.
        -- split; [intros _; left; reflexivity|].
           intros _. apply IH. left. reflexivity.
        -- destruct (amt_of_str d) as [x|] eqn:Ex.
           ++ split; [intros _; right; right; eauto|]. intros _.
              rewrite align_dtypes_converted by (intros s; discriminate). eauto.
           ++ split; [intros [r' E']; discriminate|].
              intros [E'|[E'|[x E']]]; try discriminate.
              exfalso. apply E'. left. reflexivity.
      * rewrite IH. split.
        -- intros [E'|[E'|E']]; auto. right. left. intros [E''|E'']; congruence.
        -- intros [E'|[E'|E']]; auto. right. left. intro. apply E'. right. assumption.
    + assert (E : col <> "Description").
      { intro. subst col. apply Hb. unfold base_columns. simpl. auto. }
      rewrite IH. split.
      * intros [E'|[E'|E']]; auto. right. left. intros [E''|E'']; congruence.
      * intros [E'|[E'|E']]; auto. right. left. intro. apply E'. right. assumption.
Qed.

(** [add_expense] returns True exactly when the category is one of
    [self.categories], [float] converts the amount, and the new description
    fits the Description column: the column is of dtype object, or the frame
    has no such column, or the description itself reads as a number. *)
Theorem add_expense_succeeds_iff (self : Tracker A) (amount : PyObject A)
    (category description : string) (date : DateArg) (now : Timestamp) :
  fst (fst (add_expense self amount category description date now)) = Value true <->
  In category categories /\
  (exists x, py_float amount = Value x) /\
  (Description_dtype (df self) = dt_object \/
   ~ In "Description" (columns (df self)) \/
   exists x, amt_of_str description = Some x).
Proof.
  unfold add_expense.
  destruct (match date with
            | DateOmitted => (now, [])
            | DateParsed ts => (ts, [])
            | DateRejected => (now, [Print InvalidDateMsg])
            end) as [date' out].
  destruct (in_dec string_dec category categories) as [Hin|Hnot].
  - destruct (py_float amount) as [x|e] eqn:Ex.
    + pose proof (align_dtypes_succeeds (df self) (columns (df self))
                    {| Date := date'; Amount := x; Category := category;
                       Description := Text description; Month := None |}
                    description eq_refl) as S.
      destruct (align_dtypes _ _ _) as [r|e] eqn:Er; cbn [fst].
      * split; [|reflexivity]. intros _. split; [exact Hin|].
        split; [eauto|]. apply S. eauto.
      * split; [discriminate|]. intros (_ & _ & Hd).
        apply S in Hd. destruct Hd as [r' Hr']. discriminate.
    + cbn [fst]. split; [discriminate|]. intros (_ & [x Hx] & _). discriminate.
  - cbn [fst]. split; [discriminate|]. intros [Hin _]. contradiction.
Qed.

End AddExpenseOutcomes.

(** ** Aggregates after an append *)

Section AfterAppend.

Context {A : Type} `{AmountArith A}.







End AfterAppend.






(** ** The Month column, once written *)

Section MonthColumn.

Context {A : Type} `{AmountArith A}.

Lemma assign_Month_idempotent (frame : DataFrame A) :
  assign_Month (assign_Month frame) = assign_Month frame.
Proof.
  unfold assign_Month at 1.
  assert (Hin : In "Month" (columns (assign_Month frame))).
  { unfold assign_Month. cbn [columns].
    destruct (in_dec string_dec "Month" (columns frame)) as [Hin|_];
      [exact Hin | apply in_or_app; right; left; reflexivity]. }
  destruct (in_dec string_dec "Month" (columns (assign_Month frame)));
    [|contradiction].
  unfold assign_Month at 3 4. cbn [rows Description_dtype columns].
  rewrite map_map. unfold assign_Month. cbn [columns]. reflexivity.
Qed.

Lemma category_groups_ignore_Month (frame : DataFrame A) :
  groupby_sum by_category (rows (assign_Month frame)) =
  groupby_sum by_category (rows frame).
Proof.
  unfold assign_Month. cbn [rows].
  set (g := fun r : Row A => set_Month r (Some (strftime_Ym (Date r)))).
  assert (K : group_keys by_category (map g (rows frame)) =
              group_keys by_category (rows frame)).
  { unfold group_keys. f_equal.
    induction (rows frame) as [|r rs IH]; [reflexivity|].
    cbn [map flat_map]. rewrite IH. reflexivity. }
  assert (G : forall c, map Amount (group by_category (map g (rows frame)) c) =
                        map Amount (group by_category (rows frame) c)).
  { intro c. unfold group. clear K.
    induction (rows frame) as [|r rs IH]; [reflexivity|].
    cbn [map filter].
    change (has_key by_category c (g r)) with (has_key by_category c r).
    destruct (has_key by_category c r); cbn [map]; rewrite IH; reflexivity. }
  unfold groupby_sum. rewrite K. apply map_ext. intro c. rewrite G. reflexivity.
Qed.

(** Once [get_expenses_by_month] (or the pivot) has written the Month column,
    calling either again changes nothing in the tracker, and the three
    aggregates are what they were on the ledger before the column was
    written. *)
Theorem aggregates_after_Month_is_written (sv : SortValues A) (self : Tracker A) :
  let self1 := snd (get_expenses_by_month self) in
  snd (get_category_expenses_by_month self) = self1 /\
  snd (get_expenses_by_month self1) = self1 /\
  snd (get_category_expenses_by_month self1) = self1 /\
  fst (get_expenses_by_month self1) = fst (get_expenses_by_month self) /\
  fst (get_category_expenses_by_month self1) =
    fst (get_category_expenses_by_month self) /\
  fst (get_expenses_by_category (sv := sv) self1) =
    fst (get_expenses_by_category (sv := sv) self).
Proof.
  unfold get_expenses_by_month, get_category_expenses_by_month,
    get_expenses_by_category.
  cbv zeta. cbn [fst snd df].
  rewrite assign_Month_idempotent, category_groups_ignore_Month.
  repeat split.
Qed.

(** An expense added after the Month column was written goes to the data
    file with that column: the file gets a fifth column, filled for the
    earlier rows and empty for the new one. *)
Theorem Month_column_reaches_the_data_file (self self2 : Tracker A)
    (amount : PyObject A) (category description : string) (date : DateArg)
    (now : Timestamp) (out : list (effect A)) :
  add_expense (snd (get_expenses_by_month self)) amount category description
              date now = (Value true, self2, out) ->
  writes out = [df self2] /\
  In "Month" (columns (df self2)) /\
  map Month (rows (df self2)) =
    map (fun r => Some (strftime_Ym (Date r))) (rows (df self)) ++ [None].
Proof.
  intro Hadd.
  destruct (add_expense_true _ _ _ _ _ _ _ _ Hadd)
    as (r & Ef & _ & _ & _ & Hm & Hw).
  split; [exact Hw|]. rewrite Ef. unfold get_expenses_by_month.
  cbv zeta. cbn [snd df concat columns rows]. split.
  - unfold assign_Month. cbn [columns].
    destruct (in_dec string_dec "Month" (columns (df self))) as [Hin|_];
      [exact Hin | apply in_or_app; right; left; reflexivity].
  - rewrite map_app. cbn [map]. rewrite Hm. f_equal.
    unfold assign_Month. cbn [rows]. rewrite map_map. reflexivity.
Qed.

End MonthColumn.

Lemma Month_column_reaches_the_data_file_witness :
  let now := mkTimestamp 2024 3 1 in
  let self2 := snd (fst (add_expense (snd (get_expenses_by_month Example.ledger))
                           (PyStr "12.5") "Food" "dinner" DateOmitted now)) in
  writes [ToCsv (df self2); Print ExpenseAddedMsg] = [df self2] /\
  In "Month" (columns (df self2)) /\
  map Month (rows (df self2)) =
    map (fun r => Some (strftime_Ym (Date r))) (rows (df Example.ledger)) ++ [None].
Proof.
  intros now self2.
  exact (Month_column_reaches_the_data_file Example.ledger self2 (PyStr "12.5")
           "Food" "dinner" DateOmitted now
           [ToCsv (df self2); Print ExpenseAddedMsg] eq_refl).
Defined.

(** ** The data file against the ledger in memory *)

Section DataFile.

Context {A : Type} `{AmountArith A} {sv : SortValues A} {lib : Libraries A}.

Lemma last_saved_app (file : DataFrame A) (out1 out2 : list (event A)) :
  last_saved file (out1 ++ out2) = last_saved (last_saved file out1) out2.
Proof. unfold last_saved. apply fold_left_app. Qed.

Lemma last_cons_default {T : Type} (l : list T) (x d : T) :
  last (x :: l) d = last l x.
Proof.
  revert x d. induction l as [|y l IH]; intros x d; [reflexivity|].
  change (last (x :: y :: l) d) with (last (y :: l) d).
  rewrite !IH. reflexivity.
Qed.

Lemma last_saved_writes (file : DataFrame A) (out : list (effect A)) :
  last_saved file (map Effect out) = last (writes out) file.
Proof.
  revert file. induction out as [|e out IH]; intro file.
  - reflexivity.
  - change (last_saved file (map Effect (e :: out)))
      with (last_saved (match e with ToCsv g => g | _ => file end) (map Effect out)).
    rewrite IH. destruct e as [msg|frame|m r]; try reflexivity.
    change (writes (ToCsv frame :: out)) with (frame :: writes out).
    rewrite last_cons_default. reflexivity.
Qed.

Lemma last_saved_plot (file : DataFrame A) (c : chart A) (name : string) :
  last_saved file (snd (plot c name)) = file.
Proof. unfold plot. destruct (draws c); reflexivity. Qed.

Lemma same_transactions_assign_Month (file frame : DataFrame A) :
  same_transactions file frame -> same_transactions file (assign_Month frame).
Proof.
  unfold same_transactions. intros [Hr Hd].
  rewrite assign_Month_base_fields. auto.
Qed.

Lemma report_writes_nothing (self : Tracker A) month_arg now :
  writes (snd (generate_monthly_report self month_arg now)) = [].
Proof.
  unfold generate_monthly_report. destruct (group Month _ _); reflexivity.
Qed.

Lemma report_tracker (self : Tracker A) month_arg now :
  snd (fst (generate_monthly_report self month_arg now)) =
  {| df := assign_Month (df self) |}.
Proof.
  unfold generate_monthly_report. destruct (group Month _ _); reflexivity.
Qed.

Lemma perform_keeps_file_in_step (self : Tracker A) (file : DataFrame A) (c : call A) :
  same_transactions file (df self) ->
  same_transactions (last_saved file (snd (perform self c))) (df (fst (perform self c))).
Proof.
  intro Hs. destruct c; cbn [perform].
  - pose proof (add_expense_saves_or_leaves self amount category description date now)
      as O.
    destruct (add_expense self amount category description date now)
      as [[result self'] out]. cbn [fst snd] in *.
    rewrite last_saved_writes.
    destruct O as [-> | [-> ->]]; cbn [last]; [split; reflexivity | exact Hs].
  - exact Hs.
  - apply same_transactions_assign_Month. exact Hs.
  - apply same_transactions_assign_Month. exact Hs.
  - unfold visualize_expenses_by_category, get_expenses_by_category.
    pose proof (last_saved_plot file
                  (PieChart (sort_values_desc (string * A) snd
                     (groupby_sum by_category (rows (df self)))))
                  "expenses_by_category.png") as L.
    destruct (plot _ _) as [ok out]. cbn [fst snd] in *. rewrite L. exact Hs.
  - unfold visualize_monthly_trend, get_expenses_by_month. cbv zeta.
    pose proof (last_saved_plot file
                  (LineChart (groupby_sum Month (rows (assign_Month (df self)))))
                  "monthly_expenses.png") as L.
    destruct (plot _ _) as [ok out]. cbn [fst snd df] in *. rewrite L.
    apply same_transactions_assign_Month. exact Hs.
  - unfold visualize_category_trends.
    destruct (get_category_expenses_by_month self) as [data self'] eqn:E.
    pose proof (last_saved_plot file (StackedBars data)
                  "category_expenses_by_month.png") as L.
    destruct (plot _ _) as [ok out]. cbn [fst snd] in *. rewrite L.
    apply (f_equal snd) in E. cbn [snd] in E. rewrite <- E.
    apply same_transactions_assign_Month. exact Hs.
  - pose proof (report_writes_nothing self month_arg now) as W.
    pose proof (report_tracker self month_arg now) as T.
    destruct (generate_monthly_report self month_arg now) as [[r self'] out].
    cbn [fst snd] in *. subst self'. cbn [df].
    assert (L : last_saved file
                  match r with
                  | Some r' => if renders r' then map Effect out else []
                  | None => map Effect out
                  end = file).
    { destruct r as [r'|]; [destruct (renders r')|];
        try reflexivity; rewrite last_saved_writes, W; reflexivity. }
    rewrite L. apply same_transactions_assign_Month. exact Hs.
Qed.

(** Through any sequence of calls of the public methods, aggregates, charts
    and reports included, the frame the data file was last written from
    (or, before the first write, the one read from it at start-up) holds
    the same transactions in the same order as the ledger in memory, and
    the same Description dtype: no recorded expense exists only in memory,
    and none is dropped from the file. *)
Theorem data_file_holds_the_ledger (data_file : option (DataFrame A))
    (calls : list (call A)) :
  let '(self0, file0) := start data_file in
  let '(self, file) := session self0 file0 calls in
  same_transactions file (df self).
Proof.
  assert (S0 : same_transactions (snd (start data_file)) (df (fst (start data_file)))).
  { unfold start, init. destruct data_file; split; reflexivity. }
  destruct (start data_file) as [self0 file0]. cbn [fst snd] in S0.
  revert self0 file0 S0.
  induction calls as [|c calls IH]; intros self0 file0 S0; cbn [session].
  - exact S0.
  - pose proof (perform_keeps_file_in_step self0 file0 c S0) as S1.
    destruct (perform self0 c) as [self1 out]. cbn [fst snd] in S1.
    apply IH. exact S1.
Qed.

End DataFile.

(** ** The total and the breakdown of the monthly report *)

Section ReportBody.

Context {A : Type} `{AmountOrder A}.




End ReportBody.



(** ** More sums that agree when addition does not round *)

Section ExactSums.

Context {A : Type} `{ExactArith A}.




(** With amounts that add without rounding, the entries of the report's
    breakdown by category add up to the report's total. *)
Theorem report_breakdown_sums_to_total (sv : SortValues A) (self : Tracker A)
    (month_arg : option string) (now : Timestamp) (r : Report A) :
  SortSpec sv ->
  fst (fst (generate_monthly_report (sv := sv) self month_arg now)) = Some r ->
  Series_sum (map snd (category_spending r)) = total_spent r.
Proof.
  intros Hsv. unfold generate_monthly_report.
  destruct (group Month _ _) as [|x xs] eqn:E; [discriminate|].
  set (g := x :: xs). intro Hr. injection Hr as <-.
  cbn [category_spending total_spent].
  rewrite (Series_sum_Permutation _ (map snd (groupby_sum by_category g)))
    by (apply Permutation_map; apply sort_Permutation).
  unfold groupby_sum. rewrite map_map. cbn [snd].
  apply (sum_over_categories (group_keys by_category g) g).
  - apply Sorted_key_lt_NoDup. apply unique_sorted_Sorted.
  - intros r Hr. apply group_keys_In. exists r. split; [exact Hr | reflexivity].
Qed.




End ExactSums.


Lemma report_breakdown_sums_to_total_witness :
  let lunch : Row Z :=
    {| Date := mkTimestamp 2024 1 5; Amount := 10000%Z; Category := "Food";
       Description := Text "lunch"; Month := None |} in
  let rent : Row Z :=
    {| Date := mkTimestamp 2024 1 9; Amount := 20000%Z; Category := "Housing";
       Description := Text "rent"; Month := None |} in
  let snacks : Row Z :=
    {| Date := mkTimestamp 2024 1 10; Amount := 5000%Z; Category := "Food";
       Description := Text "snacks"; Month := None |} in
  let r : Report Z :=
    {| total_spent := 35000%Z;
       category_spending := [("Housing", 20000%Z); ("Food", 15000%Z)];
       top_expenses := [set_Month rent (Some "2024-01");
                        set_Month lunch (Some "2024-01");
                        set_Month snacks (Some "2024-01")] |} in
  Series_sum (map snd (category_spending r)) = total_spent r.
Proof.
  intros lunch rent snacks r.
  exact (report_breakdown_sums_to_total (H0 := ExactFacts.exact) stable_sort
           {| df := {| columns := base_columns; Description_dtype := dt_object;
                       rows := [lunch; rent; snacks] |} |}
           (Some "2024-01") (mkTimestamp 2024 3 1) r stable_sort_spec eq_refl).
Defined.


(** ** Month keys tell months apart *)

(** Two calendar dates get the same "YYYY-MM" key exactly when they lie in
    the same month of the same year: [get_expenses_by_month], the pivot and
    the report put two transactions under one month only then. *)
Theorem same_month_key_iff (a b : Timestamp) :
  calendar_date a -> calendar_date b ->
  (strftime_Ym a = strftime_Ym b <-> year a = year b /\ month a = month b).
Proof.
  intros Ha Hb.
  destruct (calendar_date_bounds a Ha), (calendar_date_bounds b Hb).
  split.
  - intro E.
    assert (C : String.compare (strftime_Ym a) (strftime_Ym b) = Eq).
    { rewrite E. change (String_as_OT.cmp (strftime_Ym b) (strftime_Ym b) = Eq).
      apply String_as_OT.cmp_eq. reflexivity. }
    rewrite strftime_Ym_compare in C by assumption.
    destruct (Nat.compare_spec (year a) (year b)) as [Hy|Hy|Hy];
      try discriminate.
    apply Nat.compare_eq_iff in C. auto.
  - intros [Ey Em]. unfold strftime_Ym. rewrite Ey, Em. reflexivity.
Qed.

Lemma same_month_key_iff_witness :
  calendar_date (mkTimestamp 2024 1 5) /\
  calendar_date (mkTimestamp 2024 1 10) /\
  (strftime_Ym (mkTimestamp 2024 1 5) = strftime_Ym (mkTimestamp 2024 1 10) <->
   2024 = 2024 /\ 1 = 1).
Proof.
  assert (Ha : calendar_date (mkTimestamp 2024 1 5))
    by (unfold calendar_date; cbn [year month]; lia).
  assert (Hb : calendar_date (mkTimestamp 2024 1 10))
    by (unfold calendar_date; cbn [year month]; lia).
  split; [exact Ha|]. split; [exact Hb|].
  exact (same_month_key_iff (mkTimestamp 2024 1 5) (mkTimestamp 2024 1 10) Ha Hb).
Defined.

(** ** The interactive menu *)

Section Menu.

Context {A : Type} `{AmountArith A} {sv : SortValues A} {lib : Libraries A}.

Lemma effects_in_app (e1 e2 : list (event A)) :
  effects_in (e1 ++ e2) = effects_in e1 ++ effects_in e2.
Proof. unfold effects_in. apply flat_map_app. Qed.

Lemma effects_in_Effect (out : list (effect A)) :
  effects_in (map Effect out) = out.
Proof.
  induction out as [|e out IH]; [reflexivity|].
  cbn [map].
  change (effects_in (Effect e :: map Effect out))
    with (e :: effects_in (map (@Effect A) out)).
  rewrite IH. reflexivity.
Qed.

Lemma effects_in_plot (c : chart A) (file : string) :
  effects_in (snd (plot c file)) = [].
Proof. unfold plot. destruct (draws c); reflexivity. Qed.

Lemma run_app (self : Tracker A) (calls1 calls2 : list (call A)) :
  run self (calls1 ++ calls2) =
  (fst (run (fst (run self calls1)) calls2),
   snd (run self calls1) ++ snd (run (fst (run self calls1)) calls2)).
Proof.
  revert self. induction calls1 as [|c calls1 IH]; intro self.
  - cbn [app run fst snd]. destruct (run self calls2). reflexivity.
  - cbn [app run]. destruct (perform self c) as [s1 o1]. rewrite IH.
    destruct (run s1 calls1) as [s2 o2]. cbn [fst snd].
    rewrite app_assoc. reflexivity.
Qed.

Lemma run_one (self : Tracker A) (c : call A) :
  fst (run self [c]) = fst (perform self c) /\
  effects_in (snd (run self [c])) = effects_in (snd (perform self c)).
Proof.
  cbn [run]. destruct (perform self c) as [s1 o1]. cbn [fst snd].
  rewrite app_nil_r. auto.
Qed.

Lemma acts_by_no_call (tracker : Tracker A) (inputs : list string)
    (next : flow A) (out : list (event A)) :
  tracker_after next = tracker ->
  effects_in out = [] ->
  (forall tracker' inputs',
      next = Next tracker' inputs' -> List.length inputs' <= List.length inputs) ->
  (forall tracker', next <> Done OutOfFuel tracker') ->
  acts_by_calls tracker inputs (next, out).
Proof.
  intros Ht Ho Hi Hf. split; [|split; [exact Hi | exact Hf]].
  exists []. split; [constructor|]. split; [exact Ht | exact Ho].
Qed.

Lemma acts_by_one_call (tracker : Tracker A) (inputs : list string)
    (c : call A) (next : flow A) (out : list (event A)) :
  validated c ->
  tracker_after next = fst (perform tracker c) ->
  effects_in out = effects_in (snd (perform tracker c)) ->
  (forall tracker' inputs',
      next = Next tracker' inputs' -> List.length inputs' <= List.length inputs) ->
  (forall tracker', next <> Done OutOfFuel tracker') ->
  acts_by_calls tracker inputs (next, out).
Proof.
  intros Hv Ht Ho Hi Hf. split; [|split; [exact Hi | exact Hf]].
  exists [c]. destruct (run_one tracker c) as [E1 E2].
  split; [constructor; [exact Hv | constructor]|].
  cbn [fst snd]. split; congruence.
Qed.

Lemma listed_category (k : Z) :
  ((1 <=? k) && (k <=? Z.of_nat (List.length categories)))%Z = true ->
  In (nth (Z.to_nat (k - 1)) categories "") categories.
Proof.
  intro G. apply andb_prop in G. destruct G as [G1 G2].
  apply Z.leb_le in G1, G2. apply nth_In. lia.
Qed.

Lemma menu_add_expense_acts (tracker : Tracker A) (inputs : list string)
    (now : Timestamp) :
  acts_by_calls tracker inputs (menu_add_expense tracker inputs now).
Proof.
  unfold menu_add_expense.
  destruct inputs as [|amount_text inputs1].
  { apply acts_by_no_call; [reflexivity | reflexivity | discriminate | discriminate]. }
  destruct (py_float (PyStr amount_text)) as [amount|e].
  2: { apply acts_by_no_call; [reflexivity | reflexivity | | discriminate].
       intros t' i' E. injection E as _ <-. cbn [List.length]. lia. }
  cbv zeta.
  destruct inputs1 as [|choice_text inputs2].
  { apply acts_by_no_call; [reflexivity | reflexivity | discriminate | discriminate]. }
  destruct (py_int choice_text) as [cat_choice|].
  2: { apply acts_by_no_call; [reflexivity | reflexivity | | discriminate].
       intros t' i' E. injection E as _ <-. cbn [List.length]. lia. }
  destruct ((1 <=? cat_choice) && (cat_choice <=? Z.of_nat (List.length categories)))%Z
    eqn:G.
  2: { apply acts_by_no_call; [reflexivity | reflexivity | | discriminate].
       intros t' i' E. injection E as _ <-. cbn [List.length]. lia. }
  apply listed_category in G.
  set (category := nth (Z.to_nat (cat_choice - 1)) categories "") in *.
  destruct inputs2 as [|description inputs3].
  { apply acts_by_no_call; [reflexivity | reflexivity | discriminate | discriminate]. }
  destruct inputs3 as [|date_str inputs4].
  { apply acts_by_no_call; [reflexivity | reflexivity | discriminate | discriminate]. }
  set (date := if String.eqb date_str "" then DateOmitted
               else match to_datetime date_str with
                    | Some ts => DateParsed ts
                    | None => DateRejected
                    end).
  assert (P : perform tracker (AddExpense (PyFloat amount) category description date now) =
              (snd (fst (add_expense tracker (PyFloat amount) category description date now)),
               map Effect (snd (add_expense tracker (PyFloat amount) category
                                            description date now)))).
  { cbn [perform].
    destruct (add_expense tracker (PyFloat amount) category description date now)
      as [[result tracker'] out]. reflexivity. }
  destruct (add_expense tracker (PyFloat amount) category description date now)
    as [[[result|e] tracker'] out] eqn:E.
  - apply (acts_by_one_call tracker _
             (AddExpense (PyFloat amount) category description date now)).
    + split; [exact G | exists amount; reflexivity].
    + rewrite P. reflexivity.
    + rewrite P. cbn [snd]. rewrite effects_in_app. reflexivity.
    + intros t' i' E'. injection E' as _ <-. cbn [List.length]. lia.
    + discriminate.
  - apply (acts_by_one_call tracker _
             (AddExpense (PyFloat amount) category description date now)).
    + split; [exact G | exists amount; reflexivity].
    + rewrite P. reflexivity.
    + rewrite P. cbn [snd]. rewrite effects_in_app. reflexivity.
    + discriminate.
    + discriminate.
Qed.

Lemma menu_by_category_acts (tracker : Tracker A) (inputs : list string) :
  acts_by_calls tracker inputs (menu_by_category tracker inputs).
Proof.
  unfold menu_by_category, get_expenses_by_category.
  destruct (sort_values_desc (string * A) snd
              (groupby_sum by_category (rows (df tracker)))) as [|entry data] eqn:E.
  { apply acts_by_no_call;
      [reflexivity | reflexivity | | discriminate].
    intros t' i' E'. injection E' as _ <-. lia. }
  assert (P : perform tracker VisualizeByCategory =
              (snd (fst (visualize_expenses_by_category tracker)),
               snd (visualize_expenses_by_category tracker))).
  { cbn [perform].
    destruct (visualize_expenses_by_category tracker) as [[ok t2] out].
    reflexivity. }
  destruct (visualize_expenses_by_category tracker) as [[ok t2] out].
  cbn [fst snd] in P.
  apply (acts_by_one_call tracker _ VisualizeByCategory).
  - exact I.
  - rewrite P. destruct ok; reflexivity.
  - rewrite P. reflexivity.
  - intros t' i' E'. destruct ok; [|discriminate]. injection E' as _ <-. lia.
  - destruct ok; discriminate.
Qed.

Lemma visualize_monthly_trend_again (tracker : Tracker A) :
  visualize_monthly_trend (snd (get_expenses_by_month tracker)) =
  visualize_monthly_trend tracker.
Proof.
  unfold visualize_monthly_trend, get_expenses_by_month.
  cbv zeta. cbn [snd df]. rewrite assign_Month_idempotent. reflexivity.
Qed.

Lemma menu_by_month_acts (tracker : Tracker A) (inputs : list string) :
  acts_by_calls tracker inputs (menu_by_month tracker inputs).
Proof.
  unfold menu_by_month.
  pose proof (visualize_monthly_trend_again tracker) as V.
  destruct (get_expenses_by_month tracker) as [data tracker1] eqn:E.
  cbn [snd] in V.
  assert (T1 : tracker1 = fst (perform tracker ByMonth)).
  { cbn [perform fst]. rewrite E. reflexivity. }
  destruct data as [|entry data].
  { apply (acts_by_one_call tracker _ ByMonth).
    - exact I.
    - exact T1.
    - reflexivity.
    - intros t' i' E'. injection E' as _ <-. lia.
    - discriminate. }
  rewrite V.
  assert (P : perform tracker VisualizeMonthlyTrend =
              (snd (fst (visualize_monthly_trend tracker)),
               snd (visualize_monthly_trend tracker))).
  { cbn [perform].
    destruct (visualize_monthly_trend tracker) as [[ok t2] out]. reflexivity. }
  destruct (visualize_monthly_trend tracker) as [[ok t2] out].
  cbn [fst snd] in P.
  apply (acts_by_one_call tracker _ VisualizeMonthlyTrend).
  - exact I.
  - rewrite P. destruct ok; reflexivity.
  - rewrite P. reflexivity.
  - intros t' i' E'. destruct ok; [|discriminate]. injection E' as _ <-. lia.
  - destruct ok; discriminate.
Qed.

Lemma menu_category_trends_acts (tracker : Tracker A) (inputs : list string) :
  acts_by_calls tracker inputs (menu_category_trends tracker inputs).
Proof.
  unfold menu_category_trends.
  destruct (rows (df tracker)) as [|r rs].
  { apply acts_by_no_call; [reflexivity | reflexivity | | discriminate].
    intros t' i' E'. injection E' as _ <-. lia. }
  assert (P : perform tracker VisualizeCategoryTrends =
              (snd (fst (visualize_category_trends tracker)),
               snd (visualize_category_trends tracker))).
  { cbn [perform].
    destruct (visualize_category_trends tracker) as [[ok t2] out]. reflexivity. }
  destruct (visualize_category_trends tracker) as [[ok t2] out].
  cbn [fst snd] in P.
  apply (acts_by_one_call tracker _ VisualizeCategoryTrends).
  - exact I.
  - rewrite P. destruct ok; reflexivity.
  - rewrite P. reflexivity.
  - intros t' i' E'. destruct ok; [|discriminate]. injection E' as _ <-. lia.
  - destruct ok; discriminate.
Qed.

Lemma menu_report_acts (tracker : Tracker A) (inputs : list string)
    (now : Timestamp) :
  acts_by_calls tracker inputs (menu_report tracker inputs now).
Proof.
  unfold menu_report.
  destruct (rows (df tracker)) as [|r0 rs].
  { apply acts_by_no_call; [reflexivity | reflexivity | | discriminate].
    intros t' i' E'. injection E' as _ <-. lia. }
  destruct inputs as [|month_text inputs1].
  { apply acts_by_no_call; [reflexivity | reflexivity | discriminate | discriminate]. }
  cbv zeta.
  set (month_arg := if String.eqb month_text "" then None else Some month_text).
  destruct (if String.eqb month_text "" then true
            else match to_datetime (month_text ++ "-01") with
                 | Some _ => true
                 | None => false
                 end).
  2: { apply acts_by_no_call; [reflexivity | reflexivity | | discriminate].
       intros t' i' E'. injection E' as _ <-. cbn [List.length]. lia. }
  assert (P : perform tracker (MonthlyReport month_arg now) =
              (snd (fst (generate_monthly_report tracker month_arg now)),
               match fst (fst (generate_monthly_report tracker month_arg now)) with
               | Some r' =>
                   if renders r'
                   then map Effect (snd (generate_monthly_report tracker month_arg now))
                   else []
               | None => map Effect (snd (generate_monthly_report tracker month_arg now))
               end)).
  { cbn [perform].
    destruct (generate_monthly_report tracker month_arg now) as [[r t1] out].
    reflexivity. }
  destruct (generate_monthly_report tracker month_arg now) as [[r t1] out].
  cbn [fst snd] in P.
  apply (acts_by_one_call tracker _ (MonthlyReport month_arg now)).
  - exact I.
  - rewrite P. destruct r as [r'|]; [destruct (renders r')|]; reflexivity.
  - rewrite P. destruct r as [r'|]; [destruct (renders r')|]; reflexivity.
  - intros t' i' E'.
    destruct r as [r'|]; [destruct (renders r'); [|discriminate]|];
      injection E' as _ <-; cbn [List.length]; lia.
  - destruct r as [r'|]; [destruct (renders r')|]; discriminate.
Qed.

Lemma acts_by_calls_shown (tracker : Tracker A) (inputs : list string)
    (shown : list (event A)) (result : flow A * list (event A)) :
  effects_in shown = [] ->
  acts_by_calls tracker inputs result ->
  acts_by_calls tracker inputs (fst result, shown ++ snd result).
Proof.
  intros Hs ((calls & Hv & Ht & He) & Hi & Hf).
  split; [|split; [exact Hi | exact Hf]].
  exists calls. split; [exact Hv|]. split; [exact Ht|].
  cbn [snd]. rewrite effects_in_app, Hs. exact He.
Qed.

Lemma menu_pass_acts (tracker : Tracker A) (choice : string)
    (rest : list string) (now : Timestamp) :
  acts_by_calls tracker rest (menu_pass tracker (choice :: rest) now).
Proof.
  unfold menu_pass. cbv zeta.
  match goal with
  | |- acts_by_calls _ _ (let '(next, out) := ?X in _) =>
      assert (P : acts_by_calls tracker rest X); [|destruct X as [next out]]
  end.
  - destruct (String.eqb choice "1"); [apply menu_add_expense_acts|].
    destruct (String.eqb choice "2"); [apply menu_by_category_acts|].
    destruct (String.eqb choice "3"); [apply menu_by_month_acts|].
    destruct (String.eqb choice "4"); [apply menu_category_trends_acts|].
    destruct (String.eqb choice "5"); [apply menu_report_acts|].
    destruct (String.eqb choice "6").
    + apply acts_by_no_call; [reflexivity | reflexivity | discriminate | discriminate].
    + apply acts_by_no_call; [reflexivity | reflexivity | | discriminate].
      intros t' i' E'. injection E' as _ <-. lia.
  - exact (acts_by_calls_shown tracker rest [Show MenuText; Ask ChoicePrompt]
             (next, out) eq_refl P).
Qed.

Lemma menu_loop_acts (clock : nat -> Timestamp) (fuel : nat) :
  forall (n : nat) (tracker : Tracker A) (inputs : list string),
    List.length inputs < fuel ->
    fst (fst (menu_loop fuel n clock tracker inputs)) <> OutOfFuel /\
    exists calls,
      Forall validated calls /\
      snd (fst (menu_loop fuel n clock tracker inputs)) = fst (run tracker calls) /\
      effects_in (snd (menu_loop fuel n clock tracker inputs)) =
        effects_in (snd (run tracker calls)).
Proof.
  induction fuel as [|fuel IH]; intros n tracker inputs Hlen; [lia|].
  cbn [menu_loop].
  destruct inputs as [|choice rest].
  { cbn [menu_pass fst snd]. split; [discriminate|].
    exists []. split; [constructor|]. split; reflexivity. }
  pose proof (menu_pass_acts tracker choice rest (clock n)) as P.
  destruct (menu_pass tracker (choice :: rest) (clock n)) as [[t' i'|e t'] out].
  - destruct P as ((calls1 & Hv1 & Ht1 & He1) & Hi & _).
    cbn [fst snd tracker_after] in Ht1, He1.
    assert (Hlen' : List.length i' < fuel).
    { specialize (Hi t' i' eq_refl). cbn [List.length] in Hlen. lia. }
    destruct (IH (S n) t' i' Hlen') as (Hf & calls2 & Hv2 & Ht2 & He2).
    destruct (menu_loop fuel (S n) clock t' i') as [[e t''] out'].
    cbn [fst snd] in *. split; [exact Hf|].
    exists (calls1 ++ calls2). split; [apply Forall_app; auto|].
    rewrite run_app. cbn [fst snd]. rewrite <- Ht1. split; [exact Ht2|].
    rewrite !effects_in_app. congruence.
  - destruct P as ((calls1 & Hv1 & Ht1 & He1) & _ & Hf).
    cbn [fst snd tracker_after] in *. split.
    + intro E. subst e. exact (Hf t' eq_refl).
    + exists calls1. auto.
Qed.

Lemma perform_tracker (self : Tracker A) (c : call A) :
  fst (perform self c) =
  match c with
  | AddExpense amount category description date now =>
      snd (fst (add_expense self amount category description date now))
  | ByCategory | VisualizeByCategory => self
  | ByMonth | VisualizeMonthlyTrend => snd (get_expenses_by_month self)
  | CategoryByMonth | VisualizeCategoryTrends =>
      snd (get_category_expenses_by_month self)
  | MonthlyReport month_arg now =>
      snd (fst (generate_monthly_report self month_arg now))
  end.
Proof.
  destruct c; cbn [perform]; try reflexivity.
  - destruct (add_expense self amount category description date now) as [[? ?] ?].
    reflexivity.
  - unfold visualize_expenses_by_category, get_expenses_by_category.
    destruct (plot _ _). reflexivity.
  - unfold visualize_monthly_trend.
    destruct (get_expenses_by_month self). destruct (plot _ _). reflexivity.
  - unfold visualize_category_trends.
    destruct (get_category_expenses_by_month self). destruct (plot _ _).
    reflexivity.
  - destruct (generate_monthly_report self month_arg now) as [[? ?] ?].
    reflexivity.
Qed.

Lemma perform_effects (self : Tracker A) (c : call A) :
  effects_in (snd (perform self c)) =
  match c with
  | AddExpense amount category description date now =>
      snd (add_expense self amount category description date now)
  | MonthlyReport month_arg now =>
      match fst (fst (generate_monthly_report self month_arg now)) with
      | Some r => if renders r
                  then snd (generate_monthly_report self month_arg now) else []
      | None => snd (generate_monthly_report self month_arg now)
      end
  | _ => []
  end.
Proof.
  destruct c; cbn [perform]; try reflexivity.
  - destruct (add_expense self amount category description date now) as [[? ?] ?].
    apply effects_in_Effect.
  - unfold visualize_expenses_by_category, get_expenses_by_category.
    pose proof (effects_in_plot
                  (PieChart (sort_values_desc (string * A) snd
                               (groupby_sum by_category (rows (df self)))))
                  "expenses_by_category.png") as E.
    destruct (plot _ _). exact E.
  - unfold visualize_monthly_trend.
    destruct (get_expenses_by_month self) as [data self'].
    pose proof (effects_in_plot (LineChart data) "monthly_expenses.png") as E.
    destruct (plot _ _). exact E.
  - unfold visualize_category_trends.
    destruct (get_category_expenses_by_month self) as [data self'].
    pose proof (effects_in_plot (StackedBars data)
                  "category_expenses_by_month.png") as E.
    destruct (plot _ _). exact E.
  - destruct (generate_monthly_report self month_arg now) as [[r ?] out].
    cbn [fst snd]. destruct r as [r'|]; [destruct (renders r')|];
      try apply effects_in_Effect; reflexivity.
Qed.

Lemma run_cons (self : Tracker A) (c : call A) (calls : list (call A)) :
  run self (c :: calls) =
  (fst (run (fst (perform self c)) calls),
   snd (perform self c) ++ snd (run (fst (perform self c)) calls)).
Proof.
  cbn [run]. destruct (perform self c) as [s1 o1]. cbn [fst snd].
  destruct (run s1 calls) as [s2 o2]. reflexivity.
Qed.

Lemma perform_step (self : Tracker A) (c : call A) :
  fst (perform self c) = self \/ step self (fst (perform self c)).
Proof.
  rewrite perform_tracker. destruct c; try (left; reflexivity); right.
  - apply step_add_expense.
  - apply step_by_month.
  - apply step_category_by_month.
  - apply step_by_month.
  - apply step_category_by_month.
  - apply step_report.
Qed.

Lemma run_reachable (data_file : option (DataFrame A)) (calls : list (call A)) :
  forall self, reachable data_file self ->
               reachable data_file (fst (run self calls)).
Proof.
  induction calls as [|c calls IH]; intros self Hr; [exact Hr|].
  rewrite run_cons. cbn [fst]. apply IH.
  destruct (perform_step self c) as [-> | Hs]; [exact Hr|].
  exact (reach_step data_file self _ Hr Hs).
Qed.

Lemma run_category_ok (calls : list (call A)) :
  forall self, Forall category_ok (rows (df self)) ->
               Forall category_ok (rows (df (fst (run self calls)))).
Proof.
  induction calls as [|c calls IH]; intros self Hall; [exact Hall|].
  rewrite run_cons. cbn [fst]. apply IH.
  destruct (perform_step self c) as [-> | Hs]; [exact Hall|].
  exact (step_category_ok _ _ Hs Hall).
Qed.

Lemma add_expense_listed_prints (self : Tracker A) (amount : PyObject A)
    (category description : string) (date : DateArg) (now : Timestamp) :
  In category categories ->
  ~ In (Print InvalidCategoryMsg)
       (snd (add_expense self amount category description date now)).
Proof.
  intro Hin. unfold add_expense.
  assert (O : ~ In (Print InvalidCategoryMsg)
                (snd (match date with
                      | DateOmitted => (now, @nil (effect A))
                      | DateParsed ts => (ts, [])
                      | DateRejected => (now, [Print InvalidDateMsg])
                      end))).
  { destruct date; cbn [snd In]; intuition discriminate. }
  destruct (match date with
            | DateOmitted => (now, [])
            | DateParsed ts => (ts, [])
            | DateRejected => (now, [Print InvalidDateMsg])
            end) as [date' out0]. cbn [snd] in O.
  destruct (in_dec string_dec category categories); [|contradiction].
  destruct (py_float amount); [|exact O].
  destruct (align_dtypes _ _ _); [|exact O].
  cbn [snd]. intro Hp. apply in_app_or in Hp. destruct Hp as [Hp|Hp]; [exact (O Hp)|].
  unfold save_data in Hp. destruct Hp as [E|[E|[]]]; discriminate.
Qed.

Lemma run_validated_prints (calls : list (call A)) :
  Forall validated calls ->
  forall self, ~ In (Print InvalidCategoryMsg) (effects_in (snd (run self calls))).
Proof.
  induction 1 as [|c calls Hc _ IH]; intros self; [intros []|].
  rewrite run_cons. cbn [snd]. rewrite effects_in_app, perform_effects.
  intro Hp. apply in_app_or in Hp. destruct Hp as [Hp|Hp]; [|exact (IH _ Hp)].
  destruct c; try contradiction.
  - destruct Hc as [Hin _].
    exact (add_expense_listed_prints _ _ _ _ _ _ Hin Hp).
  - revert Hp. unfold generate_monthly_report.
    destruct (group Month _ _); cbn [fst snd].
    + intros [E|[]]. discriminate.
    + destruct (renders _); [|intros []].
      intros [E|[E|[E|[]]]]; discriminate.
Qed.

Lemma last_saved_effects (events : list (event A)) :
  forall file, last_saved file events = last_saved file (map Effect (effects_in events)).
Proof.
  induction events as [|e events IH]; intro file; [reflexivity|].
  destruct e as [x|c f|f|m|p];
    try (change (last_saved file (_ :: events)) with (last_saved file events);
         exact (IH file)).
  change (effects_in (Effect x :: events)) with (x :: effects_in events).
  cbn [map].
  change (last_saved file (Effect x :: events))
    with (last_saved (match x with ToCsv g => g | _ => file end) events).
  change (last_saved file (Effect x :: map Effect (effects_in events)))
    with (last_saved (match x with ToCsv g => g | _ => file end)
            (map Effect (effects_in events))).
  apply IH.
Qed.

Lemma run_keeps_file (calls : list (call A)) :
  forall (self : Tracker A) (file : DataFrame A),
    same_transactions file (df self) ->
    same_transactions (last_saved file (snd (run self calls)))
                      (df (fst (run self calls))).
Proof.
  induction calls as [|c calls IH]; intros self file Hs; [exact Hs|].
  rewrite run_cons. cbn [fst snd]. rewrite last_saved_app.
  apply IH. apply perform_keeps_file_in_step. exact Hs.
Qed.

(** Whatever is typed at its prompts, [interactive_menu] ends: by choice 6,
    for want of input, or by an exception.  Up to then it has acted on the
    tracker and on the files exactly as a sequence of calls of the public
    methods does in which [add_expense] is only given a float and a
    category of [self.categories]: the menu never has [add_expense] turn a
    category down. *)
Theorem interactive_menu_acts_by_validated_calls
    (data_file : option (DataFrame A)) (clock : nat -> Timestamp)
    (inputs : list string) :
  let '(e, tracker, events) := interactive_menu data_file clock inputs in
  e <> OutOfFuel /\
  (exists calls,
      Forall validated calls /\
      tracker = fst (run (fst (init data_file)) calls) /\
      effects_in events =
        snd (init data_file) ++ effects_in (snd (run (fst (init data_file)) calls))) /\
  ~ In (Print InvalidCategoryMsg) (effects_in events).
Proof.
  unfold interactive_menu.
  destruct (init data_file) as [tracker0 out0] eqn:E0. cbn [fst snd].
  destruct (menu_loop_acts clock (S (List.length inputs)) 0 tracker0 inputs
              (Nat.lt_succ_diag_r _)) as (Hf & calls & Hv & Ht & He).
  destruct (menu_loop (S (List.length inputs)) 0 clock tracker0 inputs)
    as [[e tracker] events]. cbn [fst snd] in *.
  assert (Ee : effects_in (map Effect out0 ++ events) =
               out0 ++ effects_in (snd (run tracker0 calls))).
  { rewrite effects_in_app, effects_in_Effect, He. reflexivity. }
  split; [exact Hf|]. split.
  - exists calls. auto.
  - rewrite Ee. intro Hp. apply in_app_or in Hp. destruct Hp as [Hp|Hp].
    + unfold init in E0. destruct data_file; injection E0 as <- <-.
      * destruct Hp.
      * destruct Hp as [E|[]]. discriminate.
    + exact (run_validated_prints calls Hv tracker0 Hp).
Qed.

(** The ledger [interactive_menu] ends with is one a session of method
    calls reaches from the data file found at start-up; and when the
    transactions of that file, if any, have their categories in
    [self.categories], so have all the transactions of the ledger at the
    end, whatever was typed. *)
Theorem interactive_menu_keeps_categories
    (data_file : option (DataFrame A)) (clock : nat -> Timestamp)
    (inputs : list string) :
  (forall frame, data_file = Some frame -> Forall category_ok (rows frame)) ->
  let tracker := snd (fst (interactive_menu data_file clock inputs)) in
  reachable data_file tracker /\ Forall category_ok (rows (df tracker)).
Proof.
  intros Hfile. unfold interactive_menu.
  assert (H0 : Forall category_ok (rows (df (fst (init data_file))))).
  { unfold init. destruct data_file as [frame|]; cbn [fst df].
    - apply Hfile. reflexivity.
    - constructor. }
  pose proof (reach_init (sv := sv) data_file) as R0.
  destruct (init data_file) as [tracker0 out0]. cbn [fst] in H0, R0.
  destruct (menu_loop_acts clock (S (List.length inputs)) 0 tracker0 inputs
              (Nat.lt_succ_diag_r _)) as (_ & calls & _ & Ht & _).
  destruct (menu_loop (S (List.length inputs)) 0 clock tracker0 inputs)
    as [[e tracker] events]. cbn [fst snd] in *. subst tracker. split.
  - apply run_reachable. exact R0.
  - apply run_category_ok. exact H0.
Qed.

(** Whatever is typed and however the run ends, the frame the data file was
    last written from (the one read at start-up, if the run wrote none)
    holds the same transactions, in the same order, as the ledger the menu
    ends with: every expense entered through the menu is in the file. *)
Theorem interactive_menu_saves_every_expense
    (data_file : option (DataFrame A)) (clock : nat -> Timestamp)
    (inputs : list string) :
  let '(e, tracker, events) := interactive_menu data_file clock inputs in
  same_transactions
    (last_saved (match data_file with Some frame => frame | None => empty_frame end)
                events)
    (df tracker).
Proof.
  unfold interactive_menu.
  assert (S0 : same_transactions
                 (last_saved (match data_file with
                              | Some frame => frame
                              | None => empty_frame
                              end) (map Effect (snd (init data_file))))
                 (df (fst (init data_file)))).
  { unfold init. destruct data_file; split; reflexivity. }
  destruct (init data_file) as [tracker0 out0]. cbn [fst snd] in S0.
  destruct (menu_loop_acts clock (S (List.length inputs)) 0 tracker0 inputs
              (Nat.lt_succ_diag_r _)) as (_ & calls & _ & Ht & He).
  destruct (menu_loop (S (List.length inputs)) 0 clock tracker0 inputs)
    as [[e tracker] events]. cbn [fst snd] in *. subst tracker.
  rewrite last_saved_app, (last_saved_effects events), He,
    <- (last_saved_effects (snd (run tracker0 calls))).
  apply run_keeps_file. exact S0.
Qed.

(** On a ledger without transactions, choices 2 to 5 answer "No expenses
    recorded yet." and go back to the menu: nothing is drawn or written,
    choice 5 does not ask for a month, and the next line typed is read as
    the next choice.  Choice 3 has written the Month column into the empty
    frame all the same. *)
Theorem menu_on_empty_ledger (tracker : Tracker A) (choice : string)
    (rest : list string) (now : Timestamp) :
  SortSpec sv ->
  rows (df tracker) = [] ->
  In choice ["2"; "3"; "4"; "5"] ->
  menu_pass tracker (choice :: rest) now =
  (Next (if String.eqb choice "3"
         then {| df := assign_Month (df tracker) |} else tracker) rest,
   [Show MenuText; Ask ChoicePrompt; Show NoExpensesRecordedText]).
Proof.
  intros Hsv Hrows Hc.
  assert (Ec : sort_values_desc (string * A) snd
                 (groupby_sum by_category (rows (df tracker))) = []).
  { apply Permutation_nil. apply Permutation_sym.
    rewrite Hrows. apply (sort_Permutation (string * A) snd []). }
  assert (Em : groupby_sum Month (rows (assign_Month (df tracker))) = []).
  { unfold assign_Month. cbn [rows]. rewrite Hrows. reflexivity. }
  unfold menu_pass.
  destruct Hc as [<-|[<-|[<-|[<-|[]]]]];
    repeat match goal with
           | |- context [String.eqb ?a ?b] =>
               let v := eval vm_compute in (String.eqb a b) in
               change (String.eqb a b) with v
           end;
    cbv iota zeta.
  - unfold menu_by_category, get_expenses_by_category. rewrite Ec. reflexivity.
  - unfold menu_by_month, get_expenses_by_month. cbv zeta. rewrite Em. reflexivity.
  - unfold menu_category_trends. rewrite Hrows. reflexivity.
  - unfold menu_report. rewrite Hrows. reflexivity.
Qed.

End Menu.

Lemma interactive_menu_keeps_categories_witness :
  let lib : Libraries Binary64.float64 :=
    {| to_datetime := fun _ => None;
       draws := fun _ => true;
       renders := fun _ => true |} in
  let tracker :=
    snd (fst (interactive_menu (sv := stable_sort) (lib := lib) None
                (fun _ => mkTimestamp 2024 3 1)
                ["1"; "12.5"; "1"; "lunch"; ""; "6"])) in
  reachable (sv := stable_sort) None tracker /\
  Forall category_ok (rows (df tracker)).
Proof.
  intros lib tracker.
  apply (interactive_menu_keeps_categories (sv := stable_sort) (lib := lib) None
           (fun _ => mkTimestamp 2024 3 1) ["1"; "12.5"; "1"; "lunch"; ""; "6"]).
  intros frame E. discriminate E.
Defined.

Lemma menu_on_empty_ledger_witness :
  let lib : Libraries Binary64.float64 :=
    {| to_datetime := fun _ => None;
       draws := fun _ => true;
       renders := fun _ => true |} in
  let tracker : Tracker Binary64.float64 := fst (init None) in
  menu_pass (sv := stable_sort) (lib := lib) tracker ["5"; "6"]
            (mkTimestamp 2024 3 1) =
  (Next tracker ["6"],
   [Show MenuText; Ask ChoicePrompt; Show NoExpensesRecordedText]).
Proof.
  intros lib tracker.
  apply (menu_on_empty_ledger (sv := stable_sort) (lib := lib) tracker "5" ["6"]
           (mkTimestamp 2024 3 1) stable_sort_spec).
  - reflexivity.
  - right. right. right. left. reflexivity.
Defined.

(** A session at the menu: one expense entered under the first category,
    then choice 6. *)
Example example_menu_session :
  let lib : Libraries Binary64.float64 :=
    {| to_datetime := fun _ => None;
       draws := fun _ => true;
       renders := fun _ => true |} in
  let row : Row Binary64.float64 :=
    {| Date := mkTimestamp 2024 3 1; Amount := Example.amount "12.5";
       Category := "Food"; Description := Text "lunch"; Month := None |} in
  fst (interactive_menu (sv := stable_sort) (lib := lib) None
         (fun _ => mkTimestamp 2024 3 1)
         ["1"; "12.5"; "1"; "lunch"; ""; "6"]) =
  (Exited,
   {| df := {| columns := base_columns; Description_dtype := dt_object;
               rows := [row] |} |}).
Proof. vm_compute. reflexivity. Qed.

(** ** An expense entered at the menu *)

Section MenuEntry.

Context {A : Type} `{AmountArith A} {sv : SortValues A} {lib : Libraries A}.

(** Choice 1 with an amount [float] reads, a category number from 1 to the
    number of categories, a description and a date line, on a ledger whose
    Description column is of dtype object: after the five prompts the
    ledger has gained one row at its end, holding the amount read, the
    category standing at that number in [self.categories], the description
    as typed, and the date typed, or the current date when the line is empty
    or is not a date (then with the warning printed); the new frame is
    saved, and the line after the date is read as the next choice. *)
Theorem menu_records_the_expense_typed (tracker : Tracker A)
    (amount_text choice_text description date_str : string)
    (rest : list string) (now : Timestamp) (x : A) (k : Z) :
  Description_dtype (df tracker) = dt_object ->
  py_float (PyStr amount_text) = Value x ->
  py_int choice_text = Some k ->
  (1 <= k <= Z.of_nat (List.length categories))%Z ->
  let date := if String.eqb date_str "" then DateOmitted
              else match to_datetime date_str with
                   | Some ts => DateParsed ts
                   | None => DateRejected
                   end in
  let row := {| Date := match date with DateParsed ts => ts | _ => now end;
                Amount := x;
                Category := nth (Z.to_nat (k - 1)) categories "";
                Description := Text description;
                Month := None |} in
  let frame := concat (df tracker) row in
  menu_pass tracker
    ("1" :: amount_text :: choice_text :: description :: date_str :: rest) now =
  (Next {| df := frame |} rest,
   [Show MenuText; Ask ChoicePrompt; Ask AmountPrompt; Show CategoriesText;
    Ask CategoryPrompt; Ask DescriptionPrompt; Ask DatePrompt]
   ++ map Effect (match date with DateRejected => [Print InvalidDateMsg] | _ => [] end
                  ++ [ToCsv frame; Print ExpenseAddedMsg])).
Proof.
  intros Hd Hx Hk Hrange date row frame.
  assert (G : ((1 <=? k) && (k <=? Z.of_nat (List.length categories)))%Z = true).
  { apply andb_true_intro. split; apply Z.leb_le; lia. }
  pose proof (listed_category k G) as Hin.
  unfold menu_pass.
  change (String.eqb "1" "1") with true. cbv iota zeta.
  unfold menu_add_expense. rewrite Hx, Hk. cbv zeta. rewrite G.
  fold date.
  set (category := nth (Z.to_nat (k - 1)) categories "") in *.
  assert (E : add_expense tracker (PyFloat x) category description date now =
              (Value true, {| df := frame |},
               match date with DateRejected => [Print InvalidDateMsg] | _ => [] end
               ++ [ToCsv frame; Print ExpenseAddedMsg])).
  { unfold add_expense.
    destruct (in_dec string_dec category categories) as [_|Hnot];
      [|contradiction].
    cbn [py_float].
    destruct date; cbv zeta; rewrite align_dtypes_object by exact Hd; reflexivity. }
  rewrite E. reflexivity.
Qed.

End MenuEntry.

Lemma menu_records_the_expense_typed_witness :
  let lib : Libraries Binary64.float64 :=
    {| to_datetime := fun _ => None;
       draws := fun _ => true;
       renders := fun _ => true |} in
  let now := mkTimestamp 2024 3 1 in
  let row : Row Binary64.float64 :=
    {| Date := now; Amount := Example.amount "12.5"; Category := "Housing";
       Description := Text "rent"; Month := None |} in
  let frame := concat (df Example.ledger) row in
  menu_pass (sv := stable_sort) (lib := lib) Example.ledger
    ["1"; "12.5"; "3"; "rent"; ""; "6"] now =
  (Next {| df := frame |} ["6"],
   [Show MenuText; Ask ChoicePrompt; Ask AmountPrompt; Show CategoriesText;
    Ask CategoryPrompt; Ask DescriptionPrompt; Ask DatePrompt]
   ++ map Effect [ToCsv frame; Print ExpenseAddedMsg]).
Proof.
  intros lib now row frame.
  apply (menu_records_the_expense_typed (sv := stable_sort) (lib := lib)
           Example.ledger "12.5" "3" "rent" "" ["6"] now
           (Example.amount "12.5") 3%Z).
  - reflexivity.
  - vm_compute. reflexivity.
  - vm_compute. reflexivity.
  - vm_compute. split; discriminate.
Defined.

(** ** What the menu charts *)

Section MenuCharts.

Context {A : Type} `{AmountArith A} {sv : SortValues A} {lib : Libraries A}.

Lemma charts_in_app (e1 e2 : list (event A)) :
  charts_in (e1 ++ e2) = charts_in e1 ++ charts_in e2.
Proof. unfold charts_in. apply flat_map_app. Qed.

Lemma charts_in_Effect (out : list (effect A)) :
  charts_in (map Effect out) = [].
Proof. induction out as [|e out IH]; [reflexivity | exact IH]. Qed.

Lemma In_Draw_charts (c : chart A) (file : string) (events : list (event A)) :
  In (Draw c file) events -> In c (charts_in events).
Proof.
  intro Hin. unfold charts_in. apply in_flat_map.
  exists (Draw c file). split; [exact Hin | left; reflexivity].
Qed.

Lemma charts_in_plot (c : chart A) (file : string) :
  charts_in (snd (plot c file)) = [] \/ charts_in (snd (plot c file)) = [c].
Proof. unfold plot. destruct (draws c); [right | left]; reflexivity. Qed.

Lemma menu_add_expense_charts (tracker : Tracker A) (inputs : list string)
    (now : Timestamp) :
  charts_in (snd (menu_add_expense tracker inputs now)) = [].
Proof.
  unfold menu_add_expense.
  destruct inputs as [|amount_text inputs1]; [reflexivity|].
  destruct (py_float (PyStr amount_text)); [|reflexivity].
  cbv zeta.
  destruct inputs1 as [|choice_text inputs2]; [reflexivity|].
  destruct (py_int choice_text); [|reflexivity].
  destruct (_ && _)%bool; [|reflexivity].
  destruct inputs2 as [|description inputs3]; [reflexivity|].
  destruct inputs3 as [|date_str inputs4]; [reflexivity|].
  destruct (add_expense _ _ _ _ _ _) as [[[result|e] tracker'] out];
    cbn [snd]; rewrite charts_in_app, charts_in_Effect; reflexivity.
Qed.

Lemma menu_report_charts (tracker : Tracker A) (inputs : list string)
    (now : Timestamp) :
  charts_in (snd (menu_report tracker inputs now)) = [].
Proof.
  unfold menu_report.
  destruct (rows (df tracker)); [reflexivity|].
  destruct inputs as [|month_text inputs1]; [reflexivity|].
  cbv zeta.
  destruct (if String.eqb month_text "" then true else _); [|reflexivity].
  destruct (generate_monthly_report _ _ _) as [[report t1] out].
  destruct report as [r'|]; [destruct (renders r')|]; cbn [snd];
    try reflexivity;
    change (Ask MonthPrompt :: map Effect out)
      with ([Ask MonthPrompt] ++ map (@Effect A) out);
    rewrite charts_in_app, charts_in_Effect; reflexivity.
Qed.

(** Every figure a pass of the menu draws shows an aggregate of the ledger
    as it stood when the pass began: under choice 2 the totals by category,
    under choice 3 the monthly totals, under choice 4 the pivot; no other
    choice draws.  Under choices 2 and 3 the totals charted are the very
    ones the pass printed before, although choice 3 has written the Month
    column in between. *)
Theorem menu_charts_what_it_prints (tracker : Tracker A) (choice : string)
    (rest : list string) (now : Timestamp) (c : chart A) (file : string) :
  let events := snd (menu_pass tracker (choice :: rest) now) in
  In (Draw c file) events ->
  (choice = "2" /\
   c = PieChart (fst (get_expenses_by_category tracker)) /\
   In (Show (CategoryTotalsText (fst (get_expenses_by_category tracker)))) events) \/
  (choice = "3" /\
   c = LineChart (fst (get_expenses_by_month tracker)) /\
   In (Show (MonthlyTotalsText (fst (get_expenses_by_month tracker)))) events) \/
  (choice = "4" /\
   c = StackedBars (fst (get_category_expenses_by_month tracker))).
Proof.
  intros events Hin. apply In_Draw_charts in Hin. subst events.
  unfold menu_pass in *. cbv zeta in *.
  destruct (String.eqb_spec choice "1") as [E1|E1].
  { exfalso. revert Hin.
    pose proof (menu_add_expense_charts tracker rest now) as C.
    destruct (menu_add_expense tracker rest now) as [next out].
    cbn [snd] in *. rewrite charts_in_app, C. intros []. }
  destruct (String.eqb_spec choice "2") as [E2|E2].
  { left. split; [exact E2|]. revert Hin.
    unfold menu_by_category, visualize_expenses_by_category.
    destruct (get_expenses_by_category tracker) as [data tracker1] eqn:Eg.
    assert (Et : tracker1 = tracker).
    { unfold get_expenses_by_category in Eg. injection Eg as _ <-. reflexivity. }
    subst tracker1. cbn [fst].
    destruct data as [|entry data]; [intros []|].
    rewrite Eg.
    pose proof (charts_in_plot (PieChart (entry :: data))
                  "expenses_by_category.png") as P.
    destruct (plot (PieChart (entry :: data)) "expenses_by_category.png")
      as [ok out]. cbn [snd] in *.
    intro Hin. split.
    - destruct P as [P|P]; rewrite charts_in_app in Hin; cbn [charts_in flat_map app] in Hin;
        fold (charts_in out) in Hin; rewrite P in Hin.
      + destruct Hin.
      + destruct Hin as [<-|[]]. reflexivity.
    - apply in_or_app. right. left. reflexivity. }
  destruct (String.eqb_spec choice "3") as [E3|E3].
  { right. left. split; [exact E3|]. revert Hin.
    unfold menu_by_month.
    pose proof (visualize_monthly_trend_again tracker) as V.
    destruct (get_expenses_by_month tracker) as [data tracker1] eqn:Eg.
    cbn [fst snd] in *.
    destruct data as [|entry data]; [intros []|].
    rewrite V. unfold visualize_monthly_trend. rewrite Eg.
    pose proof (charts_in_plot (LineChart (entry :: data))
                  "monthly_expenses.png") as P.
    destruct (plot (LineChart (entry :: data)) "monthly_expenses.png")
      as [ok out]. cbn [snd] in *.
    intro Hin. split.
    - destruct P as [P|P]; rewrite charts_in_app in Hin; cbn [charts_in flat_map app] in Hin;
        fold (charts_in out) in Hin; rewrite P in Hin.
      + destruct Hin.
      + destruct Hin as [<-|[]]. reflexivity.
    - apply in_or_app. right. left. reflexivity. }
  destruct (String.eqb_spec choice "4") as [E4|E4].
  { right. right. split; [exact E4|]. revert Hin.
    unfold menu_category_trends.
    destruct (rows (df tracker)); [intros []|].
    unfold visualize_category_trends.
    destruct (get_category_expenses_by_month tracker) as [data tracker1].
    cbn [fst].
    pose proof (charts_in_plot (StackedBars data)
                  "category_expenses_by_month.png") as P.
    destruct (plot (StackedBars data) "category_expenses_by_month.png")
      as [ok out]. cbn [snd] in *.
    intro Hin.
    destruct P as [P|P]; rewrite charts_in_app in Hin; cbn [charts_in flat_map app] in Hin;
      fold (charts_in out) in Hin; rewrite P in Hin.
    - destruct Hin.
    - destruct Hin as [<-|[]]. reflexivity. }
  exfalso. revert Hin.
  destruct (String.eqb choice "5").
  { pose proof (menu_report_charts tracker rest now) as C.
    destruct (menu_report tracker rest now) as [next out].
    cbn [snd] in *. rewrite charts_in_app, C. intros []. }
  destruct (String.eqb choice "6"); intros [].
Qed.

End MenuCharts.

Lemma menu_charts_what_it_prints_witness :
  let lib : Libraries Binary64.float64 :=
    {| to_datetime := fun _ => None;
       draws := fun _ => true;
       renders := fun _ => true |} in
  let totals := [("2024-01", Example.amount "150"); ("2024-02", Example.a200)] in
  let events :=
    snd (menu_pass (sv := stable_sort) (lib := lib) Example.ledger ["3"; "6"]
           (mkTimestamp 2024 3 1)) in
  In (Draw (LineChart totals) "monthly_expenses.png") events /\
  ((("3" = "2" /\
     LineChart totals =
       PieChart (fst (get_expenses_by_category (sv := stable_sort) Example.ledger)) /\
     In (Show (CategoryTotalsText
                 (fst (get_expenses_by_category (sv := stable_sort) Example.ledger))))
        events) \/
    ("3" = "3" /\
     LineChart totals = LineChart (fst (get_expenses_by_month Example.ledger)) /\
     In (Show (MonthlyTotalsText (fst (get_expenses_by_month Example.ledger)))) events) \/
    ("3" = "4" /\
     LineChart totals =
       StackedBars (fst (get_category_expenses_by_month Example.ledger))))%type).
Proof.
  intros lib totals events.
  assert (Hin : In (Draw (LineChart totals) "monthly_expenses.png") events).
  { vm_compute. right. right. right. left. reflexivity. }
  split; [exact Hin|].
  exact (menu_charts_what_it_prints (sv := stable_sort) (lib := lib) Example.ledger
           "3" ["6"] (mkTimestamp 2024 3 1) (LineChart totals)
           "monthly_expenses.png" Hin).
Defined.
